(** * 2.5D tensor-parallel operations of ColossalAI

    A shallow embedding of [colossalai/nn/layer/parallel_2p5d/_operation.py]:
    the autograd functions [Matmul_AB_2p5D], [Matmul_ABT_2p5D],
    [Matmul_ATB_2p5D], [Add_Bias_2p5D], [_LayerNorm_2p5D], [AllGatherLast]
    and [SplitFirst].

    Every process of the job runs the same Python code on its own tile and
    meets the other processes of its row or column group in collective
    calls.  The embedding keeps that shape: the code of one process is a
    program in the monad [Prog], whose effects are the collective calls of
    [torch.distributed] and the Python exceptions; a grid of such programs
    is run in lock step by [run_grid], which gives the collectives their
    meaning.

    Numbers: tensor entries are exact rationals ([Q]).  The half and single
    precision floats of the source round, and rounding is not modelled. *)

From Stdlib Require Import ZArith QArith Lia ZifyBool String Ascii DecimalString.
From stdpp Require Import base option list.

Local Open Scope string_scope.
Local Open Scope list_scope.
Local Open Scope nat_scope.

(* ================================================================= *)
(** ** Python values *)

(** The exceptions the modelled code can raise. *)
Inductive Exn : Type :=
| AssertionError (msg : string)
| IndexError (msg : string)
| RuntimeError (msg : string)
| TypeError (msg : string).

(** [l[i]] on a Python sequence: a negative index counts from the end. *)
Definition py_index {A : Type} (l : list A) (i : Z) : option A :=
  let n := Z.of_nat (length l) in
  if (0 <=? i)%Z then l !! Z.to_nat i
  else if (- n <=? i)%Z then l !! Z.to_nat (n + i)
  else None.

(** [range(n)]. *)
Definition py_range (n : Z) : list Z := Z.of_nat <$> seq 0 (Z.to_nat n).

(** [l.insert(i, x)]: the index is clamped to the list, as Python does. *)
Definition py_insert {A : Type} (l : list A) (i : Z) (x : A) : list A :=
  let n := Z.of_nat (length l) in
  let i := if (i <? 0)%Z then Z.max 0 (n + i) else Z.min i n in
  take (Z.to_nat i) l ++ x :: drop (Z.to_nat i) l.

(** [str] of a non-negative integer. *)
Definition show_nat (n : nat) : string := NilEmpty.string_of_uint (Nat.to_uint n).

(** [str] of a [torch.Size]. *)
Definition show_size (s : list nat) : string :=
  "torch.Size([" ++ String.concat ", " (show_nat <$> s) ++ "])".

(* ================================================================= *)
(** ** Tensors *)

(** A dense tensor: its shape and its entries in row-major order.  Strides
    are not modelled, so [contiguous] and [clone] are the identity. *)
Record Tensor : Type := mkTensor { shape : list nat; data : list Q }.

Definition size_prod (s : list nat) : nat := foldr Nat.mul 1 s.
Definition numel (t : Tensor) : nat := size_prod (shape t).
Definition ndim (t : Tensor) : nat := length (shape t).
Definition well_formed (t : Tensor) : Prop := length (data t) = numel t.

Definition clone (t : Tensor) : Tensor := t.
Definition contiguous (t : Tensor) : Tensor := t.

(** Sum of a list of scalars, left to right. *)
Definition Qsum (l : list Q) : Q := foldl Qplus 0%Q l.

(** Entry [i] of the flat data; entry [(i, j)] of a matrix with [cols]
    columns. *)
Definition flat_get (t : Tensor) (i : nat) : Q := nth i (data t) 0%Q.
Definition cols (t : Tensor) : nat := nth 1 (shape t) 0.
Definition rows (t : Tensor) : nat := nth 0 (shape t) 0.
Definition get2 (t : Tensor) (i j : nat) : Q := flat_get t (i * cols t + j).

(** The [m] by [n] matrix with entries [f i j]. *)
Definition tab2 (m n : nat) (f : nat → nat → Q) : Tensor :=
  mkTensor [m; n] ((λ o, f (o / n) (o mod n)) <$> seq 0 (m * n)).

(** Multi-index of a flat offset in a tensor of shape [s], and back. *)
Fixpoint unravel (s : list nat) (o : nat) : list nat :=
  match s with
  | [] => []
  | _ :: s' => o / size_prod s' :: unravel s' (o mod size_prod s')
  end.

Fixpoint ravel (s : list nat) (mi : list nat) : nat :=
  match s, mi with
  | _ :: s', i :: mi' => i * size_prod s' + ravel s' mi'
  | _, _ => 0
  end.

(** The tensor of shape [s] whose entry at multi-index [mi] is [f mi]. *)
Definition tabulate (s : list nat) (f : list nat → Q) : Tensor :=
  mkTensor s ((λ o, f (unravel s o)) <$> seq 0 (size_prod s)).

Definition get (t : Tensor) (mi : list nat) : Q := flat_get t (ravel (shape t) mi).

(** A dimension argument [dim] of a tensor with [n] dimensions, normalised
    to [0 .. n-1]; [None] when out of range. *)
Definition norm_dim (n : nat) (dim : Z) : option nat :=
  let n := Z.of_nat n in
  if ((0 <=? dim) && (dim <? n))%Z then Some (Z.to_nat dim)
  else if ((- n <=? dim) && (dim <? 0))%Z then Some (Z.to_nat (n + dim))
  else None.

(* ================================================================= *)
(** ** Programs of one process *)

(** The communication groups a process belongs to.  The source receives
    them as [ParallelMode] values and turns them into group handles with
    [gpc.get_group]; a mode stands for the handle here. *)
Inductive ParallelMode : Type := PARALLEL_2P5D_ROW | PARALLEL_2P5D_COL.

Global Instance ParallelMode_eq_dec : EqDecision ParallelMode.
Proof. solve_decision. Defined.

(** The code of one process: it returns, raises, or issues a collective
    call of [torch.distributed] and goes on with what the call leaves in
    its buffer.  [src] and [dst] are global ranks. *)
Inductive Prog (A : Type) : Type :=
| Ret (a : A)
| Raise (e : Exn)
| AllGather (group : ParallelMode) (tensor_list : list Tensor) (tensor : Tensor)
    (k : list Tensor → Prog A)
| Broadcast (group : ParallelMode) (src : Z) (tensor : Tensor) (k : Tensor → Prog A)
| Reduce (group : ParallelMode) (dst : Z) (tensor : Tensor) (k : Tensor → Prog A)
| AllReduce (group : ParallelMode) (tensor : Tensor) (k : Tensor → Prog A).

Arguments Ret {A} a.
Arguments Raise {A} e.
Arguments AllGather {A} group tensor_list tensor k.
Arguments Broadcast {A} group src tensor k.
Arguments Reduce {A} group dst tensor k.
Arguments AllReduce {A} group tensor k.

Fixpoint bind {A B : Type} (p : Prog A) (f : A → Prog B) : Prog B :=
  match p with
  | Ret a => f a
  | Raise e => Raise e
  | AllGather g l t k => AllGather g l t (λ x, bind (k x) f)
  | Broadcast g r t k => Broadcast g r t (λ x, bind (k x) f)
  | Reduce g r t k => Reduce g r t (λ x, bind (k x) f)
  | AllReduce g t k => AllReduce g t (λ x, bind (k x) f)
  end.

Global Instance Prog_ret : MRet Prog := @Ret.
Global Instance Prog_bind : MBind Prog := λ A B f p, bind p f.

(** [dist.all_gather(tensor_list, tensor, group)] and friends, as
    programs: the result is the new content of the buffer(s). *)
Definition dist_all_gather (tensor_list : list Tensor) (tensor : Tensor)
    (group : ParallelMode) : Prog (list Tensor) :=
  AllGather group tensor_list tensor Ret.
Definition dist_broadcast (tensor : Tensor) (src : Z) (group : ParallelMode) : Prog Tensor :=
  Broadcast group src tensor Ret.
Definition dist_reduce (tensor : Tensor) (dst : Z) (group : ParallelMode) : Prog Tensor :=
  Reduce group dst tensor Ret.
Definition dist_all_reduce (tensor : Tensor) (group : ParallelMode) : Prog Tensor :=
  AllReduce group tensor Ret.

(** [assert cond, msg]. *)
Definition py_assert (cond : bool) (msg : string) : Prog unit :=
  if cond then Ret tt else Raise (AssertionError msg).

(** [l[i]] on a Python list. *)
Definition list_get {A : Type} (l : list A) (i : Z) : Prog A :=
  match py_index l i with
  | Some x => Ret x
  | None => Raise (IndexError "list index out of range")
  end.

(** [t[i]] on a Python tuple, such as the one [Tensor.chunk] returns. *)
Definition tuple_get {A : Type} (t : list A) (i : Z) : Prog A :=
  match py_index t i with
  | Some x => Ret x
  | None => Raise (IndexError "tuple index out of range")
  end.

(** [for i in range(n): s = body(i, s)]. *)
Fixpoint for_each {S : Type} (l : list Z) (body : Z → S → Prog S) (s : S) : Prog S :=
  match l with
  | [] => Ret s
  | i :: l' => s' ← body i s; for_each l' body s'
  end.
Definition for_range {S : Type} (n : Z) (body : Z → S → Prog S) (s : S) : Prog S :=
  for_each (py_range n) body s.

(** What the runtime ([colossalai.core.global_context]) tells a process
    about its place in a group. *)
Class GlobalContext : Type := {
  get_world_size : ParallelMode → Z;
  get_local_rank : ParallelMode → Z
}.

(** What [torch.empty] finds in freshly allocated memory.  Real memory
    holds arbitrary entries, not one value: the model lets it hold
    [empty_value] throughout, and no theorem says what a tensor that was
    never written holds. *)
Class Allocator : Type := empty_value : Q.

(* ================================================================= *)
(** ** The torch operations the source calls *)

Definition full (s : list nat) (x : Q) : Tensor := mkTensor s (replicate (size_prod s) x).

(** [t.shape[i]] and [t.size(i)]. *)
Definition shape_at (t : Tensor) (i : Z) : Prog nat :=
  match py_index (shape t) i with
  | Some n => Ret n
  | None => Raise (IndexError "tuple index out of range")
  end.
Definition size_at (t : Tensor) (i : Z) : Prog nat :=
  match py_index (shape t) i with
  | Some n => Ret n
  | None => Raise (IndexError "Dimension out of range")
  end.

(** [torch.zeros(size)] and [torch.empty(size)]. *)
Definition torch_zeros (size : list Z) : Prog Tensor :=
  if existsb (λ x, x <? 0)%Z size
  then Raise (RuntimeError "Trying to create tensor with negative dimension")
  else Ret (full (Z.to_nat <$> size) 0%Q).
Definition torch_empty `{Allocator} (size : list Z) : Prog Tensor :=
  if existsb (λ x, x <? 0)%Z size
  then Raise (RuntimeError "Trying to create tensor with negative dimension")
  else Ret (full (Z.to_nat <$> size) empty_value).
Definition torch_zeros_like (t : Tensor) : Tensor := full (shape t) 0%Q.
Definition torch_empty_like `{Allocator} (t : Tensor) : Tensor := full (shape t) empty_value.

(** The product of the entries of a requested shape other than [-1]. *)
Definition known_prod (s : list Z) : Z :=
  foldr (λ x acc, if (x =? -1)%Z then acc else (x * acc)%Z) 1%Z s.

(** [t.reshape(s)]: at most one entry of [s] is [-1] and is inferred. *)
Definition reshape (t : Tensor) (s : list Z) : Prog Tensor :=
  let n := Z.of_nat (numel t) in
  let p := known_prod s in
  if existsb (λ x, x <? -1)%Z s
  then Raise (RuntimeError "invalid shape dimension")
  else match count_occ Z.eq_dec s (-1)%Z with
       | 0 =>
           if (p =? n)%Z then Ret (mkTensor (Z.to_nat <$> s) (data t))
           else Raise (RuntimeError "shape is invalid for input size")
       | 1 =>
           if (p =? 0)%Z
           then Raise (RuntimeError "cannot reshape: the unspecified dimension is ambiguous or invalid")
           else if (n mod p =? 0)%Z
           then Ret (mkTensor ((λ x, Z.to_nat (if (x =? -1)%Z then n / p else x)%Z) <$> s) (data t))
           else Raise (RuntimeError "shape is invalid for input size")
       | _ => Raise (RuntimeError "only one dimension can be inferred")
       end.

(** [t.permute(dims)]. *)
Definition torch_permute (t : Tensor) (dims : list Z) : Prog Tensor :=
  if decide (length dims = ndim t) then
    match mapM (norm_dim (ndim t)) dims with
    | Some ds =>
        if decide (NoDup ds) then
          Ret (tabulate ((λ d, nth d (shape t) 0) <$> ds)
                 (λ mi, get t (foldr (λ '(d, i) acc, <[d := i]> acc)
                                  (replicate (ndim t) 0) (zip ds mi))))
        else Raise (RuntimeError "permute: repeated dim")
    | None => Raise (IndexError "Dimension out of range")
    end
  else Raise (RuntimeError "permute: number of dimensions in the tensor input does not match the length of the desired ordering of dimensions").

(** [t.transpose(dim0, dim1)]. *)
Definition torch_transpose (t : Tensor) (dim0 dim1 : Z) : Prog Tensor :=
  match norm_dim (ndim t) dim0, norm_dim (ndim t) dim1 with
  | Some d0, Some d1 =>
      torch_permute t (Z.of_nat <$> <[d0 := d1]> (<[d1 := d0]> (seq 0 (ndim t))))
  | _, _ => Raise (IndexError "Dimension out of range")
  end.

(** [torch.matmul(a, b)] on two matrices (the source only calls it on
    tensors it has reshaped to two dimensions). *)
Definition torch_matmul (a b : Tensor) : Prog Tensor :=
  match shape a, shape b with
  | [m; k], [k'; n] =>
      if decide (k = k')
      then Ret (tab2 m n (λ i j, Qsum ((λ l, get2 a i l * get2 b l j)%Q <$> seq 0 k)))
      else Raise (RuntimeError "mat1 and mat2 shapes cannot be multiplied")
  | _, _ => Raise (RuntimeError "matmul: both arguments must be 2-D here")
  end.

(** [torch.addmm(c, a, b, out=c)]: [c + a @ b]. *)
Definition torch_addmm (c a b : Tensor) : Prog Tensor :=
  p ← torch_matmul a b;
  if decide (shape c = shape p)
  then Ret (mkTensor (shape c) (zip_with Qplus (data c) (data p)))
  else Raise (RuntimeError "addmm: input shape does not match the product").

(** Broadcasting of two shapes, aligned at their last dimensions. *)
Fixpoint broadcast_rev (s1 s2 : list nat) : option (list nat) :=
  match s1, s2 with
  | [], s | s, [] => Some s
  | a :: s1', b :: s2' =>
      r ← broadcast_rev s1' s2';
      if decide (a = b) then Some (a :: r)
      else if decide (a = 1) then Some (b :: r)
      else if decide (b = 1) then Some (a :: r)
      else None
  end.
Definition broadcast_shapes (s1 s2 : list nat) : option (list nat) :=
  reverse <$> broadcast_rev (reverse s1) (reverse s2).

(** The entries of [t] seen through shape [s], to which [t] broadcasts. *)
Definition expand (t : Tensor) (s : list nat) : list Q :=
  (λ o, get t (zip_with (λ n i, if decide (n = 1) then 0 else i) (shape t)
                 (drop (length s - ndim t) (unravel s o))))
    <$> seq 0 (size_prod s).

(** [a op b] entry by entry, when the two broadcast to shape [s]. *)
Definition pointwise (f : Q → Q → Q) (a b : Tensor) (s : list nat) : Tensor :=
  mkTensor s (zip_with f (expand a s) (expand b s)).

(** [a op b] and its in-place form [a op= b], which must not change the
    shape of [a]. *)
Definition binop (f : Q → Q → Q) (a b : Tensor) : Prog Tensor :=
  match broadcast_shapes (shape a) (shape b) with
  | Some s => Ret (pointwise f a b s)
  | None => Raise (RuntimeError "The size of tensor a must match the size of tensor b")
  end.
Definition binop_ (f : Q → Q → Q) (a b : Tensor) : Prog Tensor :=
  match broadcast_shapes (shape a) (shape b) with
  | Some s =>
      if decide (s = shape a)
      then Ret (pointwise f a b s)
      else Raise (RuntimeError "output with this shape doesn't match the broadcast shape")
  | None => Raise (RuntimeError "The size of tensor a must match the size of tensor b")
  end.

Definition torch_add := binop Qplus.
Definition torch_sub := binop Qminus.
Definition torch_mul := binop Qmult.
Definition torch_sub_ := binop_ Qminus.
Definition torch_mul_ := binop_ Qmult.

(** [t /= n] for a Python integer [n]. *)
Definition torch_div_ (t : Tensor) (n : Z) : Tensor :=
  mkTensor (shape t) ((λ x, x / inject_Z n)%Q <$> data t).

(** The sum of [t] over its dimensions [ds]; with [keepdim] they stay, with
    size one. *)
Definition sum_over (t : Tensor) (ds : list nat) (keepdim : bool) : Tensor :=
  let keep i := negb (bool_decide (i ∈ ds)) in
  let proj (mi : list nat) := imap (λ i x, if keep i then x else 0) mi in
  let s_kept := imap (λ i n, if keep i then n else 1) (shape t) in
  let s_out := if keepdim then s_kept
               else omap id (imap (λ i n, if keep i then Some n else None) (shape t)) in
  mkTensor s_out
    ((λ o, Qsum (flat_get t <$>
                   filter (λ i, proj (unravel (shape t) i) = unravel s_kept o)
                     (seq 0 (numel t))))
       <$> seq 0 (size_prod s_kept)).

(** [torch.sum(t, dim=dims, keepdim=keepdim)].  An empty [dims] sums over
    every dimension, as torch does. *)
Definition torch_sum (t : Tensor) (dims : list Z) (keepdim : bool) : Prog Tensor :=
  match mapM (norm_dim (Nat.max 1 (ndim t))) dims with
  | None => Raise (IndexError "Dimension out of range")
  | Some ds =>
      if decide (NoDup ds)
      then Ret (sum_over t (if decide (ds = []) then seq 0 (ndim t) else ds) keepdim)
      else Raise (RuntimeError "dim appears multiple times in the list of dims")
  end.

(** The sum of [t] over every dimension but the last: what
    [torch.sum(t, dim=tuple(range(t.ndim - 1)))] returns. *)
Definition column_sum (t : Tensor) : Tensor :=
  sum_over t (if decide (seq 0 (ndim t - 1) = []) then seq 0 (ndim t)
              else seq 0 (ndim t - 1)) false.

(** The sum of [t] over its last dimension, which stays with size one:
    what [torch.sum(t, dim=-1, keepdim=True)] returns. *)
Definition row_sum (t : Tensor) : Tensor :=
  sum_over t [Nat.max 1 (ndim t) - 1] true.

(** [t.narrow(dim, start, len)]. *)
Definition narrow (t : Tensor) (dim start len : nat) : Tensor :=
  tabulate (<[dim := len]> (shape t))
    (λ mi, get t (alter (λ i, start + i) dim mi)).

(** [t.chunk(chunks, dim)], a tuple of views.  Torch checks, in this
    order, that [t] has a dimension, that [chunks] is positive and that
    [dim] is one of the dimensions of [t]. *)
Definition torch_chunk (t : Tensor) (chunks : Z) (dim : Z) : Prog (list Tensor) :=
  if decide (ndim t = 0)
  then Raise (RuntimeError "chunk expects at least a 1-dimensional tensor")
  else if (chunks <=? 0)%Z
  then Raise (RuntimeError "chunk expects `chunks` to be greater than 0")
  else match norm_dim (ndim t) dim with
       | None => Raise (IndexError "Dimension out of range")
       | Some d =>
           let n := Z.to_nat chunks in
           let len := nth d (shape t) 0 in
           let step := (len + n - 1) / n in
           if decide (step = 0) then Ret (replicate n (narrow t d 0 0))
           else Ret ((λ j, narrow t d (j * step) (Nat.min step (len - j * step)))
                       <$> seq 0 ((len + step - 1) / step))
       end.

(* ================================================================= *)
(** ** Running one process against given replies *)

(** A collective call as the process issues it. *)
Inductive Call : Type :=
| CallAllGather (group : ParallelMode) (tensor_list : list Tensor) (tensor : Tensor)
| CallBroadcast (group : ParallelMode) (src : Z) (tensor : Tensor)
| CallReduce (group : ParallelMode) (dst : Z) (tensor : Tensor)
| CallAllReduce (group : ParallelMode) (tensor : Tensor).

(** The call a program is waiting in, if any. *)
Definition pending {A : Type} (p : Prog A) : option Call :=
  match p with
  | Ret _ | Raise _ => None
  | AllGather g l t _ => Some (CallAllGather g l t)
  | Broadcast g r t _ => Some (CallBroadcast g r t)
  | Reduce g r t _ => Some (CallReduce g r t)
  | AllReduce g t _ => Some (CallAllReduce g t)
  end.

(** The rest of the world seen from one process: what its [n]-th
    collective call leaves in its buffers. *)
Definition Oracle : Type := nat → Call → list Tensor.

(** The calls a program issues against an oracle, and how it ends. *)
Fixpoint run_with {A : Type} (o : Oracle) (n : nat) (p : Prog A) : list Call * (Exn + A) :=
  match p with
  | Ret a => ([], inr a)
  | Raise e => ([], inl e)
  | AllGather g l t k =>
      let c := CallAllGather g l t in
      let r := run_with o (S n) (k (o n c)) in (c :: r.1, r.2)
  | Broadcast g s t k =>
      let c := CallBroadcast g s t in
      let r := run_with o (S n) (k (hd t (o n c))) in (c :: r.1, r.2)
  | Reduce g s t k =>
      let c := CallReduce g s t in
      let r := run_with o (S n) (k (hd t (o n c))) in (c :: r.1, r.2)
  | AllReduce g t k =>
      let c := CallAllReduce g t in
      let r := run_with o (S n) (k (hd t (o n c))) in (c :: r.1, r.2)
  end.

Definition trace_of {A : Type} (o : Oracle) (p : Prog A) : list Call := (run_with o 0 p).1.
Definition result_of {A : Type} (o : Oracle) (p : Prog A) : Exn + A := (run_with o 0 p).2.

(** What a collective call addresses: its kind, its group and the global
    rank it names. *)
Inductive CallSig : Type :=
| SigAllGather (group : ParallelMode)
| SigBroadcast (group : ParallelMode) (src : Z)
| SigReduce (group : ParallelMode) (dst : Z)
| SigAllReduce (group : ParallelMode).

Definition call_sig (c : Call) : CallSig :=
  match c with
  | CallAllGather g _ _ => SigAllGather g
  | CallBroadcast g r _ => SigBroadcast g r
  | CallReduce g r _ => SigReduce g r
  | CallAllReduce g _ => SigAllReduce g
  end.

Definition sigs {A : Type} (o : Oracle) (n : nat) (p : Prog A) : list CallSig :=
  call_sig <$> (run_with o n p).1.

(** A program that does not communicate; one that, besides, fails no
    assertion (the torch operations are of this kind); and one that fails
    no assertion whatever the other processes reply. *)
Definition pure {A : Type} (p : Prog A) : Prop :=
  match p with Ret _ | Raise _ => True | _ => False end.

Definition quiet {A : Type} (p : Prog A) : Prop :=
  match p with
  | Ret _ => True
  | Raise (AssertionError _) => False
  | Raise _ => True
  | _ => False
  end.

Definition is_assertion {A : Type} (r : Exn + A) : Prop :=
  match r with inl (AssertionError _) => True | _ => False end.

Definition never_asserts {A : Type} (p : Prog A) : Prop :=
  ∀ o n, ¬ is_assertion (run_with o n p).2.

(* ================================================================= *)
(** ** The process grid and its collectives *)

(** Modelled from the spec: the runtime that lays the processes out and
    creates their groups ([colossalai.core.global_context]) is not among the
    sources.  Following the spec (sections 3, 4.1 and the glossary), the
    processes of one depth, pipeline and data-parallel slice form a
    [tesseract_dim] by [tesseract_dim] grid; the process at row [r] and
    column [c] has global rank [c + r * tesseract_dim] plus the offset of
    its slice; a row group is the processes of one row and a column group
    those of one column, each listed by increasing global rank, and the
    local rank of a process in a group is its position in that list. *)
Definition slice_offset (tesseract_dim dep_rank data_parallel_rank pipeline_parallel_rank
    pipeline_parallel_size tensor_parallel_size : Z) : Z :=
  (dep_rank * tesseract_dim ^ 2
   + data_parallel_rank * pipeline_parallel_size * tensor_parallel_size
   + pipeline_parallel_rank * tensor_parallel_size)%Z.

(** The rank formula of the spec (section 4.1): the global rank of the
    process at [minor_offset] within its slice. *)
Definition grid_address (minor_offset dep_rank tesseract_dim data_parallel_rank
    pipeline_parallel_rank pipeline_parallel_size tensor_parallel_size : Z) : Z :=
  (minor_offset + dep_rank * tesseract_dim ^ 2
   + data_parallel_rank * pipeline_parallel_size * tensor_parallel_size
   + pipeline_parallel_rank * tensor_parallel_size)%Z.

(** Processes of a slice are numbered [p = r * d + c]. *)
Definition row_of (d p : nat) : nat := p / d.
Definition col_of (d p : nat) : nat := p mod d.

Definition group_members (d : nat) (group : ParallelMode) (p : nat) : list nat :=
  match group with
  | PARALLEL_2P5D_ROW => (λ c, row_of d p * d + c) <$> seq 0 d
  | PARALLEL_2P5D_COL => (λ r, r * d + col_of d p) <$> seq 0 d
  end.

Definition grid_gpc (d p : nat) : GlobalContext :=
  {| get_world_size _ := Z.of_nat d;
     get_local_rank group :=
       match group with
       | PARALLEL_2P5D_ROW => Z.of_nat (col_of d p)
       | PARALLEL_2P5D_COL => Z.of_nat (row_of d p)
       end |}.

(** Entry-wise sum of the tensors [ts] into a buffer shaped like [t]. *)
Definition tensor_sum (t : Tensor) (ts : list Tensor) : Tensor :=
  mkTensor (shape t) ((λ o, Qsum ((λ u, flat_get u o) <$> ts)) <$> seq 0 (length (data t))).

Section Grid.
Context {A : Type}.
(** Side of the grid, and global rank of its process 0. *)
Variable d : nat.
Variable offset : Z.
(** The entries a reduce leaves in the buffer of a process that is not
    the destination: the spec and torch leave them unspecified. *)
Variable scratch : nat → Tensor → list Q.

(** The tensors the members [ms] of a group contribute to a call, when
    all of them are waiting in a matching call ([sel] picks it). *)
Definition contributions (w : list (Prog A)) (ms : list nat)
    (sel : Call → option Tensor) : option (list Tensor) :=
  mapM (λ q, p ← w !! q; c ← pending p; sel c) ms.

Definition sel_all_gather (g : ParallelMode) (c : Call) : option Tensor :=
  match c with
  | CallAllGather g' _ t => if decide (g = g') then Some t else None
  | _ => None
  end.
Definition sel_broadcast (g : ParallelMode) (src : Z) (c : Call) : option Tensor :=
  match c with
  | CallBroadcast g' src' t => if decide (g = g' ∧ src = src') then Some t else None
  | _ => None
  end.
Definition sel_reduce (g : ParallelMode) (dst : Z) (c : Call) : option Tensor :=
  match c with
  | CallReduce g' dst' t => if decide (g = g' ∧ dst = dst') then Some t else None
  | _ => None
  end.
Definition sel_all_reduce (g : ParallelMode) (c : Call) : option Tensor :=
  match c with
  | CallAllReduce g' t => if decide (g = g') then Some t else None
  | _ => None
  end.

(** Position in the group [ms] of the process with global rank [r]. *)
Definition position (ms : list nat) (r : Z) : option nat :=
  fst <$> list_find (λ q, (offset + Z.of_nat q)%Z = r) ms.

(** One step of process [p]: it stays where it is until every member of
    the group is waiting in the matching call, and then goes on with the
    outcome of the call.  Buffers that do not fit are an error. *)
Definition step_proc (w : list (Prog A)) (p : nat) (prog : Prog A) : Prog A :=
  match prog with
  | Ret _ | Raise _ => prog
  | AllGather g bufs t k =>
      match contributions w (group_members d g p) (sel_all_gather g) with
      | Some ts =>
          if decide (shape <$> bufs = shape <$> ts) then k ts
          else Raise (RuntimeError "all_gather: output tensors do not fit the group")
      | None => prog
      end
  | Broadcast g src t k =>
      match contributions w (group_members d g p) (sel_broadcast g src) with
      | Some ts =>
          match position (group_members d g p) src with
          | Some j =>
              let t' := default t (ts !! j) in
              if decide (shape t' = shape t) then k t'
              else Raise (RuntimeError "broadcast: buffer does not fit")
          | None => Raise (RuntimeError "broadcast: src is not in the group")
          end
      | None => prog
      end
  | Reduce g dst t k =>
      match contributions w (group_members d g p) (sel_reduce g dst) with
      | Some ts =>
          match position (group_members d g p) dst with
          | Some j =>
              if decide (Forall (λ u, shape u = shape t) ts) then
                if decide (group_members d g p !! j = Some p) then k (tensor_sum t ts)
                else k (mkTensor (shape t) (scratch p t))
              else Raise (RuntimeError "reduce: buffers do not fit")
          | None => Raise (RuntimeError "reduce: dst is not in the group")
          end
      | None => prog
      end
  | AllReduce g t k =>
      match contributions w (group_members d g p) (sel_all_reduce g) with
      | Some ts =>
          if decide (Forall (λ u, shape u = shape t) ts) then k (tensor_sum t ts)
          else Raise (RuntimeError "all_reduce: buffers do not fit")
      | None => prog
      end
  end.

Definition step_grid (w : list (Prog A)) : list (Prog A) := imap (step_proc w) w.

Definition finished (prog : Prog A) : bool :=
  match prog with Ret _ | Raise _ => true | _ => false end.

Definition outcome (prog : Prog A) : Exn + A :=
  match prog with
  | Ret a => inr a
  | Raise e => inl e
  | _ => inl (RuntimeError "still waiting in a collective call")
  end.

(** Run the grid until every process has returned or raised; [None] when
    [fuel] steps do not suffice (some process waits for ever). *)
Fixpoint run_grid (fuel : nat) (w : list (Prog A)) : option (list (Exn + A)) :=
  if forallb finished w then Some (outcome <$> w)
  else match fuel with
       | 0 => None
       | S fuel' => run_grid fuel' (step_grid w)
       end.

(** The grid in which process [p] runs [prog p] under its runtime. *)
Definition launch (prog : nat → GlobalContext → Prog A) : list (Prog A) :=
  (λ p, prog p (grid_gpc d p)) <$> seq 0 (d * d).
End Grid.

(* ================================================================= *)
(** ** The three matrix products *)

(** What a forward of the matrix products leaves in [ctx] for backward. *)
Record MatmulCtx : Type := {
  saved_tensors : Tensor * Tensor;
  ctx_tesseract_dim : Z;
  ctx_row_rank : Z;
  ctx_col_rank : Z;
  ctx_dep_rank : Z;
  ctx_row_parallel_mode : ParallelMode;
  ctx_col_parallel_mode : ParallelMode;
  ctx_A_shape : list nat;
  ctx_B_shape : list nat;
  ctx_data_parallel_rank : Z;
  ctx_pipeline_parallel_rank : Z;
  ctx_pipeline_parallel_size : Z;
  ctx_tensor_parallel_size : Z
}.

(** A [torch.Size] passed on as a shape argument. *)
Definition size_tuple (s : list nat) : list Z := Z.of_nat <$> s.

(** The names of the positional parameters of [forward] after [ctx], as the
    signatures of the source list them. *)
Definition Matmul_forward_params : list string :=
  ["A"; "B"; "tesseract_dim"; "out_shape"; "row_rank"; "col_rank"; "dep_rank";
   "row_parallel_mode"; "col_parallel_mode"; "data_parallel_rank";
   "pipeline_parallel_rank"; "pipeline_parallel_size"; "tensor_parallel_size"].

(** The context a forward of the matrix products leaves behind when it is
    given one: the two inputs as they came, their shapes and the grid
    arguments. *)
Definition matmul_ctx (ctx : bool) (A B : Tensor) (tesseract_dim : Z)
    (row_rank col_rank dep_rank : Z) (row_parallel_mode col_parallel_mode : ParallelMode)
    (data_parallel_rank pipeline_parallel_rank pipeline_parallel_size
       tensor_parallel_size : Z) : option MatmulCtx :=
  if ctx then
    Some {| saved_tensors := (A, B);
            ctx_tesseract_dim := tesseract_dim;
            ctx_row_rank := row_rank;
            ctx_col_rank := col_rank;
            ctx_dep_rank := dep_rank;
            ctx_row_parallel_mode := row_parallel_mode;
            ctx_col_parallel_mode := col_parallel_mode;
            ctx_A_shape := shape A;
            ctx_B_shape := shape B;
            ctx_data_parallel_rank := data_parallel_rank;
            ctx_pipeline_parallel_rank := pipeline_parallel_rank;
            ctx_pipeline_parallel_size := pipeline_parallel_size;
            ctx_tensor_parallel_size := tensor_parallel_size |}
  else None.

Section Operations.
Context {gpc : GlobalContext} {alloc : Allocator}.

(** The body of the accumulation loop of [Matmul_AB_2p5D.forward]. *)
Definition Matmul_AB_2p5D_loop_body (A_list B_list : list Tensor)
    (tesseract_dim row_rank col_rank : Z) (i : Z) (C : Tensor) : Prog Tensor :=
  let src_a := (i + tesseract_dim * row_rank)%Z in
  let src_b := (i + tesseract_dim * col_rank)%Z in
  let src_a := (src_a mod tesseract_dim)%Z in
  let src_b := (src_b mod tesseract_dim)%Z in
  A_temp ← list_get A_list src_a;
  B_temp ← list_get B_list src_b;
  torch_addmm C A_temp B_temp.

(** The body of the loop of [Matmul_ABT_2p5D.forward], on the reshaped
    [A] and [B]. *)
Definition Matmul_ABT_2p5D_loop_body (A B : Tensor) (tesseract_dim : Z)
    (row_rank col_rank dep_rank : Z) (row_parallel_mode col_parallel_mode : ParallelMode)
    (data_parallel_rank pipeline_parallel_rank pipeline_parallel_size
       tensor_parallel_size : Z) (i : Z) (C : Tensor) : Prog Tensor :=
  let B_temp := clone B in
  let src_b := (col_rank + i * tesseract_dim + dep_rank * tesseract_dim ^ 2
                + data_parallel_rank * pipeline_parallel_size * tensor_parallel_size
                + pipeline_parallel_rank * tensor_parallel_size)%Z in
  B_temp ← dist_broadcast B_temp src_b col_parallel_mode;
  B_t ← torch_transpose B_temp 0 1;
  C_temp ← torch_matmul A B_t;
  let src_c := (i + row_rank * tesseract_dim + dep_rank * tesseract_dim ^ 2
                + data_parallel_rank * pipeline_parallel_size * tensor_parallel_size
                + pipeline_parallel_rank * tensor_parallel_size)%Z in
  C_temp ← dist_reduce C_temp src_c row_parallel_mode;
  mret (if bool_decide (i = col_rank) then clone C_temp else C).

(** The body of the loop of [Matmul_ATB_2p5D.forward]. *)
Definition Matmul_ATB_2p5D_loop_body (A B : Tensor) (tesseract_dim : Z)
    (row_rank col_rank dep_rank : Z) (row_parallel_mode col_parallel_mode : ParallelMode)
    (data_parallel_rank pipeline_parallel_rank pipeline_parallel_size
       tensor_parallel_size : Z) (i : Z) (C : Tensor) : Prog Tensor :=
  let A_temp := clone A in
  let src_a := (i + row_rank * tesseract_dim + dep_rank * tesseract_dim ^ 2
                + data_parallel_rank * pipeline_parallel_size * tensor_parallel_size
                + pipeline_parallel_rank * tensor_parallel_size)%Z in
  A_temp ← dist_broadcast A_temp src_a row_parallel_mode;
  A_t ← torch_transpose A_temp 0 1;
  C_temp ← torch_matmul A_t B;
  let src_c := (col_rank + i * tesseract_dim + dep_rank * tesseract_dim ^ 2
                + data_parallel_rank * pipeline_parallel_size * tensor_parallel_size
                + pipeline_parallel_rank * tensor_parallel_size)%Z in
  C_temp ← dist_reduce C_temp src_c col_parallel_mode;
  mret (if bool_decide (i = row_rank) then clone C_temp else C).

Definition Matmul_AB_2p5D_forward (ctx : bool) (A B : Tensor) (tesseract_dim : Z)
    (out_shape : list Z) (row_rank col_rank dep_rank : Z)
    (row_parallel_mode col_parallel_mode : ParallelMode)
    (data_parallel_rank pipeline_parallel_rank pipeline_parallel_size
       tensor_parallel_size : Z) : Prog (Tensor * option MatmulCtx) :=
  A_last ← shape_at A (-1);
  B_last2 ← shape_at B (-2);
  _ ← py_assert (bool_decide (A_last = B_last2))
        ("Invalid shapes: A=" ++ show_size (shape A) ++ ", B=" ++ show_size (shape B)
           ++ " for AB.");
  let saved := (A, B) in
  let A_shape := shape A in
  A ← reshape A [(-1)%Z; Z.of_nat A_last];
  let A := contiguous A in
  let B_shape := shape B in
  B_last ← shape_at B (-1);
  B ← reshape B [(-1)%Z; Z.of_nat B_last];
  let B := contiguous B in
  A_rows ← shape_at A 0;
  B_cols ← shape_at B (-1);
  C ← torch_zeros [Z.of_nat A_rows; Z.of_nat B_cols];
  let A_list := (λ _, torch_empty_like A) <$> py_range (get_world_size row_parallel_mode - 1) in
  let B_list := (λ _, torch_empty_like B) <$> py_range (get_world_size col_parallel_mode - 1) in
  let A_list := py_insert A_list (get_local_rank row_parallel_mode) A in
  let B_list := py_insert B_list (get_local_rank col_parallel_mode) B in
  A_list ← dist_all_gather A_list A row_parallel_mode;
  B_list ← dist_all_gather B_list B col_parallel_mode;
  C ← for_range tesseract_dim
        (Matmul_AB_2p5D_loop_body A_list B_list tesseract_dim row_rank col_rank) C;
  out ← reshape C out_shape;
  mret (out,
        if ctx then
          Some {| saved_tensors := saved;
                  ctx_tesseract_dim := tesseract_dim;
                  ctx_row_rank := row_rank;
                  ctx_col_rank := col_rank;
                  ctx_dep_rank := dep_rank;
                  ctx_row_parallel_mode := row_parallel_mode;
                  ctx_col_parallel_mode := col_parallel_mode;
                  ctx_A_shape := A_shape;
                  ctx_B_shape := B_shape;
                  ctx_data_parallel_rank := data_parallel_rank;
                  ctx_pipeline_parallel_rank := pipeline_parallel_rank;
                  ctx_pipeline_parallel_size := pipeline_parallel_size;
                  ctx_tensor_parallel_size := tensor_parallel_size |}
        else None).

Definition Matmul_ABT_2p5D_forward (ctx : bool) (A B : Tensor) (tesseract_dim : Z)
    (out_shape : list Z) (row_rank col_rank dep_rank : Z)
    (row_parallel_mode col_parallel_mode : ParallelMode)
    (data_parallel_rank pipeline_parallel_rank pipeline_parallel_size
       tensor_parallel_size : Z) : Prog (Tensor * option MatmulCtx) :=
  A_last ← shape_at A (-1);
  B_last ← shape_at B (-1);
  _ ← py_assert (bool_decide (A_last = B_last))
        ("Invalid shapes: A=" ++ show_size (shape A) ++ ", B=" ++ show_size (shape B)
           ++ " for ABT.");
  let saved := (A, B) in
  let A_shape := shape A in
  A ← reshape A [(-1)%Z; Z.of_nat A_last];
  let B_shape := shape B in
  B ← reshape B [(-1)%Z; Z.of_nat B_last];
  A_rows ← shape_at A 0;
  B_rows ← shape_at B 0;
  C ← torch_empty [Z.of_nat A_rows; Z.of_nat B_rows];
  C ← for_range tesseract_dim
        (Matmul_ABT_2p5D_loop_body A B tesseract_dim row_rank col_rank dep_rank
           row_parallel_mode col_parallel_mode data_parallel_rank pipeline_parallel_rank
           pipeline_parallel_size tensor_parallel_size) C;
  out ← reshape C out_shape;
  mret (out,
        if ctx then
          Some {| saved_tensors := saved;
                  ctx_tesseract_dim := tesseract_dim;
                  ctx_row_rank := row_rank;
                  ctx_col_rank := col_rank;
                  ctx_dep_rank := dep_rank;
                  ctx_row_parallel_mode := row_parallel_mode;
                  ctx_col_parallel_mode := col_parallel_mode;
                  ctx_A_shape := A_shape;
                  ctx_B_shape := B_shape;
                  ctx_data_parallel_rank := data_parallel_rank;
                  ctx_pipeline_parallel_rank := pipeline_parallel_rank;
                  ctx_pipeline_parallel_size := pipeline_parallel_size;
                  ctx_tensor_parallel_size := tensor_parallel_size |}
        else None).

Definition Matmul_ATB_2p5D_forward (ctx : bool) (A B : Tensor) (tesseract_dim : Z)
    (out_shape : list Z) (row_rank col_rank dep_rank : Z)
    (row_parallel_mode col_parallel_mode : ParallelMode)
    (data_parallel_rank pipeline_parallel_rank pipeline_parallel_size
       tensor_parallel_size : Z) : Prog (Tensor * option MatmulCtx) :=
  A_last2 ← shape_at A (-2);
  B_last2 ← shape_at B (-2);
  _ ← py_assert (bool_decide (A_last2 = B_last2))
        ("Invalid shapes: A=" ++ show_size (shape A) ++ ", B=" ++ show_size (shape B)
           ++ " for ATB.");
  let saved := (A, B) in
  let A_shape := shape A in
  A_last ← shape_at A (-1);
  A ← reshape A [(-1)%Z; Z.of_nat A_last];
  let B_shape := shape B in
  B_last ← shape_at B (-1);
  B ← reshape B [(-1)%Z; Z.of_nat B_last];
  A_cols ← shape_at A (-1);
  B_cols ← shape_at B (-1);
  C ← torch_empty [Z.of_nat A_cols; Z.of_nat B_cols];
  C ← for_range tesseract_dim
        (Matmul_ATB_2p5D_loop_body A B tesseract_dim row_rank col_rank dep_rank
           row_parallel_mode col_parallel_mode data_parallel_rank pipeline_parallel_rank
           pipeline_parallel_size tensor_parallel_size) C;
  out ← reshape C out_shape;
  mret (out,
        if ctx then
          Some {| saved_tensors := saved;
                  ctx_tesseract_dim := tesseract_dim;
                  ctx_row_rank := row_rank;
                  ctx_col_rank := col_rank;
                  ctx_dep_rank := dep_rank;
                  ctx_row_parallel_mode := row_parallel_mode;
                  ctx_col_parallel_mode := col_parallel_mode;
                  ctx_A_shape := A_shape;
                  ctx_B_shape := B_shape;
                  ctx_data_parallel_rank := data_parallel_rank;
                  ctx_pipeline_parallel_rank := pipeline_parallel_rank;
                  ctx_pipeline_parallel_size := pipeline_parallel_size;
                  ctx_tensor_parallel_size := tensor_parallel_size |}
        else None).

(** [F.apply(...)]: the autograd engine makes a fresh context, calls
    [F.forward] with it and hands back the output. *)
Definition Matmul_AB_2p5D_apply (A B : Tensor) (tesseract_dim : Z) (out_shape : list Z)
    (row_rank col_rank dep_rank : Z) (row_parallel_mode col_parallel_mode : ParallelMode)
    (data_parallel_rank pipeline_parallel_rank pipeline_parallel_size
       tensor_parallel_size : Z) : Prog Tensor :=
  r ← Matmul_AB_2p5D_forward true A B tesseract_dim out_shape row_rank col_rank dep_rank
        row_parallel_mode col_parallel_mode data_parallel_rank pipeline_parallel_rank
        pipeline_parallel_size tensor_parallel_size;
  mret r.1.
Definition Matmul_ABT_2p5D_apply (A B : Tensor) (tesseract_dim : Z) (out_shape : list Z)
    (row_rank col_rank dep_rank : Z) (row_parallel_mode col_parallel_mode : ParallelMode)
    (data_parallel_rank pipeline_parallel_rank pipeline_parallel_size
       tensor_parallel_size : Z) : Prog Tensor :=
  r ← Matmul_ABT_2p5D_forward true A B tesseract_dim out_shape row_rank col_rank dep_rank
        row_parallel_mode col_parallel_mode data_parallel_rank pipeline_parallel_rank
        pipeline_parallel_size tensor_parallel_size;
  mret r.1.
Definition Matmul_ATB_2p5D_apply (A B : Tensor) (tesseract_dim : Z) (out_shape : list Z)
    (row_rank col_rank dep_rank : Z) (row_parallel_mode col_parallel_mode : ParallelMode)
    (data_parallel_rank pipeline_parallel_rank pipeline_parallel_size
       tensor_parallel_size : Z) : Prog Tensor :=
  r ← Matmul_ATB_2p5D_forward true A B tesseract_dim out_shape row_rank col_rank dep_rank
        row_parallel_mode col_parallel_mode data_parallel_rank pipeline_parallel_rank
        pipeline_parallel_size tensor_parallel_size;
  mret r.1.

(** The backward passes: a tuple of gradients, [None] where there is none. *)
Definition Matmul_AB_2p5D_backward (ctx : MatmulCtx) (output_grad : Tensor)
    : Prog (list (option Tensor)) :=
  let '(A, B) := saved_tensors ctx in
  A_grad ← Matmul_ABT_2p5D_apply output_grad B
             (ctx_tesseract_dim ctx) (size_tuple (ctx_A_shape ctx))
             (ctx_row_rank ctx) (ctx_col_rank ctx) (ctx_dep_rank ctx)
             (ctx_row_parallel_mode ctx) (ctx_col_parallel_mode ctx)
             (ctx_data_parallel_rank ctx) (ctx_pipeline_parallel_rank ctx)
             (ctx_pipeline_parallel_size ctx) (ctx_tensor_parallel_size ctx);
  B_grad ← Matmul_ATB_2p5D_apply A output_grad
             (ctx_tesseract_dim ctx) (size_tuple (ctx_B_shape ctx))
             (ctx_row_rank ctx) (ctx_col_rank ctx) (ctx_dep_rank ctx)
             (ctx_row_parallel_mode ctx) (ctx_col_parallel_mode ctx)
             (ctx_data_parallel_rank ctx) (ctx_pipeline_parallel_rank ctx)
             (ctx_pipeline_parallel_size ctx) (ctx_tensor_parallel_size ctx);
  mret [Some A_grad; Some B_grad; None; None; None; None; None; None; None; None; None;
        None; None; None; None].

Definition Matmul_ABT_2p5D_backward (ctx : MatmulCtx) (output_grad : Tensor)
    : Prog (list (option Tensor)) :=
  let '(A, B) := saved_tensors ctx in
  A_grad ← Matmul_AB_2p5D_apply output_grad B
             (ctx_tesseract_dim ctx) (size_tuple (ctx_A_shape ctx))
             (ctx_row_rank ctx) (ctx_col_rank ctx) (ctx_dep_rank ctx)
             (ctx_row_parallel_mode ctx) (ctx_col_parallel_mode ctx)
             (ctx_data_parallel_rank ctx) (ctx_pipeline_parallel_rank ctx)
             (ctx_pipeline_parallel_size ctx) (ctx_tensor_parallel_size ctx);
  B_grad ← Matmul_ATB_2p5D_apply output_grad A
             (ctx_tesseract_dim ctx) (size_tuple (ctx_B_shape ctx))
             (ctx_row_rank ctx) (ctx_col_rank ctx) (ctx_dep_rank ctx)
             (ctx_row_parallel_mode ctx) (ctx_col_parallel_mode ctx)
             (ctx_data_parallel_rank ctx) (ctx_pipeline_parallel_rank ctx)
             (ctx_pipeline_parallel_size ctx) (ctx_tensor_parallel_size ctx);
  mret [Some A_grad; Some B_grad; None; None; None; None; None; None; None; None; None;
        None; None; None; None].

Definition Matmul_ATB_2p5D_backward (ctx : MatmulCtx) (output_grad : Tensor)
    : Prog (list (option Tensor)) :=
  let '(A, B) := saved_tensors ctx in
  A_grad ← Matmul_ABT_2p5D_apply B output_grad
             (ctx_tesseract_dim ctx) (size_tuple (ctx_A_shape ctx))
             (ctx_row_rank ctx) (ctx_col_rank ctx) (ctx_dep_rank ctx)
             (ctx_row_parallel_mode ctx) (ctx_col_parallel_mode ctx)
             (ctx_data_parallel_rank ctx) (ctx_pipeline_parallel_rank ctx)
             (ctx_pipeline_parallel_size ctx) (ctx_tensor_parallel_size ctx);
  B_grad ← Matmul_AB_2p5D_apply A output_grad
             (ctx_tesseract_dim ctx) (size_tuple (ctx_B_shape ctx))
             (ctx_row_rank ctx) (ctx_col_rank ctx) (ctx_dep_rank ctx)
             (ctx_row_parallel_mode ctx) (ctx_col_parallel_mode ctx)
             (ctx_data_parallel_rank ctx) (ctx_pipeline_parallel_rank ctx)
             (ctx_pipeline_parallel_size ctx) (ctx_tensor_parallel_size ctx);
  mret [Some A_grad; Some B_grad; None; None; None; None; None; None; None; None; None;
        None; None; None; None].
End Operations.

(* ================================================================= *)
(** ** Bias, layer normalisation and the two redistributions *)

Record BiasCtx : Type := {
  bias_row_rank : Z;
  bias_col_rank : Z;
  bias_dep_rank : Z;
  bias_tesseract_dim : Z;
  bias_col_parallel_mode : ParallelMode;
  (** [ctx.bias] holds the flag [skip_bias_add]. *)
  bias_bias : bool;
  bias_data_parallel_rank : Z;
  bias_pipeline_parallel_rank : Z;
  bias_pipeline_parallel_size : Z;
  bias_tensor_parallel_size : Z
}.

Record LayerNormCtx : Type := {
  ln_hidden_size : Z;
  ln_saved_tensors : Tensor * Tensor;
  ln_row_parallel_mode : ParallelMode
}.

Record GatherCtx : Type := {
  gather_tesseract_dim : Z;
  gather_row_rank : Z
}.

Record SplitCtx : Type := {
  split_tesseract_dim : Z;
  split_batch_size : nat;
  split_para_mode : ParallelMode
}.

Definition Add_Bias_forward_params : list string :=
  ["input"; "bias"; "output_size_per_partition"; "tesseract_dim"; "row_rank"; "col_rank";
   "dep_rank"; "col_parallel_mode"; "skip_bias_add"; "data_parallel_rank";
   "pipeline_parallel_rank"; "pipeline_parallel_size"; "tensor_parallel_size"].
Definition LayerNorm_forward_params : list string :=
  ["input"; "E_x"; "Var_x"; "hidden_size"; "row_parallel_mode"].
Definition AllGatherLast_forward_params : list string :=
  ["inputs"; "tesseract_dim"; "col_parallel_mode"].
Definition SplitFirst_forward_params : list string :=
  ["inputs"; "tesseract_dim"; "col_parallel_mode"].

(** The tensor [t] after a collective has written [parts] through the
    views [t.chunk(n, dim=0)] of it: chunks along the first dimension lie
    one after the other in memory. *)
Definition written_through_chunks (t : Tensor) (parts : list Tensor) : Tensor :=
  mkTensor (shape t) (concat (data <$> parts)).

Section MoreOperations.
Context {gpc : GlobalContext} {alloc : Allocator}.

Definition Add_Bias_2p5D_forward (input bias : Tensor)
    (output_size_per_partition tesseract_dim row_rank col_rank dep_rank : Z)
    (col_parallel_mode : ParallelMode) (skip_bias_add : bool)
    (data_parallel_rank pipeline_parallel_rank pipeline_parallel_size
       tensor_parallel_size : Z) : Prog (Tensor * BiasCtx) :=
  bias_temp ← (if bool_decide (row_rank = 0%Z) then mret (clone bias)
               else torch_zeros [output_size_per_partition]);
  let src_rank := (col_rank + dep_rank * tesseract_dim ^ 2
                   + data_parallel_rank * pipeline_parallel_size * tensor_parallel_size
                   + pipeline_parallel_rank * tensor_parallel_size)%Z in
  bias_temp ← dist_broadcast bias_temp src_rank col_parallel_mode;
  let ctx := {| bias_row_rank := row_rank;
                bias_col_rank := col_rank;
                bias_dep_rank := dep_rank;
                bias_tesseract_dim := tesseract_dim;
                bias_col_parallel_mode := col_parallel_mode;
                bias_bias := skip_bias_add;
                bias_data_parallel_rank := data_parallel_rank;
                bias_pipeline_parallel_rank := pipeline_parallel_rank;
                bias_pipeline_parallel_size := pipeline_parallel_size;
                bias_tensor_parallel_size := tensor_parallel_size |} in
  if skip_bias_add then mret (bias_temp, ctx)
  else output ← torch_add input bias_temp; mret (output, ctx).

Definition Add_Bias_2p5D_backward (ctx : BiasCtx) (output_grad : Tensor)
    : Prog (list (option Tensor)) :=
  let row_rank := bias_row_rank ctx in
  let col_rank := bias_col_rank ctx in
  let dep_rank := bias_dep_rank ctx in
  let tesseract_dim := bias_tesseract_dim ctx in
  let col_parallel_mode := bias_col_parallel_mode ctx in
  let data_parallel_rank := bias_data_parallel_rank ctx in
  let pipeline_parallel_rank := bias_pipeline_parallel_rank ctx in
  let pipeline_parallel_size := bias_pipeline_parallel_size ctx in
  let tensor_parallel_size := bias_tensor_parallel_size ctx in
  if bias_bias ctx then
    let dst_rank := (col_rank + dep_rank * tesseract_dim ^ 2
                     + data_parallel_rank * pipeline_parallel_size * tensor_parallel_size
                     + pipeline_parallel_rank * tensor_parallel_size)%Z in
    output_grad ← dist_reduce output_grad dst_rank col_parallel_mode;
    if bool_decide (row_rank = 0%Z) then
      mret [None; Some output_grad; None; None; None; None; None; None; None; None; None;
            None; None; None; None; None]
    else
      let grad_tmp := torch_zeros_like output_grad in
      mret [None; Some grad_tmp; None; None; None; None; None; None; None; None; None;
            None; None; None; None; None]
  else
    let reduce_dim := py_range (Z.of_nat (ndim output_grad) - 1) in
    reduce ← torch_sum output_grad reduce_dim false;
    let dst_rank := (col_rank + dep_rank * tesseract_dim ^ 2
                     + data_parallel_rank * pipeline_parallel_size * tensor_parallel_size
                     + pipeline_parallel_rank * tensor_parallel_size)%Z in
    reduce ← dist_reduce reduce dst_rank col_parallel_mode;
    if bool_decide (row_rank = 0%Z) then
      mret [Some output_grad; Some reduce; None; None; None; None; None; None; None; None;
            None; None; None; None; None; None; None]
    else
      let reduce_tmp := torch_zeros_like reduce in
      mret [Some output_grad; Some reduce_tmp; None; None; None; None; None; None; None;
            None; None; None; None; None; None; None; None].

Definition LayerNorm_2p5D_forward (input E_x Var_x : Tensor) (hidden_size : Z)
    (row_parallel_mode : ParallelMode) : Prog (Tensor * LayerNormCtx) :=
  input ← torch_sub input E_x;
  output ← torch_mul input Var_x;
  mret (output, {| ln_hidden_size := hidden_size;
                   ln_saved_tensors := (output, Var_x);
                   ln_row_parallel_mode := row_parallel_mode |}).

Definition LayerNorm_2p5D_backward (ctx : LayerNormCtx) (output_grad : Tensor)
    : Prog (list (option Tensor)) :=
  let row_parallel_mode := ln_row_parallel_mode ctx in
  let '(x, Var_x) := ln_saved_tensors ctx in
  output_grad_sum ← torch_sum output_grad [(-1)%Z] true;
  output_grad_sum ← dist_all_reduce output_grad_sum row_parallel_mode;
  let output_grad_sum := torch_div_ output_grad_sum (ln_hidden_size ctx) in
  output_grad_mul_x ← torch_mul output_grad x;
  output_grad_mul_x_sum ← torch_sum output_grad_mul_x [(-1)%Z] true;
  output_grad_mul_x_sum ← dist_all_reduce output_grad_mul_x_sum row_parallel_mode;
  let output_grad_mul_x_sum := torch_div_ output_grad_mul_x_sum (ln_hidden_size ctx) in
  let input_grad := clone output_grad in
  x_mean ← torch_mul x output_grad_mul_x_sum;
  input_grad ← torch_sub_ input_grad x_mean;
  input_grad ← torch_sub_ input_grad output_grad_sum;
  input_grad ← torch_mul_ input_grad Var_x;
  mret [Some input_grad; None; None; None; None; None; None].

Definition AllGatherLast_forward (inputs : Tensor) (tesseract_dim : Z)
    (col_parallel_mode : ParallelMode) : Prog (Tensor * GatherCtx) :=
  let ctx := {| gather_tesseract_dim := tesseract_dim;
                gather_row_rank := get_local_rank col_parallel_mode |} in
  last ← size_at inputs (-1);
  let last_dim := (tesseract_dim * Z.of_nat last)%Z in
  let outputs_shape := last_dim :: size_tuple (take (ndim inputs - 1) (shape inputs)) in
  outputs ← torch_empty outputs_shape;
  views ← torch_chunk outputs tesseract_dim 0;
  permuted ← torch_permute inputs [2; 0; 1]%Z;
  parts ← dist_all_gather views (contiguous permuted) col_parallel_mode;
  let outputs := written_through_chunks outputs parts in
  outputs ← torch_permute outputs [1; 2; 0]%Z;
  mret (contiguous outputs, ctx).

Definition AllGatherLast_backward (ctx : GatherCtx) (output_grad : Tensor)
    : Prog (list (option Tensor)) :=
  chunks ← torch_chunk output_grad (gather_tesseract_dim ctx) (-1);
  grad ← tuple_get chunks (gather_row_rank ctx);
  mret [Some (contiguous grad); None; None].

Definition SplitFirst_forward (inputs : Tensor) (tesseract_dim : Z)
    (col_parallel_mode : ParallelMode) : Prog (Tensor * SplitCtx) :=
  batch_size ← size_at inputs 0;
  let ctx := {| split_tesseract_dim := tesseract_dim;
                split_batch_size := batch_size;
                split_para_mode := col_parallel_mode |} in
  let row_rank := get_local_rank col_parallel_mode in
  chunks ← torch_chunk inputs tesseract_dim 0;
  outputs ← tuple_get chunks row_rank;
  mret (outputs, ctx).

Definition SplitFirst_backward (ctx : SplitCtx) (output_grad : Tensor)
    : Prog (list (option Tensor)) :=
  let grad_shape := Z.of_nat (split_batch_size ctx) :: size_tuple (drop 1 (shape output_grad)) in
  grad ← torch_empty grad_shape;
  views ← torch_chunk grad (split_tesseract_dim ctx) 0;
  parts ← dist_all_gather views (contiguous output_grad) (split_para_mode ctx);
  let grad := written_through_chunks grad parts in
  mret [Some grad; None; None].
End MoreOperations.

(* ================================================================= *)
(** ** Dense matrices and their tiles *)

(** Tile [(r, c)] of a dense matrix cut into tiles of [m] rows and [n]
    columns, and the dense matrix put together from the tiles of a [d] by
    [d] grid (tile [(r, c)] is entry [r * d + c] of the list). *)
Definition tile (t : Tensor) (m n r c : nat) : Tensor :=
  tab2 m n (λ i j, get2 t (r * m + i) (c * n + j)).

Definition assemble (d m n : nat) (tiles : list Tensor) : Tensor :=
  tab2 (d * m) (d * n)
    (λ i j, get2 (default (full [] 0%Q) (tiles !! (i / m * d + j / n))) (i mod m) (j mod n)).

(** The transpose of a matrix. *)
Definition transposed (t : Tensor) : Tensor :=
  tab2 (cols t) (rows t) (λ i j, get2 t j i).

(* ================================================================= *)
(** ** The operations as the spec words them *)

(** The loop body of [Matmul_AB_2p5D.forward] as the spec words it
    (section 4.3): tiles [(i + row_rank) mod d] and [(i + col_rank) mod d]. *)
Definition Matmul_AB_loop_body_spec (A_list B_list : list Tensor)
    (tesseract_dim row_rank col_rank : Z) (i : Z) (C : Tensor) : Prog Tensor :=
  A_temp ← list_get A_list ((i + row_rank) mod tesseract_dim)%Z;
  B_temp ← list_get B_list ((i + col_rank) mod tesseract_dim)%Z;
  torch_addmm C A_temp B_temp.


(** The closed form of the spec (section 4.7) for the gradient of the
    normalisation: [Var_x · (grad_out − output · mean_term − sum_term)]. *)
Definition LayerNorm_grad_formula (Var_x grad_out output mean_term sum_term : Tensor)
    : Prog Tensor :=
  scaled ← torch_mul output mean_term;
  centred ← torch_sub grad_out scaled;
  centred ← torch_sub centred sum_term;
  torch_mul Var_x centred.

(* ================================================================= *)
(** ** The operations on a grid *)

(** The matrix products on a [d] by [d] grid: process [p] holds the tiles
    of the dense matrices [A] and [B] at its row and column and gets its
    coordinates as the runtime reports them.  The [_tile] definitions are
    the tiles the grid ends with. *)
Definition AB_process {alloc : Allocator} (d m k n : nat) (A B : Tensor)
    (dep_rank data_parallel_rank pipeline_parallel_rank pipeline_parallel_size
       tensor_parallel_size : Z) (ctx : bool) (p : nat) (gpc : GlobalContext)
    : Prog (Tensor * option MatmulCtx) :=
  Matmul_AB_2p5D_forward ctx
    (tile A m k (row_of d p) (col_of d p)) (tile B k n (row_of d p) (col_of d p))
    (Z.of_nat d) [Z.of_nat m; Z.of_nat n]
    (Z.of_nat (row_of d p)) (Z.of_nat (col_of d p)) dep_rank
    PARALLEL_2P5D_ROW PARALLEL_2P5D_COL
    data_parallel_rank pipeline_parallel_rank pipeline_parallel_size tensor_parallel_size.

Definition AB_tile (d m k n : nat) (A B : Tensor) (r c : nat) : Tensor :=
  tab2 m n (λ x y, Qsum ((λ t, Qsum ((λ l, get2 (tile A m k r t) x l
                                             * get2 (tile B k n t c) l y)%Q <$> seq 0 k))
                           <$> seq 0 d)).

Definition ABT_process {alloc : Allocator} (d m n k : nat) (A B : Tensor)
    (dep_rank data_parallel_rank pipeline_parallel_rank pipeline_parallel_size
       tensor_parallel_size : Z) (ctx : bool) (p : nat) (gpc : GlobalContext)
    : Prog (Tensor * option MatmulCtx) :=
  Matmul_ABT_2p5D_forward ctx
    (tile A m k (row_of d p) (col_of d p)) (tile B n k (row_of d p) (col_of d p))
    (Z.of_nat d) [Z.of_nat m; Z.of_nat n]
    (Z.of_nat (row_of d p)) (Z.of_nat (col_of d p)) dep_rank
    PARALLEL_2P5D_ROW PARALLEL_2P5D_COL
    data_parallel_rank pipeline_parallel_rank pipeline_parallel_size tensor_parallel_size.

Definition ABT_tile (d m n k : nat) (A B : Tensor) (r c : nat) : Tensor :=
  tab2 m n (λ x y, Qsum ((λ t, Qsum ((λ l, get2 (tile A m k r t) x l
                                             * get2 (transposed (tile B n k c t)) l y)%Q
                                       <$> seq 0 k))
                           <$> seq 0 d)).

(** The rest of process [p] when the iterations [l] of the loop are left
    and [C] is what it holds, and what it holds before iteration [i]. *)
Definition ABT_rest (d m n k : nat) (A B : Tensor)
    (dep_rank data_parallel_rank pipeline_parallel_rank pipeline_parallel_size
       tensor_parallel_size : Z) (ctx : bool) (p : nat) (l : list Z) (C : Tensor)
    : Prog (Tensor * option MatmulCtx) :=
  C ← for_each l
        (Matmul_ABT_2p5D_loop_body
           (tile A m k (row_of d p) (col_of d p)) (tile B n k (row_of d p) (col_of d p))
           (Z.of_nat d) (Z.of_nat (row_of d p)) (Z.of_nat (col_of d p)) dep_rank
           PARALLEL_2P5D_ROW PARALLEL_2P5D_COL
           data_parallel_rank pipeline_parallel_rank pipeline_parallel_size
           tensor_parallel_size) C;
  out ← reshape C [Z.of_nat m; Z.of_nat n];
  mret (out, matmul_ctx ctx
               (tile A m k (row_of d p) (col_of d p)) (tile B n k (row_of d p) (col_of d p))
               (Z.of_nat d) (Z.of_nat (row_of d p)) (Z.of_nat (col_of d p)) dep_rank
               PARALLEL_2P5D_ROW PARALLEL_2P5D_COL data_parallel_rank
               pipeline_parallel_rank pipeline_parallel_size tensor_parallel_size).

Definition ABT_held {alloc : Allocator} (d m n k : nat) (A B : Tensor) (i p : nat) : Tensor :=
  if decide (col_of d p < i) then ABT_tile d m n k A B (row_of d p) (col_of d p)
  else full [m; n] empty_value.

Definition ATB_process {alloc : Allocator} (d m k n : nat) (A B : Tensor)
    (dep_rank data_parallel_rank pipeline_parallel_rank pipeline_parallel_size
       tensor_parallel_size : Z) (ctx : bool) (p : nat) (gpc : GlobalContext)
    : Prog (Tensor * option MatmulCtx) :=
  Matmul_ATB_2p5D_forward ctx
    (tile A m k (row_of d p) (col_of d p)) (tile B m n (row_of d p) (col_of d p))
    (Z.of_nat d) [Z.of_nat k; Z.of_nat n]
    (Z.of_nat (row_of d p)) (Z.of_nat (col_of d p)) dep_rank
    PARALLEL_2P5D_ROW PARALLEL_2P5D_COL
    data_parallel_rank pipeline_parallel_rank pipeline_parallel_size tensor_parallel_size.

Definition ATB_tile (d m k n : nat) (A B : Tensor) (r c : nat) : Tensor :=
  tab2 k n (λ x y, Qsum ((λ t, Qsum ((λ l, get2 (transposed (tile A m k t r)) x l
                                             * get2 (tile B m n t c) l y)%Q
                                       <$> seq 0 m))
                           <$> seq 0 d)).

Definition ATB_rest (d m k n : nat) (A B : Tensor)
    (dep_rank data_parallel_rank pipeline_parallel_rank pipeline_parallel_size
       tensor_parallel_size : Z) (ctx : bool) (p : nat) (l : list Z) (C : Tensor)
    : Prog (Tensor * option MatmulCtx) :=
  C ← for_each l
        (Matmul_ATB_2p5D_loop_body
           (tile A m k (row_of d p) (col_of d p)) (tile B m n (row_of d p) (col_of d p))
           (Z.of_nat d) (Z.of_nat (row_of d p)) (Z.of_nat (col_of d p)) dep_rank
           PARALLEL_2P5D_ROW PARALLEL_2P5D_COL
           data_parallel_rank pipeline_parallel_rank pipeline_parallel_size
           tensor_parallel_size) C;
  out ← reshape C [Z.of_nat k; Z.of_nat n];
  mret (out, matmul_ctx ctx
               (tile A m k (row_of d p) (col_of d p)) (tile B m n (row_of d p) (col_of d p))
               (Z.of_nat d) (Z.of_nat (row_of d p)) (Z.of_nat (col_of d p)) dep_rank
               PARALLEL_2P5D_ROW PARALLEL_2P5D_COL data_parallel_rank
               pipeline_parallel_rank pipeline_parallel_size tensor_parallel_size).

Definition ATB_held {alloc : Allocator} (d m k n : nat) (A B : Tensor) (i p : nat) : Tensor :=
  if decide (row_of d p < i) then ATB_tile d m k n A B (row_of d p) (col_of d p)
  else full [k; n] empty_value.

(** The context [Add_Bias_2p5D.forward] saves. *)
Definition bias_ctx (tesseract_dim row_rank col_rank dep_rank : Z)
    (col_parallel_mode : ParallelMode) (skip_bias_add : bool)
    (data_parallel_rank pipeline_parallel_rank pipeline_parallel_size
       tensor_parallel_size : Z) : BiasCtx :=
  {| bias_row_rank := row_rank;
     bias_col_rank := col_rank;
     bias_dep_rank := dep_rank;
     bias_tesseract_dim := tesseract_dim;
     bias_col_parallel_mode := col_parallel_mode;
     bias_bias := skip_bias_add;
     bias_data_parallel_rank := data_parallel_rank;
     bias_pipeline_parallel_rank := pipeline_parallel_rank;
     bias_pipeline_parallel_size := pipeline_parallel_size;
     bias_tensor_parallel_size := tensor_parallel_size |}.

(** [Add_Bias_2p5D] on the grid: process [p] holds [input p], [bias p] and,
    in backward, the output gradient [grad p]. *)
Definition Bias_process (d size : nat) (input bias : nat → Tensor) (skip_bias_add : bool)
    (dep_rank data_parallel_rank pipeline_parallel_rank pipeline_parallel_size
       tensor_parallel_size : Z) (p : nat) (gpc : GlobalContext) : Prog (Tensor * BiasCtx) :=
  Add_Bias_2p5D_forward (input p) (bias p) (Z.of_nat size) (Z.of_nat d)
    (Z.of_nat (row_of d p)) (Z.of_nat (col_of d p)) dep_rank PARALLEL_2P5D_COL
    skip_bias_add data_parallel_rank pipeline_parallel_rank pipeline_parallel_size
    tensor_parallel_size.

Definition Bias_backward_process (d : nat) (grad : nat → Tensor) (skip_bias_add : bool)
    (dep_rank data_parallel_rank pipeline_parallel_rank pipeline_parallel_size
       tensor_parallel_size : Z) (p : nat) (gpc : GlobalContext)
    : Prog (list (option Tensor)) :=
  Add_Bias_2p5D_backward
    (bias_ctx (Z.of_nat d) (Z.of_nat (row_of d p)) (Z.of_nat (col_of d p)) dep_rank
       PARALLEL_2P5D_COL skip_bias_add data_parallel_rank pipeline_parallel_rank
       pipeline_parallel_size tensor_parallel_size)
    (grad p).

(** What the backward of process [p] hands to the reduce, and the
    gradients it returns. *)
Definition Bias_reduced (grad : nat → Tensor) (skip_bias_add : bool) (p : nat) : Tensor :=
  if skip_bias_add then grad p else column_sum (grad p).

Definition Bias_gradients (d : nat) (grad : nat → Tensor) (skip_bias_add : bool) (p : nat)
    : list (option Tensor) :=
  (if skip_bias_add then None else Some (grad p))
    :: Some (if decide (row_of d p = 0)
             then tensor_sum (Bias_reduced grad skip_bias_add p)
                    (Bias_reduced grad skip_bias_add <$> group_members d PARALLEL_2P5D_COL p)
             else torch_zeros_like (Bias_reduced grad skip_bias_add p))
    :: replicate (if skip_bias_add then 14 else 15) None.

(** [_LayerNorm_2p5D.backward] on the grid: process [p] has saved the
    output [x p] and [Var_x p] and receives the output gradient [grad p],
    all of shape [s ++ [a]] up to broadcasting. *)
Definition LayerNorm_backward_process (x Var_x grad : nat → Tensor) (hidden_size : Z)
    (p : nat) (gpc : GlobalContext) : Prog (list (option Tensor)) :=
  LayerNorm_2p5D_backward
    {| ln_hidden_size := hidden_size;
       ln_saved_tensors := (x p, Var_x p);
       ln_row_parallel_mode := PARALLEL_2P5D_ROW |}
    (grad p).

(** [grad_out · output] on process [p], and the two terms of the formula:
    sums over the last dimension, all-reduced over the row group of [p]
    and divided by the hidden size. *)
Definition LayerNorm_product (x grad : nat → Tensor) (s : list nat) (a : nat) (p : nat)
    : Tensor :=
  pointwise Qmult (grad p) (x p) (s ++ [a]).

Definition LayerNorm_sum_term (d : nat) (grad : nat → Tensor) (hidden_size : Z) (p : nat)
    : Tensor :=
  torch_div_ (tensor_sum (row_sum (grad p))
                ((λ q, row_sum (grad q)) <$> group_members d PARALLEL_2P5D_ROW p))
    hidden_size.

Definition LayerNorm_mean_term (d : nat) (x grad : nat → Tensor) (hidden_size : Z)
    (s : list nat) (a : nat) (p : nat) : Tensor :=
  torch_div_ (tensor_sum (row_sum (LayerNorm_product x grad s a p))
                ((λ q, row_sum (LayerNorm_product x grad s a q))
                   <$> group_members d PARALLEL_2P5D_ROW p))
    hidden_size.

Definition LayerNorm_grad_in (d : nat) (x Var_x grad : nat → Tensor) (hidden_size : Z)
    (s : list nat) (a : nat) (p : nat) : Tensor :=
  pointwise Qmult (Var_x p)
    (pointwise Qminus
       (pointwise Qminus (grad p)
          (pointwise Qmult (x p) (LayerNorm_mean_term d x grad hidden_size s a p) (s ++ [a]))
          (s ++ [a]))
       (LayerNorm_sum_term d grad hidden_size p) (s ++ [a]))
    (s ++ [a]).

(* ================================================================= *)
(** ** Backward passes and round trips on the grid *)

Section LockSteps.
Context {A : Type}.
Variables (d : nat) (offset : Z) (scratch : nat → Tensor → list Q).

(** The grid after [n] steps in each of which every process was waiting
    in a call; [None] if some process had returned or raised before. *)
Fixpoint lock_steps (n : nat) (w : list (Prog A)) : option (list (Prog A)) :=
  match n with
  | 0 => Some w
  | S n' =>
      if forallb (λ prog, negb (finished prog)) w
      then lock_steps n' (step_grid d offset scratch w)
      else None
  end.
End LockSteps.

(** Every process of [w] followed by its continuation. *)
Definition then_each {A B : Type} (k : nat → A → Prog B) (w : list (Prog A)) : list (Prog B) :=
  imap (λ p prog, prog ≫= k p) w.

(** The context a forward of the matrix products leaves when it is given
    one (see [matmul_ctx]). *)
Definition saved_context (A B : Tensor) (tesseract_dim : Z)
    (row_rank col_rank dep_rank : Z) (row_parallel_mode col_parallel_mode : ParallelMode)
    (data_parallel_rank pipeline_parallel_rank pipeline_parallel_size
       tensor_parallel_size : Z) : MatmulCtx :=
  {| saved_tensors := (A, B);
     ctx_tesseract_dim := tesseract_dim;
     ctx_row_rank := row_rank;
     ctx_col_rank := col_rank;
     ctx_dep_rank := dep_rank;
     ctx_row_parallel_mode := row_parallel_mode;
     ctx_col_parallel_mode := col_parallel_mode;
     ctx_A_shape := shape A;
     ctx_B_shape := shape B;
     ctx_data_parallel_rank := data_parallel_rank;
     ctx_pipeline_parallel_rank := pipeline_parallel_rank;
     ctx_pipeline_parallel_size := pipeline_parallel_size;
     ctx_tensor_parallel_size := tensor_parallel_size |}.

(** The backward passes of the three products on the grid: process [p]
    holds the context its forward left, on its tiles of the dense [A] and
    [B], and receives its tile of the dense output gradient [G]. *)
Definition AB_backward_process {alloc : Allocator} (d m k n : nat) (A B G : Tensor)
    (dep_rank data_parallel_rank pipeline_parallel_rank pipeline_parallel_size
       tensor_parallel_size : Z) (p : nat) (gpc : GlobalContext)
    : Prog (list (option Tensor)) :=
  Matmul_AB_2p5D_backward
    (saved_context (tile A m k (row_of d p) (col_of d p)) (tile B k n (row_of d p) (col_of d p))
       (Z.of_nat d) (Z.of_nat (row_of d p)) (Z.of_nat (col_of d p)) dep_rank
       PARALLEL_2P5D_ROW PARALLEL_2P5D_COL
       data_parallel_rank pipeline_parallel_rank pipeline_parallel_size tensor_parallel_size)
    (tile G m n (row_of d p) (col_of d p)).

Definition ABT_backward_process {alloc : Allocator} (d m n k : nat) (A B G : Tensor)
    (dep_rank data_parallel_rank pipeline_parallel_rank pipeline_parallel_size
       tensor_parallel_size : Z) (p : nat) (gpc : GlobalContext)
    : Prog (list (option Tensor)) :=
  Matmul_ABT_2p5D_backward
    (saved_context (tile A m k (row_of d p) (col_of d p)) (tile B n k (row_of d p) (col_of d p))
       (Z.of_nat d) (Z.of_nat (row_of d p)) (Z.of_nat (col_of d p)) dep_rank
       PARALLEL_2P5D_ROW PARALLEL_2P5D_COL
       data_parallel_rank pipeline_parallel_rank pipeline_parallel_size tensor_parallel_size)
    (tile G m n (row_of d p) (col_of d p)).

Definition ATB_backward_process {alloc : Allocator} (d m k n : nat) (A B G : Tensor)
    (dep_rank data_parallel_rank pipeline_parallel_rank pipeline_parallel_size
       tensor_parallel_size : Z) (p : nat) (gpc : GlobalContext)
    : Prog (list (option Tensor)) :=
  Matmul_ATB_2p5D_backward
    (saved_context (tile A m k (row_of d p) (col_of d p)) (tile B m n (row_of d p) (col_of d p))
       (Z.of_nat d) (Z.of_nat (row_of d p)) (Z.of_nat (col_of d p)) dep_rank
       PARALLEL_2P5D_ROW PARALLEL_2P5D_COL
       data_parallel_rank pipeline_parallel_rank pipeline_parallel_size tensor_parallel_size)
    (tile G k n (row_of d p) (col_of d p)).

(** A multi-index within the bounds of a shape. *)
Definition in_bounds (mi s : list nat) : Prop := Forall2 lt mi s.

(** Rows [start .. start + len - 1] of a tensor whose first dimension has
    rows of [size_prod s] entries: a slice of its memory. *)
Definition rows_slice (t : Tensor) (start len : nat) : Tensor :=
  mkTensor (len :: drop 1 (shape t))
    (take (len * size_prod (drop 1 (shape t)))
       (drop (start * size_prod (drop 1 (shape t))) (data t))).

(** [SplitFirst.backward] on the grid: process [p] receives the output
    gradient [grad p]; its forward had seen a batch of [batch_size]. *)
Definition SplitFirst_backward_process {alloc : Allocator} (d batch_size : nat)
    (grad : nat → Tensor) (p : nat) (gpc : GlobalContext) : Prog (list (option Tensor)) :=
  SplitFirst_backward
    {| split_tesseract_dim := Z.of_nat d;
       split_batch_size := batch_size;
       split_para_mode := PARALLEL_2P5D_COL |}
    (grad p).

(** [SplitFirst] forward and then backward on what the forward returned:
    every process of column [c] starts with the same tensor [x c]. *)
Definition SplitFirst_round_trip {alloc : Allocator} (d : nat) (x : nat → Tensor)
    (p : nat) (gpc : GlobalContext) : Prog (list (option Tensor)) :=
  '(outputs, ctx) ← SplitFirst_forward (x (col_of d p)) (Z.of_nat d) PARALLEL_2P5D_COL;
  SplitFirst_backward ctx outputs.

(** The tensors [parts], each of shape [[a; b; c]], side by side along
    the last dimension. *)
Definition gathered_last (a b c : nat) (parts : list Tensor) : Tensor :=
  tabulate [a; b; length parts * c]
    (λ mi, match mi with
           | [i; j; l] => get (default (full [] 0%Q) (parts !! (l / c))) [i; j; l mod c]
           | _ => 0%Q
           end).

(** [AllGatherLast.forward] on the grid, and the forward followed by the
    backward on what it returned: process [p] holds the input [x p]. *)
Definition AllGatherLast_process {alloc : Allocator} (d : nat) (x : nat → Tensor)
    (p : nat) (gpc : GlobalContext) : Prog (Tensor * GatherCtx) :=
  AllGatherLast_forward (x p) (Z.of_nat d) PARALLEL_2P5D_COL.

Definition AllGatherLast_round_trip {alloc : Allocator} (d : nat) (x : nat → Tensor)
    (p : nat) (gpc : GlobalContext) : Prog (list (option Tensor)) :=
  '(outputs, ctx) ← AllGatherLast_forward (x p) (Z.of_nat d) PARALLEL_2P5D_COL;
  AllGatherLast_backward ctx outputs.

(** A tensor seen as a matrix whose rows are its last dimension: what
    [t.reshape((-1, t.shape[-1]))] gives. *)
Definition as_matrix (t : Tensor) : Tensor :=
  mkTensor [size_prod (removelast (shape t)); List.last (shape t) 0] (data t).

(** Two programs that issue the same calls and end alike, up to the
    context they return beside the output. *)
Fixpoint same_output {X Y : Type} (p : Prog (Tensor * X)) (q : Prog (Tensor * Y)) : Prop :=
  match p, q with
  | Ret a, Ret b => a.1 = b.1
  | Raise e, Raise e' => e = e'
  | AllGather g l t k, AllGather g' l' t' k' =>
      g = g' ∧ l = l' ∧ t = t' ∧ ∀ x, same_output (k x) (k' x)
  | Broadcast g s t k, Broadcast g' s' t' k' =>
      g = g' ∧ s = s' ∧ t = t' ∧ ∀ x, same_output (k x) (k' x)
  | Reduce g s t k, Reduce g' s' t' k' =>
      g = g' ∧ s = s' ∧ t = t' ∧ ∀ x, same_output (k x) (k' x)
  | AllReduce g t k, AllReduce g' t' k' =>
      g = g' ∧ t = t' ∧ ∀ x, same_output (k x) (k' x)
  | _, _ => False
  end.

(* ================================================================= *)
(** ** Small instances *)

(** One by one matrices, the two by two matrices [[1, 2], [3, 4]] and
    [[5, 6], [7, 8]], and a two by three matrix of ones. *)
Definition ones11 : Tensor := mkTensor [1; 1] [1%Q].
Definition zeros11 : Tensor := mkTensor [1; 1] [0%Q].
Definition square_1234 : Tensor := mkTensor [2; 2] [1%Q; 2%Q; 3%Q; 4%Q].
Definition square_5678 : Tensor := mkTensor [2; 2] [5%Q; 6%Q; 7%Q; 8%Q].
Definition ones23 : Tensor := full [2; 3] 1%Q.

(** The column vector [[1], [2]], the bias [[p]] of process [p], and the
    same one by one matrix on every process. *)
Definition column_12 : Tensor := mkTensor [2; 1] [1%Q; 2%Q].
Definition bias_of_rank (p : nat) : Tensor := mkTensor [1] [inject_Z (Z.of_nat p)].
Definition ones_everywhere (p : nat) : Tensor := ones11.

(** Fresh memory that happens to hold sevens, and reduce buffers that are
    left as they were on the processes that are not the destination. *)
Definition sevens : Allocator := 7%Q.
Definition untouched : nat → Tensor → list Q := λ _ t, data t.

(** A process on its own: every collective leaves it what it had. *)
Definition alone : Oracle :=
  λ _ c, match c with CallAllGather _ _ t => [t] | _ => [] end.
Definition alone_gpc : GlobalContext :=
  {| get_world_size := λ _, 1%Z; get_local_rank := λ _, 0%Z |}.

(** The two by two matrix [[1, 0], [2, 1]], and the one by one by one
    tensor [[[p]]] of process [p]. *)
Definition square_1021 : Tensor := mkTensor [2; 2] [1%Q; 0%Q; 2%Q; 1%Q].
Definition cube_of_rank (p : nat) : Tensor := mkTensor [1; 1; 1] [inject_Z (Z.of_nat p)].

(** The column [[1], [2], [3]], the one by one matrix [[p]] of process
    [p], and the last process of a group of four. *)
Definition column_123 : Tensor := mkTensor [3; 1] [1%Q; 2%Q; 3%Q].
Definition cell_of_rank (p : nat) : Tensor := mkTensor [1; 1] [inject_Z (Z.of_nat p)].
Definition last_of_four : GlobalContext :=
  {| get_world_size := λ _, 4%Z; get_local_rank := λ _, 3%Z |}.

(** The one by two by two tensor [[[1, 2], [3, 4]]]. *)
Definition cube_1234 : Tensor := mkTensor [1; 2; 2] [1%Q; 2%Q; 3%Q; 4%Q].


(* ================================================================= *)
(** * Lemmas *)

(* ================================================================= *)
(** ** Sums of rationals *)

Ltac Zify.zify_post_hook ::= Z.div_mod_to_equations.

Lemma Qplus_0_l_eq (q : Q) : (0 + q)%Q = q.
Proof.
  destruct q as [a b]. unfold Qplus. simpl. f_equal. lia.
Qed.

Lemma Qplus_0_r_eq (q : Q) : (q + 0)%Q = q.
Proof.
  destruct q as [a b]. unfold Qplus. simpl. f_equal; lia.
Qed.

Lemma Qplus_assoc_eq (x y z : Q) : (x + (y + z))%Q = (x + y + z)%Q.
Proof.
  destruct x as [a b], y as [c e], z as [f g]. unfold Qplus. simpl.
  f_equal; [ rewrite !Pos2Z.inj_mul; ring | apply Pos.mul_assoc ].
Qed.

Lemma Qmult_comm_eq (x y : Q) : (x * y)%Q = (y * x)%Q.
Proof.
  destruct x as [a b], y as [c e]. unfold Qmult. simpl.
  f_equal; [ apply Z.mul_comm | apply Pos.mul_comm ].
Qed.

Lemma foldl_Qplus_acc (a : Q) (l : list Q) : foldl Qplus a l = (a + Qsum l)%Q.
Proof.
  unfold Qsum. revert a. induction l as [|x l IH]; intros a; simpl.
  - by rewrite Qplus_0_r_eq.
  - rewrite (IH (0 + x)%Q), IH, Qplus_0_l_eq. symmetry. apply Qplus_assoc_eq.
Qed.

Lemma Qsum_app (l1 l2 : list Q) : Qsum (l1 ++ l2) = (Qsum l1 + Qsum l2)%Q.
Proof. unfold Qsum at 1. rewrite foldl_app. apply foldl_Qplus_acc. Qed.

Lemma Qsum_blocks (F : nat → nat → Q) (d k : nat) :
  0 < k →
  Qsum ((λ K, F (K / k) (K mod k)) <$> seq 0 (d * k))
  = Qsum ((λ t, Qsum (F t <$> seq 0 k)) <$> seq 0 d).
Proof.
  intros Hk. induction d as [|d IH].
  - reflexivity.
  - replace (S d * k) with (d * k + k) by lia.
    rewrite seq_app, fmap_app, Qsum_app, IH.
    replace (S d) with (d + 1) by lia.
    rewrite seq_app, fmap_app, Qsum_app. f_equal.
    simpl. unfold Qsum at 2. simpl. rewrite Qplus_0_l_eq. f_equal.
    apply list_eq. intros i. rewrite !list_lookup_fmap.
    destruct (decide (i < k)) as [Hi|Hi].
    + rewrite !lookup_seq_lt by done. simpl. f_equal. f_equal.
      * rewrite Nat.div_add_l by lia. rewrite Nat.div_small by lia. lia.
      * rewrite Nat.add_comm, Nat.Div0.mod_add. by apply Nat.mod_small.
    + rewrite !lookup_seq_ge by lia. done.
Qed.

(* ================================================================= *)
(** ** Matrices given by their entries *)

Lemma nth_fmap_seq {B : Type} (f : nat → B) (n i : nat) (dflt : B) :
  i < n → nth i (f <$> seq 0 n) dflt = f i.
Proof.
  intros Hi. apply nth_lookup_Some with (d := dflt).
  by rewrite list_lookup_fmap, lookup_seq_lt.
Qed.

Lemma lookup_fmap_seq {B : Type} (f : nat → B) (n i : nat) :
  i < n → (f <$> seq 0 n) !! i = Some (f i).
Proof. intros Hi. by rewrite list_lookup_fmap, lookup_seq_lt. Qed.

Lemma fmap_seq_ext {B : Type} (f g : nat → B) (n : nat) :
  (∀ i, i < n → f i = g i) → f <$> seq 0 n = g <$> seq 0 n.
Proof.
  intros H. apply list_eq. intros i. rewrite !list_lookup_fmap.
  destruct (decide (i < n)).
  - rewrite !lookup_seq_lt by done. simpl. f_equal. auto.
  - by rewrite !lookup_seq_ge by lia.
Qed.

Lemma index_split (m n o : nat) : o < m * n → o / n < m ∧ o mod n < n.
Proof.
  intros Ho. assert (0 < n) by (destruct n; lia). split.
  - apply Nat.Div0.div_lt_upper_bound. lia.
  - by apply Nat.mod_upper_bound; lia.
Qed.

Lemma index_join (n i j : nat) : j < n → (i * n + j) / n = i ∧ (i * n + j) mod n = j.
Proof.
  intros Hj. split.
  - rewrite Nat.div_add_l by lia. rewrite Nat.div_small by lia. lia.
  - rewrite Nat.add_comm, Nat.Div0.mod_add. by apply Nat.mod_small.
Qed.

Lemma index_bound (m n i j : nat) : i < m → j < n → i * n + j < m * n.
Proof. nia. Qed.

Lemma flat_get_tab2 (m n : nat) (f : nat → nat → Q) (o : nat) :
  o < m * n → flat_get (tab2 m n f) o = f (o / n) (o mod n).
Proof. intros Ho. unfold flat_get, tab2. simpl. by rewrite nth_fmap_seq. Qed.

Lemma get2_tab2 (m n : nat) (f : nat → nat → Q) (i j : nat) :
  i < m → j < n → get2 (tab2 m n f) i j = f i j.
Proof.
  intros Hi Hj. unfold get2. change (cols (tab2 m n f)) with n.
  rewrite flat_get_tab2 by by apply index_bound.
  by destruct (index_join n i j Hj) as [-> ->].
Qed.

Lemma tab2_ext (m n : nat) (f g : nat → nat → Q) :
  (∀ i j, i < m → j < n → f i j = g i j) → tab2 m n f = tab2 m n g.
Proof.
  intros H. unfold tab2. f_equal. apply fmap_seq_ext. intros o Ho.
  destruct (index_split m n o Ho). auto.
Qed.

Lemma tab2_well_formed (m n : nat) (f : nat → nat → Q) : well_formed (tab2 m n f).
Proof.
  unfold well_formed, numel, tab2. simpl. rewrite length_fmap, length_seq. lia.
Qed.

Lemma full_tab2 (m n : nat) (x : Q) : full [m; n] x = tab2 m n (λ _ _, x).
Proof.
  unfold full, tab2. f_equal. simpl. rewrite Nat.mul_1_r.
  generalize (m * n). intros k. apply list_eq. intros i.
  rewrite list_lookup_fmap. destruct (decide (i < k)).
  - rewrite lookup_replicate_2, lookup_seq_lt by done. done.
  - rewrite lookup_seq_ge by lia. apply lookup_replicate_None. lia.
Qed.

Lemma zip_with_tab2 (f : Q → Q → Q) (m n : nat) (g h : nat → nat → Q) :
  mkTensor [m; n] (zip_with f (data (tab2 m n g)) (data (tab2 m n h)))
  = tab2 m n (λ i j, f (g i j) (h i j)).
Proof.
  unfold tab2. simpl. f_equal.
  rewrite zip_with_fmap_l, zip_with_fmap_r, zip_with_diag. done.
Qed.

(** ** Reshaping a matrix to its own shape *)

Lemma reshape_rows (t : Tensor) (m n : nat) :
  shape t = [m; n] → 0 < n → reshape t [(-1)%Z; Z.of_nat n] = Ret t.
Proof.
  intros Hs Hn. unfold reshape, numel. rewrite Hs. simpl.
  assert ((Z.of_nat n <? -1)%Z = false) as -> by lia.
  destruct (Z.eq_dec (Z.of_nat n) (-1)%Z) as [?|_]; [lia|]. simpl.
  assert ((Z.of_nat n =? -1)%Z = false) as -> by lia.
  rewrite Z.mul_1_r, Nat.mul_1_r.
  assert ((Z.of_nat n =? 0)%Z = false) as -> by lia.
  assert ((Z.of_nat (m * n) mod Z.of_nat n =? 0)%Z = true) as ->.
  { rewrite Nat2Z.inj_mul, Z.mod_mul by lia. done. }
  f_equal. destruct t as [s dt]. simpl in *. subst s. f_equal.
  rewrite Nat2Z.inj_mul. rewrite Z.div_mul by lia. by rewrite !Nat2Z.id.
Qed.

Lemma reshape_same (t : Tensor) (m n : nat) :
  shape t = [m; n] → reshape t [Z.of_nat m; Z.of_nat n] = Ret t.
Proof.
  intros Hs. unfold reshape, numel. rewrite Hs. simpl.
  assert ((Z.of_nat m <? -1)%Z = false) as -> by lia.
  assert ((Z.of_nat n <? -1)%Z = false) as -> by lia. simpl.
  destruct (Z.eq_dec (Z.of_nat m) (-1)%Z) as [?|_]; [lia|].
  destruct (Z.eq_dec (Z.of_nat n) (-1)%Z) as [?|_]; [lia|].
  assert ((Z.of_nat m =? -1)%Z = false) as -> by lia.
  assert ((Z.of_nat n =? -1)%Z = false) as -> by lia.
  assert ((Z.of_nat m * (Z.of_nat n * 1) =? Z.of_nat (m * (n * 1)))%Z = true) as -> by lia.
  f_equal. destruct t as [s dt]. simpl in *. subst s. by rewrite !Nat2Z.id.
Qed.

(** ** Transposition and product of matrices *)


Lemma torch_transpose_2d (t : Tensor) (m n : nat) :
  shape t = [m; n] → torch_transpose t 0 1 = Ret (transposed t).
Proof.
  intros Hs. unfold torch_transpose, torch_permute, ndim, transposed, cols, rows.
  rewrite Hs. simpl.
  destruct (decide (NoDup [1; 0])) as [_|Hnd].
  2:{ exfalso. apply Hnd. by apply (bool_decide_unpack _). }
  f_equal. unfold tabulate, tab2. simpl. f_equal.
  rewrite !Nat.mul_1_r. apply fmap_seq_ext. intros o Ho.
  unfold get, get2, cols. rewrite Hs. simpl.
  change (Nat.divmod (o mod m) 0 0 0).1 with ((o mod m) / 1).
  rewrite Nat.div_1_r, !Nat.mul_1_r. f_equal. lia.
Qed.

(* ================================================================= *)
(** ** The groups of the grid *)

Lemma row_col_bound (d p : nat) : p < d * d → row_of d p < d ∧ col_of d p < d.
Proof. apply index_split. Qed.

Lemma row_col_join (d p : nat) : 0 < d → row_of d p * d + col_of d p = p.
Proof.
  intros Hd. unfold row_of, col_of. pose proof (Nat.div_mod_eq p d). lia.
Qed.

Lemma row_col_of (d r c : nat) : c < d → row_of d (r * d + c) = r ∧ col_of d (r * d + c) = c.
Proof. apply index_join. Qed.

Lemma group_members_lookup (d : nat) (g : ParallelMode) (p j : nat) :
  j < d →
  group_members d g p !! j
  = Some (match g with
          | PARALLEL_2P5D_ROW => row_of d p * d + j
          | PARALLEL_2P5D_COL => j * d + col_of d p
          end).
Proof.
  intros Hj. destruct g; simpl; by rewrite list_lookup_fmap, lookup_seq_lt.
Qed.

Lemma group_members_bound (d : nat) (g : ParallelMode) (p q : nat) :
  p < d * d → q ∈ group_members d g p → q < d * d.
Proof.
  intros Hp Hq. destruct (row_col_bound d p Hp) as [Hr Hc].
  destruct g; simpl in Hq; apply list_elem_of_fmap in Hq as (j & -> & Hj);
    apply elem_of_seq in Hj; nia.
Qed.

Lemma group_members_fmap {B : Type} (f : nat → B) (d : nat) (g : ParallelMode) (p : nat) :
  f <$> group_members d g p
  = (λ j, f (match g with
             | PARALLEL_2P5D_ROW => row_of d p * d + j
             | PARALLEL_2P5D_COL => j * d + col_of d p
             end)) <$> seq 0 d.
Proof. destruct g; simpl; by rewrite <- list_fmap_compose. Qed.

Lemma position_member (d : nat) (offset : Z) (g : ParallelMode) (p j : nat) :
  0 < d → j < d →
  position offset (group_members d g p)
    (offset + Z.of_nat (match g with
                        | PARALLEL_2P5D_ROW => row_of d p * d + j
                        | PARALLEL_2P5D_COL => j * d + col_of d p
                        end))
  = Some j.
Proof.
  intros Hd Hj. unfold position.
  set (q := match g with PARALLEL_2P5D_ROW => _ | PARALLEL_2P5D_COL => _ end).
  assert (list_find (λ q0, (offset + Z.of_nat q0)%Z = (offset + Z.of_nat q)%Z)
            (group_members d g p) = Some (j, q)) as ->; [|done].
  apply list_find_Some. split_and!.
  - by apply group_members_lookup.
  - done.
  - intros i y Hi Hlt Heq.
    rewrite group_members_lookup in Hi by lia. injection Hi as <-.
    subst q. destruct g; nia.
Qed.

(** ** Steps of a grid in which every process is in the same call *)

Section Steps.
Context {A : Type}.
Variables (d : nat) (offset : Z) (scratch : nat → Tensor → list Q).

Lemma step_grid_fmap (f : nat → Prog A) (n : nat) :
  step_grid d offset scratch (f <$> seq 0 n)
  = (λ p, step_proc d offset scratch (f <$> seq 0 n) p (f p)) <$> seq 0 n.
Proof.
  unfold step_grid. apply list_eq. intros i.
  rewrite list_lookup_imap, !list_lookup_fmap.
  destruct (decide (i < n)).
  - by rewrite lookup_seq_lt.
  - by rewrite lookup_seq_ge by lia.
Qed.

Lemma contributions_fmap (f : nat → Prog A) (n : nat) (ms : list nat)
    (sel : Call → option Tensor) (t : nat → Tensor) :
  (∀ q, q ∈ ms → q < n ∧ pending (f q) ≫= sel = Some (t q)) →
  contributions (f <$> seq 0 n) ms sel = Some (t <$> ms).
Proof.
  intros Hq. unfold contributions. induction ms as [|q ms IH]; [done|].
  destruct (Hq q) as [Hb Hsel]; [by left|].
  simpl. rewrite list_lookup_fmap, lookup_seq_lt by done.
  simpl. change (pending (f q) ≫= λ c, sel c) with (pending (f q) ≫= sel).
  rewrite Hsel. simpl.
  rewrite IH; [done|]. intros q' Hq'. apply Hq. by right.
Qed.

Lemma step_all_gather (f : nat → Prog A) (g : ParallelMode)
    (bufs : nat → list Tensor) (t : nat → Tensor) (k : nat → list Tensor → Prog A) :
  (∀ p, p < d * d → f p = AllGather g (bufs p) (t p) (k p)) →
  (∀ p, p < d * d → shape <$> bufs p = shape <$> (t <$> group_members d g p)) →
  step_grid d offset scratch (f <$> seq 0 (d * d))
  = (λ p, k p (t <$> group_members d g p)) <$> seq 0 (d * d).
Proof.
  intros Hf Hshape. rewrite step_grid_fmap. apply fmap_seq_ext. intros p Hp.
  rewrite (Hf p Hp). simpl.
  rewrite (contributions_fmap _ _ _ _ t).
  - by rewrite decide_True by auto.
  - intros q Hq. pose proof (group_members_bound _ _ _ _ Hp Hq) as Hb.
    split; [done|]. rewrite (Hf q Hb). simpl. by rewrite decide_True.
Qed.

Lemma step_broadcast (f : nat → Prog A) (g : ParallelMode) (src : nat → Z)
    (j s : nat → nat) (t : nat → Tensor) (k : nat → Tensor → Prog A) :
  (∀ p, p < d * d → f p = Broadcast g (src p) (t p) (k p)) →
  (∀ p q, p < d * d → q ∈ group_members d g p → src q = src p) →
  (∀ p, p < d * d → position offset (group_members d g p) (src p) = Some (j p)) →
  (∀ p, p < d * d → group_members d g p !! j p = Some (s p)) →
  (∀ p, p < d * d → shape (t (s p)) = shape (t p)) →
  step_grid d offset scratch (f <$> seq 0 (d * d))
  = (λ p, k p (t (s p))) <$> seq 0 (d * d).
Proof.
  intros Hf Hsrc Hpos Hs Hshape. rewrite step_grid_fmap. apply fmap_seq_ext. intros p Hp.
  rewrite (Hf p Hp). simpl.
  rewrite (contributions_fmap _ _ _ _ t).
  - rewrite (Hpos p Hp), list_lookup_fmap, (Hs p Hp). simpl.
    by rewrite decide_True by auto.
  - intros q Hq. pose proof (group_members_bound _ _ _ _ Hp Hq) as Hb.
    split; [done|]. rewrite (Hf q Hb). simpl.
    rewrite decide_True; [done|]. split; [done|]. symmetry. by apply Hsrc.
Qed.

Lemma step_reduce (f : nat → Prog A) (g : ParallelMode) (dst : nat → Z)
    (j : nat → nat) (t : nat → Tensor) (k : nat → Tensor → Prog A) :
  (∀ p, p < d * d → f p = Reduce g (dst p) (t p) (k p)) →
  (∀ p q, p < d * d → q ∈ group_members d g p → dst q = dst p) →
  (∀ p, p < d * d → position offset (group_members d g p) (dst p) = Some (j p)) →
  (∀ p q, p < d * d → q ∈ group_members d g p → shape (t q) = shape (t p)) →
  step_grid d offset scratch (f <$> seq 0 (d * d))
  = (λ p, k p (if decide (group_members d g p !! j p = Some p)
               then tensor_sum (t p) (t <$> group_members d g p)
               else mkTensor (shape (t p)) (scratch p (t p)))) <$> seq 0 (d * d).
Proof.
  intros Hf Hdst Hpos Hshape. rewrite step_grid_fmap. apply fmap_seq_ext. intros p Hp.
  rewrite (Hf p Hp). simpl.
  rewrite (contributions_fmap _ _ _ _ t).
  - rewrite (Hpos p Hp). rewrite decide_True.
    + by destruct (decide _).
    + apply Forall_fmap, Forall_forall. intros q Hq. simpl. by apply Hshape.
  - intros q Hq. pose proof (group_members_bound _ _ _ _ Hp Hq) as Hb.
    split; [done|]. rewrite (Hf q Hb). simpl.
    rewrite decide_True; [done|]. split; [done|]. symmetry. by apply Hdst.
Qed.

Lemma step_all_reduce (f : nat → Prog A) (g : ParallelMode)
    (t : nat → Tensor) (k : nat → Tensor → Prog A) :
  (∀ p, p < d * d → f p = AllReduce g (t p) (k p)) →
  (∀ p q, p < d * d → q ∈ group_members d g p → shape (t q) = shape (t p)) →
  step_grid d offset scratch (f <$> seq 0 (d * d))
  = (λ p, k p (tensor_sum (t p) (t <$> group_members d g p))) <$> seq 0 (d * d).
Proof.
  intros Hf Hshape. rewrite step_grid_fmap. apply fmap_seq_ext. intros p Hp.
  rewrite (Hf p Hp). simpl.
  rewrite (contributions_fmap _ _ _ _ t).
  - rewrite decide_True; [done|].
    apply Forall_fmap, Forall_forall. intros q Hq. simpl. by apply Hshape.
  - intros q Hq. pose proof (group_members_bound _ _ _ _ Hp Hq) as Hb.
    split; [done|]. rewrite (Hf q Hb). simpl. by rewrite decide_True.
Qed.

(** A grid of processes that have all returned is done. *)
Lemma run_grid_returned (fuel n : nat) (v : nat → A) :
  run_grid d offset scratch fuel ((λ p, Ret (v p)) <$> seq 0 n)
  = Some ((λ p, inr (v p)) <$> seq 0 n).
Proof.
  assert (forallb finished ((λ p, Ret (v p)) <$> seq 0 n) = true) as Hfin.
  { apply forallb_forall. intros x Hx. apply in_map_iff in Hx as (p & <- & _). done. }
  destruct fuel; simpl; rewrite Hfin; by rewrite <- list_fmap_compose.
Qed.

Lemma run_grid_step (fuel : nat) (w : list (Prog A)) :
  forallb finished w = false →
  run_grid d offset scratch (S fuel) w
  = run_grid d offset scratch fuel (step_grid d offset scratch w).
Proof. intros H. simpl. by rewrite H. Qed.
End Steps.

(* ================================================================= *)
(** ** The loop of the AB product *)

(** Reduce the monadic structure of a program and nothing else. *)
Ltac prog_simpl := cbn [mbind mret Prog_bind Prog_ret bind].

Lemma py_index_nat {B : Type} (l : list B) (i : nat) : py_index l (Z.of_nat i) = l !! i.
Proof.
  unfold py_index. assert ((0 <=? Z.of_nat i)%Z = true) as -> by lia. by rewrite Nat2Z.id.
Qed.

Lemma list_get_nat {B : Type} (l : list B) (i : nat) (x : B) :
  l !! i = Some x → list_get l (Z.of_nat i) = Ret x.
Proof. intros H. unfold list_get. by rewrite py_index_nat, H. Qed.

Lemma tuple_get_nat {B : Type} (l : list B) (i : nat) (x : B) :
  l !! i = Some x → tuple_get l (Z.of_nat i) = Ret x.
Proof. intros H. unfold tuple_get. by rewrite py_index_nat, H. Qed.

Lemma loop_index (d i : nat) (r : Z) :
  i < d → ((Z.of_nat i + Z.of_nat d * r) mod Z.of_nat d)%Z = Z.of_nat i.
Proof.
  intros Hi. rewrite Z.mul_comm, Z_mod_plus_full. apply Z.mod_small. lia.
Qed.

Lemma torch_matmul_2d (a b : Tensor) (m k n : nat) :
  shape a = [m; k] → shape b = [k; n] →
  torch_matmul a b
  = Ret (tab2 m n (λ i j, Qsum ((λ l, get2 a i l * get2 b l j)%Q <$> seq 0 k))).
Proof. intros Ha Hb. unfold torch_matmul. rewrite Ha, Hb. by rewrite decide_True. Qed.

Lemma torch_addmm_tab2 (a b : Tensor) (m k n : nat) (F : nat → nat → Q) :
  shape a = [m; k] → shape b = [k; n] →
  torch_addmm (tab2 m n F) a b
  = Ret (tab2 m n (λ i j, F i j + Qsum ((λ l, get2 a i l * get2 b l j)%Q <$> seq 0 k))%Q).
Proof.
  intros Ha Hb. unfold torch_addmm. rewrite (torch_matmul_2d a b m k n Ha Hb).
  prog_simpl. rewrite decide_True by done. change (shape (tab2 m n F)) with [m; n].
  by rewrite zip_with_tab2.
Qed.

Lemma Qsum_snoc (l : list Q) (x : Q) : Qsum (l ++ [x]) = (Qsum l + x)%Q.
Proof. rewrite Qsum_app. f_equal. unfold Qsum. simpl. apply Qplus_0_l_eq. Qed.

(** One turn of the accumulation loop of [Matmul_AB_2p5D.forward]. *)
Lemma Matmul_AB_loop_body_step (d m k n : nat) (tA tB : nat → Tensor) (row_rank col_rank : Z)
    (F : nat → nat → Q) (i : nat) :
  (∀ j, j < d → shape (tA j) = [m; k]) →
  (∀ j, j < d → shape (tB j) = [k; n]) →
  i < d →
  Matmul_AB_2p5D_loop_body (tA <$> seq 0 d) (tB <$> seq 0 d) (Z.of_nat d) row_rank col_rank
    (Z.of_nat i) (tab2 m n F)
  = Ret (tab2 m n (λ x y, F x y + Qsum ((λ l, get2 (tA i) x l * get2 (tB i) l y)%Q <$> seq 0 k))%Q).
Proof.
  intros HA HB Hi. unfold Matmul_AB_2p5D_loop_body. cbv zeta.
  rewrite !loop_index by lia.
  rewrite (list_get_nat (tA <$> seq 0 d) i (tA i)) by (by apply lookup_fmap_seq).
  rewrite (list_get_nat (tB <$> seq 0 d) i (tB i)) by (by apply lookup_fmap_seq).
  prog_simpl. apply torch_addmm_tab2; auto.
Qed.

(** The whole loop, from iteration [i] on. *)
Lemma Matmul_AB_loop (d m k n : nat) (tA tB : nat → Tensor) (row_rank col_rank : Z) :
  (∀ j, j < d → shape (tA j) = [m; k]) →
  (∀ j, j < d → shape (tB j) = [k; n]) →
  ∀ len i, i + len = d →
  for_each (Z.of_nat <$> seq i len)
    (Matmul_AB_2p5D_loop_body (tA <$> seq 0 d) (tB <$> seq 0 d) (Z.of_nat d) row_rank col_rank)
    (tab2 m n (λ x y, Qsum ((λ t, Qsum ((λ l, get2 (tA t) x l * get2 (tB t) l y)%Q <$> seq 0 k))
                              <$> seq 0 i)))
  = Ret (tab2 m n (λ x y, Qsum ((λ t, Qsum ((λ l, get2 (tA t) x l * get2 (tB t) l y)%Q <$> seq 0 k))
                                  <$> seq 0 d))).
Proof.
  intros HA HB len. induction len as [|len IH]; intros i Hi.
  - simpl. by replace i with d by lia.
  - cbn [seq fmap list_fmap for_each].
    rewrite (Matmul_AB_loop_body_step d m k n) by (auto; lia).
    prog_simpl. rewrite <- (IH (S i)) by lia. f_equal. apply tab2_ext. intros x y _ _.
    rewrite seq_S, fmap_app. cbn [fmap list_fmap]. by rewrite Qsum_snoc.
Qed.

(* ================================================================= *)
(** ** The calls of the AB product *)

Lemma shape_at_2d (t : Tensor) (m n : nat) :
  shape t = [m; n] →
  shape_at t 0 = Ret m ∧ shape_at t (-2) = Ret m ∧ shape_at t (-1) = Ret n.
Proof. intros Hs. unfold shape_at, py_index. rewrite Hs. done. Qed.

Lemma torch_zeros_2d (m n : nat) : torch_zeros [Z.of_nat m; Z.of_nat n] = Ret (full [m; n] 0%Q).
Proof.
  unfold torch_zeros. cbn [existsb].
  assert ((Z.of_nat m <? 0)%Z = false) as -> by lia.
  assert ((Z.of_nat n <? 0)%Z = false) as -> by lia.
  cbn. by rewrite !Nat2Z.id.
Qed.

Lemma torch_empty_2d `{!Allocator} (m n : nat) :
  torch_empty [Z.of_nat m; Z.of_nat n] = Ret (full [m; n] empty_value).
Proof.
  unfold torch_empty. cbn [existsb].
  assert ((Z.of_nat m <? 0)%Z = false) as -> by lia.
  assert ((Z.of_nat n <? 0)%Z = false) as -> by lia.
  cbn. by rewrite !Nat2Z.id.
Qed.

Section AB_calls.
Context `{!GlobalContext, !Allocator}.

(** [Matmul_AB_2p5D.forward] on matrices that fit: two all-gathers, then
    the loop. *)
Lemma Matmul_AB_forward_calls (ctx : bool) (A B : Tensor) (m k n : nat) (tesseract_dim : Z)
    (out_shape : list Z) (row_rank col_rank dep_rank : Z)
    (row_parallel_mode col_parallel_mode : ParallelMode)
    (data_parallel_rank pipeline_parallel_rank pipeline_parallel_size
       tensor_parallel_size : Z) :
  shape A = [m; k] → shape B = [k; n] → 0 < k → 0 < n →
  Matmul_AB_2p5D_forward ctx A B tesseract_dim out_shape row_rank col_rank dep_rank
    row_parallel_mode col_parallel_mode data_parallel_rank pipeline_parallel_rank
    pipeline_parallel_size tensor_parallel_size
  = AllGather row_parallel_mode
      (py_insert ((λ _, torch_empty_like A) <$> py_range (get_world_size row_parallel_mode - 1))
         (get_local_rank row_parallel_mode) A) A
      (λ A_list,
         AllGather col_parallel_mode
           (py_insert ((λ _, torch_empty_like B) <$> py_range (get_world_size col_parallel_mode - 1))
              (get_local_rank col_parallel_mode) B) B
           (λ B_list,
              C ← for_range tesseract_dim
                    (Matmul_AB_2p5D_loop_body A_list B_list tesseract_dim row_rank col_rank)
                    (full [m; n] 0%Q);
              out ← reshape C out_shape;
              mret (out, matmul_ctx ctx A B tesseract_dim row_rank col_rank dep_rank
                           row_parallel_mode col_parallel_mode data_parallel_rank
                           pipeline_parallel_rank pipeline_parallel_size
                           tensor_parallel_size))).
Proof.
  intros HA HB Hk Hn. unfold Matmul_AB_2p5D_forward.
  destruct (shape_at_2d A m k HA) as (HA0 & _ & HA1).
  destruct (shape_at_2d B k n HB) as (_ & HB2 & HB1).
  rewrite HA1, HB2. prog_simpl. rewrite bool_decide_eq_true_2 by done.
  cbn [py_assert]. prog_simpl.
  rewrite (reshape_rows A m k HA Hk). prog_simpl.
  rewrite HB1. prog_simpl.
  rewrite (reshape_rows B k n HB Hn). prog_simpl.
  unfold contiguous. rewrite HA0, HB1. prog_simpl.
  rewrite torch_zeros_2d. prog_simpl.
  reflexivity.
Qed.
End AB_calls.

(* ================================================================= *)
(** ** The AB product on the grid *)

Lemma shape_tile (t : Tensor) (m n r c : nat) : shape (tile t m n r c) = [m; n].
Proof. done. Qed.

Lemma run_grid_waiting {A : Type} (d : nat) (offset : Z) (scratch : nat → Tensor → list Q)
    (fuel n : nat) (f : nat → Prog A) :
  0 < n → finished (f 0) = false →
  run_grid d offset scratch (S fuel) (f <$> seq 0 n)
  = run_grid d offset scratch fuel (step_grid d offset scratch (f <$> seq 0 n)).
Proof.
  intros Hn Hf. apply run_grid_step. destruct n; [lia|]. simpl. by rewrite Hf.
Qed.

Lemma py_range_nat (n : nat) : py_range (Z.of_nat n) = Z.of_nat <$> seq 0 n.
Proof. unfold py_range. by rewrite Nat2Z.id. Qed.

Lemma shape_tiles {B : Type} (f : B → Tensor) (s : list nat) (l : list B) :
  (∀ x, shape (f x) = s) → shape <$> (f <$> l) = replicate (length l) s.
Proof.
  intros Hf. induction l; csimpl; [done|]. by rewrite Hf, IHl.
Qed.

(** The buffers handed to the all-gathers of [Matmul_AB_2p5D.forward] are
    as many as the group has members and shaped like the tile. *)
Lemma shape_gather_buffers (d : nat) (i : nat) (e x : Tensor) :
  i < d → shape e = shape x →
  shape <$> py_insert ((λ _, e) <$> py_range (Z.of_nat d - 1)) (Z.of_nat i) x
  = replicate d (shape x).
Proof.
  intros Hi He. unfold py_insert, py_range.
  rewrite length_fmap, length_fmap, length_seq.
  assert ((Z.of_nat i <? 0)%Z = false) as -> by lia.
  replace (Z.to_nat (Z.of_nat d - 1)) with (d - 1) by lia.
  replace (Z.to_nat (Z.min (Z.of_nat i) (Z.of_nat (d - 1)))) with i by lia.
  rewrite fmap_app, fmap_cons, fmap_take, fmap_drop.
  rewrite (shape_tiles (λ _, e) (shape x)) by done.
  rewrite length_fmap, length_seq, take_replicate, drop_replicate.
  replace (i `min` (d - 1)) with i by lia.
  replace (replicate d (shape x)) with (replicate (i + S (d - 1 - i)) (shape x))
    by (f_equal; lia).
  by rewrite replicate_add.
Qed.

Lemma length_group_members (d : nat) (g : ParallelMode) (p : nat) :
  length (group_members d g p) = d.
Proof. destruct g; simpl; by rewrite length_fmap, length_seq. Qed.

Section AB.
Context `{!Allocator}.
Variables (d m k n : nat) (A B : Tensor).
Variables (dep_rank data_parallel_rank pipeline_parallel_rank pipeline_parallel_size
             tensor_parallel_size : Z).
Variable ctx : bool.
Variable scratch : nat → Tensor → list Q.

Local Abbreviation AB_process :=
  (AB_process d m k n A B dep_rank data_parallel_rank pipeline_parallel_rank
     pipeline_parallel_size tensor_parallel_size ctx).

Local Abbreviation AB_tile := (AB_tile d m k n A B).

Lemma Matmul_AB_grid_run :
  0 < d → 0 < k → 0 < n →
  run_grid d (slice_offset (Z.of_nat d) dep_rank data_parallel_rank pipeline_parallel_rank
                pipeline_parallel_size tensor_parallel_size) scratch 2
    (launch d AB_process)
  = Some ((λ p, inr (AB_tile (row_of d p) (col_of d p),
                     matmul_ctx ctx
                       (tile A m k (row_of d p) (col_of d p))
                       (tile B k n (row_of d p) (col_of d p))
                       (Z.of_nat d) (Z.of_nat (row_of d p)) (Z.of_nat (col_of d p)) dep_rank
                       PARALLEL_2P5D_ROW PARALLEL_2P5D_COL data_parallel_rank
                       pipeline_parallel_rank pipeline_parallel_size tensor_parallel_size))
          <$> seq 0 (d * d)).
Proof.
  intros Hd Hk Hn. unfold launch, AB_process.
  set (tA := λ p, tile A m k (row_of d p) (col_of d p)).
  set (tB := λ p, tile B k n (row_of d p) (col_of d p)).
  rewrite run_grid_waiting; [|nia|].
  2:{ rewrite (Matmul_AB_forward_calls _ _ _ m k n) by done. done. }
  erewrite step_all_gather; cycle 1.
  { intros p Hp. apply (Matmul_AB_forward_calls _ _ _ m k n); done. }
  { intros p Hp. destruct (row_col_bound d p Hp).
    cbn [grid_gpc get_world_size get_local_rank].
    rewrite shape_gather_buffers by done.
    rewrite (shape_tiles tA [m; k]) by done. by rewrite length_group_members. }
  rewrite run_grid_waiting; [|nia|done].
  erewrite step_all_gather; cycle 1.
  { intros p Hp. reflexivity. }
  { intros p Hp. destruct (row_col_bound d p Hp).
    cbn [grid_gpc get_world_size get_local_rank].
    rewrite shape_gather_buffers by done.
    rewrite (shape_tiles tB [k; n]) by done. by rewrite length_group_members. }
  erewrite fmap_seq_ext; [apply run_grid_returned|].
  intros p Hp. cbv beta. destruct (row_col_bound d p Hp) as [Hr Hc].
  rewrite !group_members_fmap.
  rewrite (fmap_seq_ext (λ j, tA (row_of d p * d + j)) (λ j, tile A m k (row_of d p) j)).
  2:{ intros j Hj. unfold tA. by destruct (row_col_of d (row_of d p) j Hj) as [-> ->]. }
  rewrite (fmap_seq_ext (λ j, tB (j * d + col_of d p)) (λ j, tile B k n j (col_of d p))).
  2:{ intros j Hj. unfold tB. by destruct (row_col_of d j (col_of d p) Hc) as [-> ->]. }
  unfold for_range. rewrite py_range_nat, full_tab2.
  rewrite (Matmul_AB_loop d m k n (λ j, tile A m k (row_of d p) j)
             (λ j, tile B k n j (col_of d p)) _ _ (λ _ _, eq_refl) (λ _ _, eq_refl) d 0)
    by done.
  prog_simpl. rewrite (reshape_same _ m n) by done. done.
Qed.
End AB.

(* ================================================================= *)
(** ** Tiles and dense matrices *)

Lemma Qsum_ext (f g : nat → Q) (n : nat) :
  (∀ i, i < n → f i = g i) → Qsum (f <$> seq 0 n) = Qsum (g <$> seq 0 n).
Proof. intros H. f_equal. by apply fmap_seq_ext. Qed.

Lemma div_mod_join (n i : nat) : i / n * n + i mod n = i.
Proof. pose proof (Nat.div_mod_eq i n). lia. Qed.

(** Sum over a dimension cut into [d] blocks of [k]. *)
Lemma Qsum_tiles (F : nat → Q) (d k : nat) :
  0 < k →
  Qsum ((λ t, Qsum ((λ l, F (t * k + l)) <$> seq 0 k)) <$> seq 0 d)
  = Qsum (F <$> seq 0 (d * k)).
Proof.
  intros Hk. rewrite <- (Qsum_blocks (λ t l, F (t * k + l)) d k Hk).
  apply Qsum_ext. intros i _. by rewrite div_mod_join.
Qed.

(** Reading a dense matrix through the tiles of a grid. *)
Lemma assemble_tiles (d m n : nat) (T : nat → nat → Tensor) (F : nat → nat → Q) :
  (∀ r c x y, r < d → c < d → x < m → y < n → get2 (T r c) x y = F (r * m + x) (c * n + y)) →
  assemble d m n ((λ p, T (row_of d p) (col_of d p)) <$> seq 0 (d * d))
  = tab2 (d * m) (d * n) F.
Proof.
  intros HT. unfold assemble. apply tab2_ext. intros i j Hi Hj.
  destruct (index_split _ _ _ Hi) as [Hr Hx]. destruct (index_split _ _ _ Hj) as [Hc Hy].
  rewrite lookup_fmap_seq by nia. cbn [default]. cbv beta.
  destruct (row_col_of d (i / m) (j / n)) as [-> ->]; [nia|].
  unfold id. rewrite HT by (done || nia). by rewrite !div_mod_join.
Qed.

Section AB_dense.
Variables (d m k n : nat) (A B : Tensor).

(** The tiles the grid computes, put together, are the dense product. *)
Lemma assemble_AB :
  0 < k → shape A = [d * m; d * k] → shape B = [d * k; d * n] →
  torch_matmul A B
  = Ret (assemble d m n ((λ p, AB_tile d m k n A B (row_of d p) (col_of d p)) <$> seq 0 (d * d))).
Proof.
  intros Hk HA HB. rewrite (torch_matmul_2d A B _ _ _ HA HB). f_equal. symmetry.
  apply assemble_tiles. intros r c x y Hr Hc Hx Hy. unfold AB_tile.
  rewrite get2_tab2 by done.
  rewrite <- (Qsum_tiles (λ l, get2 A (r * m + x) l * get2 B l (c * n + y))%Q d k Hk).
  apply Qsum_ext. intros t Ht. apply Qsum_ext. intros l Hl.
  unfold tile. by rewrite !get2_tab2.
Qed.
End AB_dense.

(* ================================================================= *)
(** ** The loops of the ABT and ATB products *)

Lemma tensor_sum_tab2 (m n : nat) (f0 : nat → nat → Q) (F : nat → nat → nat → Q) (l : list nat) :
  tensor_sum (tab2 m n f0) ((λ q, tab2 m n (F q)) <$> l)
  = tab2 m n (λ x y, Qsum ((λ q, F q x y) <$> l)).
Proof.
  unfold tensor_sum.
  replace (length (data (tab2 m n f0))) with (m * n)
    by (cbn; by rewrite length_fmap, length_seq).
  change (shape (tab2 m n f0)) with [m; n].
  unfold tab2 at 2. f_equal. apply fmap_seq_ext. intros o Ho.
  rewrite <- list_fmap_compose. f_equal. apply list_fmap_ext. intros _ q _.
  cbn [compose]. by rewrite flat_get_tab2.
Qed.

Lemma shape_full (s : list nat) (x : Q) : shape (full s x) = s.
Proof. done. Qed.

(** The loop bodies of [Matmul_ABT_2p5D.forward] and [Matmul_ATB_2p5D.forward]
    start in a broadcast. *)
Lemma Matmul_ABT_loop_body_calls (A B : Tensor) (tesseract_dim : Z)
    (row_rank col_rank dep_rank : Z) (row_parallel_mode col_parallel_mode : ParallelMode)
    (data_parallel_rank pipeline_parallel_rank pipeline_parallel_size
       tensor_parallel_size : Z) (i : Z) (C : Tensor) :
  Matmul_ABT_2p5D_loop_body A B tesseract_dim row_rank col_rank dep_rank
    row_parallel_mode col_parallel_mode data_parallel_rank pipeline_parallel_rank
    pipeline_parallel_size tensor_parallel_size i C
  = Broadcast col_parallel_mode
      (col_rank + i * tesseract_dim + dep_rank * tesseract_dim ^ 2
       + data_parallel_rank * pipeline_parallel_size * tensor_parallel_size
       + pipeline_parallel_rank * tensor_parallel_size)%Z B
      (λ B_temp,
         B_t ← torch_transpose B_temp 0 1;
         C_temp ← torch_matmul A B_t;
         C_temp ← dist_reduce C_temp
                    (i + row_rank * tesseract_dim + dep_rank * tesseract_dim ^ 2
                     + data_parallel_rank * pipeline_parallel_size * tensor_parallel_size
                     + pipeline_parallel_rank * tensor_parallel_size)%Z row_parallel_mode;
         mret (if bool_decide (i = col_rank) then clone C_temp else C)).
Proof. reflexivity. Qed.

Lemma Matmul_ATB_loop_body_calls (A B : Tensor) (tesseract_dim : Z)
    (row_rank col_rank dep_rank : Z) (row_parallel_mode col_parallel_mode : ParallelMode)
    (data_parallel_rank pipeline_parallel_rank pipeline_parallel_size
       tensor_parallel_size : Z) (i : Z) (C : Tensor) :
  Matmul_ATB_2p5D_loop_body A B tesseract_dim row_rank col_rank dep_rank
    row_parallel_mode col_parallel_mode data_parallel_rank pipeline_parallel_rank
    pipeline_parallel_size tensor_parallel_size i C
  = Broadcast row_parallel_mode
      (i + row_rank * tesseract_dim + dep_rank * tesseract_dim ^ 2
       + data_parallel_rank * pipeline_parallel_size * tensor_parallel_size
       + pipeline_parallel_rank * tensor_parallel_size)%Z A
      (λ A_temp,
         A_t ← torch_transpose A_temp 0 1;
         C_temp ← torch_matmul A_t B;
         C_temp ← dist_reduce C_temp
                    (col_rank + i * tesseract_dim + dep_rank * tesseract_dim ^ 2
                     + data_parallel_rank * pipeline_parallel_size * tensor_parallel_size
                     + pipeline_parallel_rank * tensor_parallel_size)%Z col_parallel_mode;
         mret (if bool_decide (i = row_rank) then clone C_temp else C)).
Proof. reflexivity. Qed.

Section ABT_forward.
Context `{!Allocator}.

(** [Matmul_ABT_2p5D.forward] on matrices that fit: the loop, then the
    reshape. *)
Lemma Matmul_ABT_forward_loop (ctx : bool) (A B : Tensor) (m n k : nat) (tesseract_dim : Z)
    (out_shape : list Z) (row_rank col_rank dep_rank : Z)
    (row_parallel_mode col_parallel_mode : ParallelMode)
    (data_parallel_rank pipeline_parallel_rank pipeline_parallel_size
       tensor_parallel_size : Z) :
  shape A = [m; k] → shape B = [n; k] → 0 < k →
  Matmul_ABT_2p5D_forward ctx A B tesseract_dim out_shape row_rank col_rank dep_rank
    row_parallel_mode col_parallel_mode data_parallel_rank pipeline_parallel_rank
    pipeline_parallel_size tensor_parallel_size
  = (C ← for_range tesseract_dim
           (Matmul_ABT_2p5D_loop_body A B tesseract_dim row_rank col_rank dep_rank
              row_parallel_mode col_parallel_mode data_parallel_rank pipeline_parallel_rank
              pipeline_parallel_size tensor_parallel_size)
           (full [m; n] empty_value);
     out ← reshape C out_shape;
     mret (out, matmul_ctx ctx A B tesseract_dim row_rank col_rank dep_rank
                  row_parallel_mode col_parallel_mode data_parallel_rank
                  pipeline_parallel_rank pipeline_parallel_size tensor_parallel_size)).
Proof.
  intros HA HB Hk. unfold Matmul_ABT_2p5D_forward.
  destruct (shape_at_2d A m k HA) as (HA0 & _ & HA1).
  destruct (shape_at_2d B n k HB) as (HB0 & _ & HB1).
  rewrite HA1, HB1. prog_simpl. rewrite bool_decide_eq_true_2 by done.
  cbn [py_assert]. prog_simpl.
  rewrite (reshape_rows A m k HA Hk). prog_simpl.
  rewrite (reshape_rows B n k HB Hk). prog_simpl.
  rewrite HA0, HB0. prog_simpl.
  rewrite torch_empty_2d. prog_simpl.
  reflexivity.
Qed.

Lemma Matmul_ATB_forward_loop (ctx : bool) (A B : Tensor) (m k n : nat) (tesseract_dim : Z)
    (out_shape : list Z) (row_rank col_rank dep_rank : Z)
    (row_parallel_mode col_parallel_mode : ParallelMode)
    (data_parallel_rank pipeline_parallel_rank pipeline_parallel_size
       tensor_parallel_size : Z) :
  shape A = [m; k] → shape B = [m; n] → 0 < k → 0 < n →
  Matmul_ATB_2p5D_forward ctx A B tesseract_dim out_shape row_rank col_rank dep_rank
    row_parallel_mode col_parallel_mode data_parallel_rank pipeline_parallel_rank
    pipeline_parallel_size tensor_parallel_size
  = (C ← for_range tesseract_dim
           (Matmul_ATB_2p5D_loop_body A B tesseract_dim row_rank col_rank dep_rank
              row_parallel_mode col_parallel_mode data_parallel_rank pipeline_parallel_rank
              pipeline_parallel_size tensor_parallel_size)
           (full [k; n] empty_value);
     out ← reshape C out_shape;
     mret (out, matmul_ctx ctx A B tesseract_dim row_rank col_rank dep_rank
                  row_parallel_mode col_parallel_mode data_parallel_rank
                  pipeline_parallel_rank pipeline_parallel_size tensor_parallel_size)).
Proof.
  intros HA HB Hk Hn. unfold Matmul_ATB_2p5D_forward.
  destruct (shape_at_2d A m k HA) as (_ & HA2 & HA1).
  destruct (shape_at_2d B m n HB) as (_ & HB2 & HB1).
  rewrite HA2, HB2. prog_simpl. rewrite bool_decide_eq_true_2 by done.
  cbn [py_assert]. prog_simpl.
  rewrite HA1. prog_simpl.
  rewrite (reshape_rows A m k HA Hk). prog_simpl.
  rewrite HB1. prog_simpl.
  rewrite (reshape_rows B m n HB Hn). prog_simpl.
  rewrite HA1, HB1. prog_simpl.
  rewrite torch_empty_2d. prog_simpl.
  reflexivity.
Qed.
End ABT_forward.

(* ================================================================= *)
(** ** The ABT product on the grid *)

Lemma shape_transposed_tile (t : Tensor) (m n r c : nat) :
  shape (transposed (tile t m n r c)) = [n; m].
Proof. done. Qed.

Section ABT.
Context `{!Allocator}.
Variables (d m n k : nat) (A B : Tensor).
Variables (dep_rank data_parallel_rank pipeline_parallel_rank pipeline_parallel_size
             tensor_parallel_size : Z).
Variable ctx : bool.
Variable scratch : nat → Tensor → list Q.

Local Abbreviation offset :=
  (slice_offset (Z.of_nat d) dep_rank data_parallel_rank pipeline_parallel_rank
     pipeline_parallel_size tensor_parallel_size).

Local Abbreviation ABT_process :=
  (ABT_process d m n k A B dep_rank data_parallel_rank pipeline_parallel_rank
     pipeline_parallel_size tensor_parallel_size ctx).

Local Abbreviation ABT_tile := (ABT_tile d m n k A B).

Local Abbreviation ABT_rest :=
  (ABT_rest d m n k A B dep_rank data_parallel_rank pipeline_parallel_rank
     pipeline_parallel_size tensor_parallel_size ctx).

Local Abbreviation ABT_held := (ABT_held d m n k A B).

Lemma ABT_iterations :
  0 < d →
  ∀ len i, i + len = d →
  run_grid d (slice_offset (Z.of_nat d) dep_rank data_parallel_rank pipeline_parallel_rank
                pipeline_parallel_size tensor_parallel_size) scratch (2 * len)
    ((λ p, ABT_rest p (Z.of_nat <$> seq i len) (ABT_held i p)) <$> seq 0 (d * d))
  = Some ((λ p, inr (ABT_tile (row_of d p) (col_of d p),
                     matmul_ctx ctx
                       (tile A m k (row_of d p) (col_of d p))
                       (tile B n k (row_of d p) (col_of d p))
                       (Z.of_nat d) (Z.of_nat (row_of d p)) (Z.of_nat (col_of d p)) dep_rank
                       PARALLEL_2P5D_ROW PARALLEL_2P5D_COL data_parallel_rank
                       pipeline_parallel_rank pipeline_parallel_size tensor_parallel_size))
          <$> seq 0 (d * d)).
Proof.
  intros Hd len. induction len as [|len IH]; intros i Hi.
  - erewrite fmap_seq_ext; [apply run_grid_returned|].
    intros p Hp. destruct (row_col_bound d p Hp) as [Hr Hc].
    unfold ABT_rest. cbn [seq fmap list_fmap for_each]. prog_simpl.
    unfold ABT_held. rewrite decide_True by lia.
    by rewrite (reshape_same _ m n).
  - replace (2 * S len) with (S (S (2 * len))) by lia.
    cbn [seq fmap list_fmap].
    (* the broadcast of B within the column groups *)
    rewrite run_grid_waiting; [|nia|done].
    erewrite (step_broadcast d _ scratch _ PARALLEL_2P5D_COL _
                (λ _, i) (λ p, i * d + col_of d p)); cycle 1.
    { intros p Hp. unfold ABT_rest. cbn [for_each].
      rewrite Matmul_ABT_loop_body_calls. prog_simpl. reflexivity. }
    { intros p q Hp Hq. cbv beta.
      apply list_elem_of_fmap in Hq as (r & -> & Hr). apply elem_of_seq in Hr.
      destruct (row_col_bound d p Hp) as [_ Hc].
      by destruct (row_col_of d r (col_of d p) Hc) as [_ ->]. }
    { intros p Hp. cbv beta.
      rewrite <- (position_member d offset PARALLEL_2P5D_COL p i) by lia.
      f_equal. unfold slice_offset. lia. }
    { intros p Hp. by rewrite group_members_lookup by lia. }
    { intros p Hp. done. }
    (* the product and its reduction within the row groups *)
    erewrite (fmap_seq_ext _ _); cycle 1.
    { intros p Hp. cbv beta. unfold clone.
      rewrite (torch_transpose_2d _ n k) by done. prog_simpl.
      rewrite (torch_matmul_2d _ _ m k n) by done. unfold dist_reduce. prog_simpl.
      reflexivity. }
    rewrite run_grid_waiting; [|nia|done].
    erewrite (step_reduce d _ scratch _ PARALLEL_2P5D_ROW _ (λ _, i)); cycle 1.
    { intros p Hp. reflexivity. }
    { intros p q Hp Hq. cbv beta.
      apply list_elem_of_fmap in Hq as (c & -> & Hc). apply elem_of_seq in Hc.
      by destruct (row_col_of d (row_of d p) c) as [-> _]; [lia|]. }
    { intros p Hp. cbv beta.
      rewrite <- (position_member d offset PARALLEL_2P5D_ROW p i) by lia.
      f_equal. unfold slice_offset. lia. }
    { intros p q Hp Hq. done. }
    (* what is kept *)
    rewrite <- (IH (S i)) by lia. f_equal.
    apply fmap_seq_ext. intros p Hp. destruct (row_col_bound d p Hp) as [Hr Hc].
    cbv beta. unfold ABT_rest. prog_simpl.
    match goal with
    | |- bind (for_each _ _ ?X) _ = _ =>
        assert (X = ABT_held (S i) p) as ->; [|reflexivity]
    end.
    rewrite group_members_lookup by lia. unfold ABT_held, clone.
    destruct (decide (i = col_of d p)) as [->|Hne].
    + rewrite bool_decide_eq_true_2 by done.
      rewrite decide_True by (by rewrite row_col_join).
      rewrite (decide_True (P := _ < S _)) by lia.
      rewrite group_members_fmap, tensor_sum_tab2. unfold ABT_tile.
      apply tab2_ext. intros x y _ _. apply Qsum_ext. intros t Ht.
      destruct (row_col_of d (row_of d p) t Ht) as [-> ->].
      by destruct (row_col_of d (col_of d p) t Ht) as [-> ->].
    + rewrite bool_decide_eq_false_2 by lia.
      destruct (decide (col_of d p < i)), (decide (col_of d p < S i)); done || lia.
Qed.
End ABT.

(* ================================================================= *)
(** ** The ABT and ATB products against the dense products *)

Lemma get2_transposed (t : Tensor) (m n i j : nat) :
  shape t = [m; n] → i < n → j < m → get2 (transposed t) i j = get2 t j i.
Proof.
  intros Hs Hi Hj. unfold transposed, cols, rows. rewrite Hs. cbn [nth].
  by rewrite get2_tab2.
Qed.

Lemma shape_transposed (t : Tensor) (m n : nat) :
  shape t = [m; n] → shape (transposed t) = [n; m].
Proof. intros Hs. unfold transposed, cols, rows. by rewrite Hs. Qed.

Section ABT_run.
Context `{!Allocator}.
Variables (d m n k : nat) (A B : Tensor).
Variables (dep_rank data_parallel_rank pipeline_parallel_rank pipeline_parallel_size
             tensor_parallel_size : Z).
Variable ctx : bool.
Variable scratch : nat → Tensor → list Q.

Lemma Matmul_ABT_grid_run :
  0 < d → 0 < k →
  run_grid d (slice_offset (Z.of_nat d) dep_rank data_parallel_rank pipeline_parallel_rank
                pipeline_parallel_size tensor_parallel_size) scratch (2 * d)
    (launch d (ABT_process d m n k A B dep_rank data_parallel_rank pipeline_parallel_rank
                 pipeline_parallel_size tensor_parallel_size ctx))
  = Some ((λ p, inr (ABT_tile d m n k A B (row_of d p) (col_of d p),
                     matmul_ctx ctx
                       (tile A m k (row_of d p) (col_of d p))
                       (tile B n k (row_of d p) (col_of d p))
                       (Z.of_nat d) (Z.of_nat (row_of d p)) (Z.of_nat (col_of d p)) dep_rank
                       PARALLEL_2P5D_ROW PARALLEL_2P5D_COL data_parallel_rank
                       pipeline_parallel_rank pipeline_parallel_size tensor_parallel_size))
          <$> seq 0 (d * d)).
Proof.
  intros Hd Hk. rewrite <- (ABT_iterations d m n k A B _ _ _ _ _ ctx scratch Hd d 0) by lia.
  f_equal. unfold launch. apply fmap_seq_ext. intros p Hp.
  unfold ABT_process. rewrite (Matmul_ABT_forward_loop _ _ _ m n k) by done.
  unfold for_range. rewrite py_range_nat. reflexivity.
Qed.

Lemma assemble_ABT :
  0 < k → shape A = [d * m; d * k] → shape B = [d * n; d * k] →
  (B_t ← torch_transpose B 0 1; torch_matmul A B_t)
  = Ret (assemble d m n ((λ p, ABT_tile d m n k A B (row_of d p) (col_of d p))
                           <$> seq 0 (d * d))).
Proof.
  intros Hk HA HB. rewrite (torch_transpose_2d B _ _ HB). prog_simpl.
  rewrite (torch_matmul_2d A _ _ _ (d * n) HA (shape_transposed _ _ _ HB)).
  f_equal. symmetry.
  apply assemble_tiles. intros r c x y Hr Hc Hx Hy. unfold ABT_tile.
  rewrite get2_tab2 by done.
  rewrite <- (Qsum_tiles (λ l, get2 A (r * m + x) l * get2 (transposed B) l (c * n + y))%Q
                d k Hk).
  apply Qsum_ext. intros t Ht. apply Qsum_ext. intros l Hl.
  rewrite (get2_transposed (tile B n k c t) n k) by done.
  rewrite (get2_transposed B _ _ _ _ HB) by nia.
  unfold tile. by rewrite !get2_tab2.
Qed.
End ABT_run.

Section ATB.
Context `{!Allocator}.
Variables (d m k n : nat) (A B : Tensor).
Variables (dep_rank data_parallel_rank pipeline_parallel_rank pipeline_parallel_size
             tensor_parallel_size : Z).
Variable ctx : bool.
Variable scratch : nat → Tensor → list Q.

Local Abbreviation offset :=
  (slice_offset (Z.of_nat d) dep_rank data_parallel_rank pipeline_parallel_rank
     pipeline_parallel_size tensor_parallel_size).

Local Abbreviation ATB_process :=
  (ATB_process d m k n A B dep_rank data_parallel_rank pipeline_parallel_rank
     pipeline_parallel_size tensor_parallel_size ctx).

Local Abbreviation ATB_tile := (ATB_tile d m k n A B).

Local Abbreviation ATB_rest :=
  (ATB_rest d m k n A B dep_rank data_parallel_rank pipeline_parallel_rank
     pipeline_parallel_size tensor_parallel_size ctx).

Local Abbreviation ATB_held := (ATB_held d m k n A B).

Lemma ATB_iterations :
  0 < d →
  ∀ len i, i + len = d →
  run_grid d offset scratch (2 * len)
    ((λ p, ATB_rest p (Z.of_nat <$> seq i len) (ATB_held i p)) <$> seq 0 (d * d))
  = Some ((λ p, inr (ATB_tile (row_of d p) (col_of d p),
                     matmul_ctx ctx
                       (tile A m k (row_of d p) (col_of d p))
                       (tile B m n (row_of d p) (col_of d p))
                       (Z.of_nat d) (Z.of_nat (row_of d p)) (Z.of_nat (col_of d p)) dep_rank
                       PARALLEL_2P5D_ROW PARALLEL_2P5D_COL data_parallel_rank
                       pipeline_parallel_rank pipeline_parallel_size tensor_parallel_size))
          <$> seq 0 (d * d)).
Proof.
  intros Hd len. induction len as [|len IH]; intros i Hi.
  - erewrite fmap_seq_ext; [apply run_grid_returned|].
    intros p Hp. destruct (row_col_bound d p Hp) as [Hr Hc].
    unfold ATB_rest. cbn [seq fmap list_fmap for_each]. prog_simpl.
    unfold ATB_held. rewrite decide_True by lia.
    by rewrite (reshape_same _ k n).
  - replace (2 * S len) with (S (S (2 * len))) by lia.
    cbn [seq fmap list_fmap].
    (* the broadcast of A within the row groups *)
    rewrite run_grid_waiting; [|nia|done].
    erewrite (step_broadcast d _ scratch _ PARALLEL_2P5D_ROW _
                (λ _, i) (λ p, row_of d p * d + i)); cycle 1.
    { intros p Hp. unfold ATB_rest. cbn [for_each].
      rewrite Matmul_ATB_loop_body_calls. prog_simpl. reflexivity. }
    { intros p q Hp Hq. cbv beta.
      apply list_elem_of_fmap in Hq as (c & -> & Hc). apply elem_of_seq in Hc.
      by destruct (row_col_of d (row_of d p) c) as [-> _]; [lia|]. }
    { intros p Hp. cbv beta.
      rewrite <- (position_member d offset PARALLEL_2P5D_ROW p i) by lia.
      f_equal. unfold slice_offset. lia. }
    { intros p Hp. by rewrite group_members_lookup by lia. }
    { intros p Hp. done. }
    (* the product and its reduction within the column groups *)
    erewrite (fmap_seq_ext _ _); cycle 1.
    { intros p Hp. cbv beta. unfold clone.
      rewrite (torch_transpose_2d _ m k) by done. prog_simpl.
      rewrite (torch_matmul_2d _ _ k m n) by done. unfold dist_reduce. prog_simpl.
      reflexivity. }
    rewrite run_grid_waiting; [|nia|done].
    erewrite (step_reduce d _ scratch _ PARALLEL_2P5D_COL _ (λ _, i)); cycle 1.
    { intros p Hp. reflexivity. }
    { intros p q Hp Hq. cbv beta.
      apply list_elem_of_fmap in Hq as (r & -> & Hr). apply elem_of_seq in Hr.
      destruct (row_col_bound d p Hp) as [_ Hc].
      by destruct (row_col_of d r (col_of d p) Hc) as [_ ->]. }
    { intros p Hp. cbv beta.
      rewrite <- (position_member d offset PARALLEL_2P5D_COL p i) by lia.
      f_equal. unfold slice_offset. lia. }
    { intros p q Hp Hq. done. }
    (* what is kept *)
    rewrite <- (IH (S i)) by lia. f_equal.
    apply fmap_seq_ext. intros p Hp. destruct (row_col_bound d p Hp) as [Hr Hc].
    cbv beta. unfold ATB_rest. prog_simpl.
    match goal with
    | |- bind (for_each _ _ ?X) _ = _ =>
        assert (X = ATB_held (S i) p) as ->; [|reflexivity]
    end.
    rewrite group_members_lookup by lia. unfold ATB_held, clone.
    destruct (decide (i = row_of d p)) as [->|Hne].
    + rewrite bool_decide_eq_true_2 by done.
      rewrite decide_True by (by rewrite row_col_join).
      rewrite (decide_True (P := _ < S _)) by lia.
      rewrite group_members_fmap, tensor_sum_tab2. unfold ATB_tile.
      apply tab2_ext. intros x y _ _. apply Qsum_ext. intros t Ht.
      destruct (row_col_of d t (col_of d p) Hc) as [-> ->].
      by destruct (row_col_of d t (row_of d p) Hr) as [-> ->].
    + rewrite bool_decide_eq_false_2 by lia.
      destruct (decide (row_of d p < i)), (decide (row_of d p < S i)); done || lia.
Qed.

Lemma Matmul_ATB_grid_run :
  0 < d → 0 < k → 0 < n →
  run_grid d offset scratch (2 * d) (launch d ATB_process)
  = Some ((λ p, inr (ATB_tile (row_of d p) (col_of d p),
                     matmul_ctx ctx
                       (tile A m k (row_of d p) (col_of d p))
                       (tile B m n (row_of d p) (col_of d p))
                       (Z.of_nat d) (Z.of_nat (row_of d p)) (Z.of_nat (col_of d p)) dep_rank
                       PARALLEL_2P5D_ROW PARALLEL_2P5D_COL data_parallel_rank
                       pipeline_parallel_rank pipeline_parallel_size tensor_parallel_size))
          <$> seq 0 (d * d)).
Proof.
  intros Hd Hk Hn. rewrite <- (ATB_iterations Hd d 0) by lia.
  f_equal. unfold launch. apply fmap_seq_ext. intros p Hp.
  unfold ATB_process. rewrite (Matmul_ATB_forward_loop _ _ _ m k n) by done.
  unfold for_range. rewrite py_range_nat. reflexivity.
Qed.

Lemma assemble_ATB :
  0 < m → shape A = [d * m; d * k] → shape B = [d * m; d * n] →
  (A_t ← torch_transpose A 0 1; torch_matmul A_t B)
  = Ret (assemble d k n ((λ p, ATB_tile (row_of d p) (col_of d p)) <$> seq 0 (d * d))).
Proof.
  intros Hm HA HB. rewrite (torch_transpose_2d A _ _ HA). prog_simpl.
  rewrite (torch_matmul_2d _ B (d * k) _ _ (shape_transposed _ _ _ HA) HB).
  f_equal. symmetry.
  apply assemble_tiles. intros r c x y Hr Hc Hx Hy. unfold ATB_tile.
  rewrite get2_tab2 by done.
  rewrite <- (Qsum_tiles (λ l, get2 (transposed A) (r * k + x) l * get2 B l (c * n + y))%Q
                d m Hm).
  apply Qsum_ext. intros t Ht. apply Qsum_ext. intros l Hl.
  rewrite (get2_transposed (tile A m k t r) m k) by done.
  rewrite (get2_transposed A _ _ _ _ HA) by nia.
  unfold tile. by rewrite !get2_tab2.
Qed.
End ATB.

(* ================================================================= *)
(** ** Results and the saved context *)

Lemma run_with_bind {A B : Type} (o : Oracle) (p : Prog A) (f : A → Prog B) (n : nat) :
  run_with o n (p ≫= f)
  = match (run_with o n p).2 with
    | inl e => ((run_with o n p).1, inl e)
    | inr a =>
        let r := run_with o (n + length (run_with o n p).1) (f a) in
        ((run_with o n p).1 ++ r.1, r.2)
    end.
Proof.
  revert n. induction p as [a|e|g l t k IH|g s t k IH|g s t k IH|g t k IH]; intros n.
  - cbn. rewrite Nat.add_0_r. by destruct (run_with o n (f a)).
  - done.
  - cbn. change (bind (k ?x) f) with (k x ≫= f). rewrite IH.
    destruct (run_with o (S n) (k _)).2; cbn; [done|].
    by rewrite Nat.add_succ_r.
  - cbn. change (bind (k ?x) f) with (k x ≫= f). rewrite IH.
    destruct (run_with o (S n) (k _)).2; cbn; [done|].
    by rewrite Nat.add_succ_r.
  - cbn. change (bind (k ?x) f) with (k x ≫= f). rewrite IH.
    destruct (run_with o (S n) (k _)).2; cbn; [done|].
    by rewrite Nat.add_succ_r.
  - cbn. change (bind (k ?x) f) with (k x ≫= f). rewrite IH.
    destruct (run_with o (S n) (k _)).2; cbn; [done|].
    by rewrite Nat.add_succ_r.
Qed.

Lemma result_bind_inv {A B : Type} (o : Oracle) (p : Prog A) (f : A → Prog B) (n : nat) (v : B) :
  (run_with o n (p ≫= f)).2 = inr v →
  ∃ a n', (run_with o n p).2 = inr a ∧ (run_with o n' (f a)).2 = inr v.
Proof.
  rewrite run_with_bind. destruct (run_with o n p).2 as [e|a]; [done|].
  cbn. eauto.
Qed.

Lemma pure_inv {A : Type} (p : Prog A) : pure p → (∃ a, p = Ret a) ∨ (∃ e, p = Raise e).
Proof. destruct p; cbn; intros H; try done; eauto. Qed.

(** ** What the forward passes leave in the context *)

Ltac peel_binds H :=
  repeat (apply result_bind_inv in H as (? & ? & _ & H); cbv beta zeta in H).

Section SavedContext.
Context `{!GlobalContext, !Allocator}.
Variables (o : Oracle) (n : nat) (ctx : bool) (A B : Tensor) (tesseract_dim : Z)
  (out_shape : list Z) (row_rank col_rank dep_rank : Z)
  (row_parallel_mode col_parallel_mode : ParallelMode)
  (data_parallel_rank pipeline_parallel_rank pipeline_parallel_size tensor_parallel_size : Z).

Lemma Matmul_AB_forward_ctx (out : Tensor) (c : option MatmulCtx) :
  (run_with o n
     (Matmul_AB_2p5D_forward ctx A B tesseract_dim out_shape row_rank col_rank dep_rank
        row_parallel_mode col_parallel_mode data_parallel_rank pipeline_parallel_rank
        pipeline_parallel_size tensor_parallel_size)).2 = inr (out, c) →
  c = matmul_ctx ctx A B tesseract_dim row_rank col_rank dep_rank
        row_parallel_mode col_parallel_mode data_parallel_rank pipeline_parallel_rank
        pipeline_parallel_size tensor_parallel_size.
Proof.
  intros Hrun. unfold Matmul_AB_2p5D_forward in Hrun. peel_binds Hrun.
  cbn in Hrun. by injection Hrun as _ <-.
Qed.

Lemma Matmul_ABT_forward_ctx (out : Tensor) (c : option MatmulCtx) :
  (run_with o n
     (Matmul_ABT_2p5D_forward ctx A B tesseract_dim out_shape row_rank col_rank dep_rank
        row_parallel_mode col_parallel_mode data_parallel_rank pipeline_parallel_rank
        pipeline_parallel_size tensor_parallel_size)).2 = inr (out, c) →
  c = matmul_ctx ctx A B tesseract_dim row_rank col_rank dep_rank
        row_parallel_mode col_parallel_mode data_parallel_rank pipeline_parallel_rank
        pipeline_parallel_size tensor_parallel_size.
Proof.
  intros Hrun. unfold Matmul_ABT_2p5D_forward in Hrun. peel_binds Hrun.
  cbn in Hrun. by injection Hrun as _ <-.
Qed.

Lemma Matmul_ATB_forward_ctx (out : Tensor) (c : option MatmulCtx) :
  (run_with o n
     (Matmul_ATB_2p5D_forward ctx A B tesseract_dim out_shape row_rank col_rank dep_rank
        row_parallel_mode col_parallel_mode data_parallel_rank pipeline_parallel_rank
        pipeline_parallel_size tensor_parallel_size)).2 = inr (out, c) →
  c = matmul_ctx ctx A B tesseract_dim row_rank col_rank dep_rank
        row_parallel_mode col_parallel_mode data_parallel_rank pipeline_parallel_rank
        pipeline_parallel_size tensor_parallel_size.
Proof.
  intros Hrun. unfold Matmul_ATB_2p5D_forward in Hrun. peel_binds Hrun.
  cbn in Hrun. by injection Hrun as _ <-.
Qed.
End SavedContext.

(* ================================================================= *)
(** ** Programs that fail no assertion *)

Lemma quiet_pure {A : Type} (p : Prog A) : quiet p → pure p.
Proof. by destruct p as [|[]| | | |]. Qed.


Lemma quiet_bind {A B : Type} (p : Prog A) (f : A → Prog B) :
  quiet p → (∀ a, quiet (f a)) → quiet (p ≫= f).
Proof. destruct p as [|[]| | | |]; cbn; try tauto. intros _ Hf. apply Hf. Qed.



Lemma never_asserts_all_gather (l : list Tensor) (t : Tensor) (g : ParallelMode) :
  never_asserts (dist_all_gather l t g).
Proof. intros o n. cbn. tauto. Qed.
Lemma never_asserts_broadcast (t : Tensor) (r : Z) (g : ParallelMode) :
  never_asserts (dist_broadcast t r g).
Proof. intros o n. cbn. tauto. Qed.
Lemma never_asserts_reduce (t : Tensor) (r : Z) (g : ParallelMode) :
  never_asserts (dist_reduce t r g).
Proof. intros o n. cbn. tauto. Qed.
Lemma never_asserts_all_reduce (t : Tensor) (g : ParallelMode) :
  never_asserts (dist_all_reduce t g).
Proof. intros o n. cbn. tauto. Qed.

(** The torch operations are quiet. *)
Ltac quiet_cases := repeat case_match; cbn; auto.

Lemma quiet_shape_at (t : Tensor) (i : Z) : quiet (shape_at t i).
Proof. unfold shape_at. quiet_cases. Qed.
Lemma quiet_size_at (t : Tensor) (i : Z) : quiet (size_at t i).
Proof. unfold size_at. quiet_cases. Qed.
Lemma quiet_list_get {B : Type} (l : list B) (i : Z) : quiet (list_get l i).
Proof. unfold list_get. quiet_cases. Qed.
Lemma quiet_tuple_get {B : Type} (l : list B) (i : Z) : quiet (tuple_get l i).
Proof. unfold tuple_get. quiet_cases. Qed.
Lemma quiet_torch_zeros (s : list Z) : quiet (torch_zeros s).
Proof. unfold torch_zeros. quiet_cases. Qed.
Lemma quiet_torch_empty `{!Allocator} (s : list Z) : quiet (torch_empty s).
Proof. unfold torch_empty. quiet_cases. Qed.
Lemma quiet_reshape (t : Tensor) (s : list Z) : quiet (reshape t s).
Proof. unfold reshape. quiet_cases. Qed.
Lemma quiet_torch_permute (t : Tensor) (dims : list Z) : quiet (torch_permute t dims).
Proof. unfold torch_permute. quiet_cases. Qed.
Lemma quiet_torch_transpose (t : Tensor) (d0 d1 : Z) : quiet (torch_transpose t d0 d1).
Proof. unfold torch_transpose. quiet_cases; apply quiet_torch_permute. Qed.
Lemma quiet_torch_matmul (a b : Tensor) : quiet (torch_matmul a b).
Proof. unfold torch_matmul. quiet_cases. Qed.
Lemma quiet_torch_addmm (c a b : Tensor) : quiet (torch_addmm c a b).
Proof.
  unfold torch_addmm. apply quiet_bind; [apply quiet_torch_matmul|]. intros p. quiet_cases.
Qed.
Lemma quiet_binop (f : Q → Q → Q) (a b : Tensor) : quiet (binop f a b).
Proof. unfold binop. quiet_cases. Qed.
Lemma quiet_binop_ (f : Q → Q → Q) (a b : Tensor) : quiet (binop_ f a b).
Proof. unfold binop_. quiet_cases. Qed.
Lemma quiet_torch_sum (t : Tensor) (dims : list Z) (keepdim : bool) :
  quiet (torch_sum t dims keepdim).
Proof. unfold torch_sum. quiet_cases. Qed.
Lemma quiet_torch_chunk (t : Tensor) (chunks dim : Z) : quiet (torch_chunk t chunks dim).
Proof. unfold torch_chunk. quiet_cases. Qed.

Create HintDb quiet.
#[export] Hint Resolve quiet_shape_at quiet_size_at quiet_list_get quiet_tuple_get quiet_torch_zeros
  quiet_torch_empty quiet_reshape quiet_torch_permute quiet_torch_transpose
  quiet_torch_matmul quiet_torch_addmm quiet_binop quiet_binop_ quiet_torch_sum
  quiet_torch_chunk : quiet.
#[export] Hint Resolve never_asserts_all_gather never_asserts_broadcast never_asserts_reduce
  never_asserts_all_reduce : quiet.


(* ================================================================= *)
(** ** The shape checks *)

Section ShapeContract.
Context `{!GlobalContext, !Allocator}.
Variables (ctx : bool) (A B : Tensor) (tesseract_dim : Z)
  (out_shape : list Z) (row_rank col_rank dep_rank : Z)
  (row_parallel_mode col_parallel_mode : ParallelMode)
  (data_parallel_rank pipeline_parallel_rank pipeline_parallel_size tensor_parallel_size : Z).






End ShapeContract.

(* ================================================================= *)
(** ** The ranks a program addresses *)

Lemma pure_py_assert (b : bool) (msg : string) : pure (py_assert b msg).
Proof. by destruct b. Qed.

Lemma sigs_pure_bind {A B : Type} (o : Oracle) (n : nat) (p : Prog A) (f : A → Prog B)
    (X : list CallSig) :
  pure p → (∀ a, sigs o n (f a) `prefix_of` X) → sigs o n (p ≫= f) `prefix_of` X.
Proof.
  intros Hp Hf. destruct (pure_inv p Hp) as [[a ->]|[e ->]].
  - apply Hf.
  - apply prefix_nil.
Qed.

Lemma sigs_bind_silent {A B : Type} (o : Oracle) (n : nat) (p : Prog A) (f : A → Prog B) :
  (∀ a, pure (f a)) → sigs o n (p ≫= f) = sigs o n p.
Proof.
  intros Hf. unfold sigs. rewrite run_with_bind.
  destruct (run_with o n p).2 as [e|a]; [done|]. cbn.
  destruct (pure_inv (f a) (Hf a)) as [[b ->]|[e ->]]; cbn; by rewrite app_nil_r.
Qed.

Lemma pure_bind {A B : Type} (p : Prog A) (f : A → Prog B) :
  pure p → (∀ a, pure (f a)) → pure (p ≫= f).
Proof. intros Hp Hf. destruct (pure_inv p Hp) as [[a ->]|[e ->]]; [apply Hf|done]. Qed.

(** One turn of a broadcast-multiply-reduce loop issues its broadcast,
    and then its reduce unless a torch operation failed in between. *)
Lemma sigs_broadcast_reduce (o : Oracle) (n : nat) (g1 g2 : ParallelMode) (src dst : Z)
    (t : Tensor) (mid1 : Tensor → Prog Tensor) (mid2 : Tensor → Prog Tensor)
    (fin : Tensor → Tensor) :
  (∀ x, pure (mid1 x)) → (∀ x, pure (mid2 x)) →
  let r := run_with o n (Broadcast g1 src t (λ x, y ← mid1 x; y ← mid2 y;
                                               z ← dist_reduce y dst g2; mret (fin z))) in
  (call_sig <$> r.1 = [SigBroadcast g1 src; SigReduce g2 dst] ∧ ∃ z, r.2 = inr z)
  ∨ (call_sig <$> r.1 = [SigBroadcast g1 src] ∧ ∃ e, r.2 = inl e).
Proof.
  intros Hmid1 Hmid2. cbn.
  destruct (pure_inv _ (Hmid1 (hd t (o n (CallBroadcast g1 src t))))) as [[y ->]|[e ->]]; cbn.
  - destruct (pure_inv _ (Hmid2 y)) as [[y' ->]|[e ->]]; cbn.
    + left. eauto.
    + right. eauto.
  - right. eauto.
Qed.

Lemma sigs_loop (o : Oracle) (g1 g2 : ParallelMode) (src dst : Z → Z)
    (body : Z → Tensor → Prog Tensor) :
  (∀ i C n,
      let r := run_with o n (body i C) in
      (call_sig <$> r.1 = [SigBroadcast g1 (src i); SigReduce g2 (dst i)] ∧ ∃ z, r.2 = inr z)
      ∨ (call_sig <$> r.1 = [SigBroadcast g1 (src i)] ∧ ∃ e, r.2 = inl e)) →
  ∀ l n C,
    sigs o n (for_each l body C)
    `prefix_of` (i ← l; [SigBroadcast g1 (src i); SigReduce g2 (dst i)]).
Proof.
  intros Hbody l. induction l as [|i l IH]; intros n C.
  - apply prefix_nil.
  - cbn [for_each]. unfold sigs. rewrite run_with_bind.
    destruct (Hbody i C n) as [[Htr [z Hz]]|[Htr [e He]]]; cbv zeta in *.
    + rewrite Hz. cbn [fst snd]. rewrite fmap_app, Htr. cbn [mbind list_bind].
      change ((?a :: ?b :: ?l1) ++ ?l2) with ([a; b] ++ l1 ++ l2).
      apply prefix_app. cbn [app]. apply IH.
    + rewrite He. cbn [fst]. rewrite Htr. cbn. apply prefix_cons, prefix_nil.
Qed.

(* ================================================================= *)
(** ** The ranks the matrix products address *)

Ltac pure_prefix :=
  repeat (apply sigs_pure_bind;
          [solve [apply pure_py_assert | apply quiet_pure; auto with quiet]|intros ?]).

Section Addresses.
Context `{!GlobalContext, !Allocator}.
Variables (o : Oracle) (ctx : bool) (A B : Tensor) (tesseract_dim : Z)
  (out_shape : list Z) (row_rank col_rank dep_rank : Z)
  (row_parallel_mode col_parallel_mode : ParallelMode)
  (data_parallel_rank pipeline_parallel_rank pipeline_parallel_size tensor_parallel_size : Z).

Local Abbreviation address minor :=
  (grid_address minor dep_rank tesseract_dim data_parallel_rank pipeline_parallel_rank
     pipeline_parallel_size tensor_parallel_size).

Lemma Matmul_ABT_forward_sigs :
  sigs o 0
    (Matmul_ABT_2p5D_forward ctx A B tesseract_dim out_shape row_rank col_rank dep_rank
       row_parallel_mode col_parallel_mode data_parallel_rank pipeline_parallel_rank
       pipeline_parallel_size tensor_parallel_size)
  `prefix_of`
    (i ← py_range tesseract_dim;
     [SigBroadcast col_parallel_mode (address (col_rank + i * tesseract_dim)%Z);
      SigReduce row_parallel_mode (address (i + row_rank * tesseract_dim)%Z)]).
Proof.
  unfold Matmul_ABT_2p5D_forward. pure_prefix.
  rewrite sigs_bind_silent.
  2:{ intros C. apply pure_bind; [apply quiet_pure; auto with quiet|done]. }
  apply sigs_loop. intros i C n.
  rewrite Matmul_ABT_loop_body_calls.
  apply (sigs_broadcast_reduce o n _ _ _ _ _
           (λ x, torch_transpose x 0 1) (λ B_t, torch_matmul _ B_t)
           (λ z, if bool_decide (i = col_rank) then clone z else C));
    intros x; apply quiet_pure; auto with quiet.
Qed.

Lemma Matmul_ATB_forward_sigs :
  sigs o 0
    (Matmul_ATB_2p5D_forward ctx A B tesseract_dim out_shape row_rank col_rank dep_rank
       row_parallel_mode col_parallel_mode data_parallel_rank pipeline_parallel_rank
       pipeline_parallel_size tensor_parallel_size)
  `prefix_of`
    (i ← py_range tesseract_dim;
     [SigBroadcast row_parallel_mode (address (i + row_rank * tesseract_dim)%Z);
      SigReduce col_parallel_mode (address (col_rank + i * tesseract_dim)%Z)]).
Proof.
  unfold Matmul_ATB_2p5D_forward. pure_prefix.
  rewrite sigs_bind_silent.
  2:{ intros C. apply pure_bind; [apply quiet_pure; auto with quiet|done]. }
  apply sigs_loop. intros i C n.
  rewrite Matmul_ATB_loop_body_calls.
  apply (sigs_broadcast_reduce o n _ _ _ _ _
           (λ x, torch_transpose x 0 1) (λ A_t, torch_matmul A_t _)
           (λ z, if bool_decide (i = row_rank) then clone z else C));
    intros x; apply quiet_pure; auto with quiet.
Qed.

(** [Matmul_AB_2p5D.forward] names no rank: it only gathers. *)
Lemma Matmul_AB_forward_sigs :
  sigs o 0
    (Matmul_AB_2p5D_forward ctx A B tesseract_dim out_shape row_rank col_rank dep_rank
       row_parallel_mode col_parallel_mode data_parallel_rank pipeline_parallel_rank
       pipeline_parallel_size tensor_parallel_size)
  `prefix_of` [SigAllGather row_parallel_mode; SigAllGather col_parallel_mode].
Proof.
  unfold Matmul_AB_2p5D_forward. pure_prefix.
  unfold dist_all_gather. prog_simpl. unfold sigs. cbn [run_with fst fmap list_fmap].
  do 2 apply prefix_cons.
  match goal with |- _ <$> (run_with _ _ ?p).1 `prefix_of` _ => assert (pure p) as Hp end.
  { apply pure_bind.
    - unfold for_range. generalize (py_range tesseract_dim). intros l.
      match goal with |- pure (for_each l ?b ?c) => generalize c end.
      induction l as [|i l IH]; intros c; [done|].
      cbn [for_each]. apply pure_bind; [|done].
      unfold Matmul_AB_2p5D_loop_body. cbv zeta.
      repeat first [ solve [apply quiet_pure; auto with quiet]
                   | apply pure_bind; [|intros ?] ].
    - intros C. apply pure_bind; [apply quiet_pure; auto with quiet|done]. }
  destruct (pure_inv _ Hp) as [[? ->]|[? ->]]; apply prefix_nil.
Qed.
End Addresses.

(* ================================================================= *)
(** ** Sums over dimensions *)

Lemma mapM_norm_dim_seq (N s len : nat) :
  s + len ≤ N → mapM (norm_dim N) (Z.of_nat <$> seq s len) = Some (seq s len).
Proof.
  revert s. induction len as [|len IH]; intros s Hs; [done|].
  cbn [seq fmap list_fmap mapM]. 
  assert (norm_dim N (Z.of_nat s) = Some s) as ->.
  { unfold norm_dim.
    assert (((0 <=? Z.of_nat s) && (Z.of_nat s <? Z.of_nat N))%Z = true) as -> by lia.
    by rewrite Nat2Z.id. }
  cbn. change (list_fmap nat Z Z.of_nat (seq (S s) len)) with (Z.of_nat <$> seq (S s) len).
  by rewrite IH by lia.
Qed.

Lemma torch_sum_leading (t : Tensor) :
  torch_sum t (py_range (Z.of_nat (ndim t) - 1)) false = Ret (column_sum t).
Proof.
  unfold torch_sum, py_range.
  replace (Z.to_nat (Z.of_nat (ndim t) - 1)) with (ndim t - 1) by lia.
  rewrite mapM_norm_dim_seq by lia.
  rewrite decide_True by apply NoDup_seq. done.
Qed.

Lemma torch_sum_last (t : Tensor) :
  torch_sum t [(-1)%Z] true = Ret (row_sum t).
Proof.
  unfold torch_sum. cbn [mapM].
  assert (norm_dim (Nat.max 1 (ndim t)) (-1) = Some (Nat.max 1 (ndim t) - 1)) as ->.
  { unfold norm_dim.
    assert (((0 <=? -1) && (-1 <? Z.of_nat (Nat.max 1 (ndim t))))%Z = false) as -> by lia.
    assert (((- Z.of_nat (Nat.max 1 (ndim t)) <=? -1) && (-1 <? 0))%Z = true) as -> by lia.
    f_equal. lia. }
  cbn. rewrite decide_True by (apply NoDup_singleton). done.
Qed.

Lemma shape_column_sum (t u : Tensor) : shape t = shape u → shape (column_sum t) = shape (column_sum u).
Proof. intros H. unfold column_sum, sum_over, ndim. cbn [shape]. by rewrite H. Qed.

Lemma shape_row_sum (t u : Tensor) : shape t = shape u → shape (row_sum t) = shape (row_sum u).
Proof. intros H. unfold row_sum, sum_over, ndim. cbn [shape]. by rewrite H. Qed.

(* ================================================================= *)
(** ** The bias on the grid *)

Lemma run_grid_finished {A : Type} (d : nat) (offset : Z) (scratch : nat → Tensor → list Q)
    (fuel n : nat) (f : nat → Prog A) :
  (∀ p, p < n → pure (f p)) →
  run_grid d offset scratch fuel (f <$> seq 0 n) = Some ((λ p, outcome (f p)) <$> seq 0 n).
Proof.
  intros Hf.
  assert (forallb finished (f <$> seq 0 n) = true) as Hfin.
  { apply forallb_forall. intros x Hx. apply in_map_iff in Hx as (p & <- & Hp).
    apply in_seq in Hp. specialize (Hf p ltac:(lia)). by destruct (f p). }
  destruct fuel; simpl; rewrite Hfin; by rewrite <- list_fmap_compose.
Qed.

Lemma torch_zeros_1d (n : nat) : torch_zeros [Z.of_nat n] = Ret (full [n] 0%Q).
Proof.
  unfold torch_zeros. cbn [existsb].
  assert ((Z.of_nat n <? 0)%Z = false) as -> by lia. cbn. by rewrite Nat2Z.id.
Qed.


Section Bias.
Context `{!Allocator}.
Variables (d size : nat) (input bias grad : nat → Tensor) (skip_bias_add : bool).
Variables (dep_rank data_parallel_rank pipeline_parallel_rank pipeline_parallel_size
             tensor_parallel_size : Z).
Variable scratch : nat → Tensor → list Q.

Local Abbreviation offset :=
  (slice_offset (Z.of_nat d) dep_rank data_parallel_rank pipeline_parallel_rank
     pipeline_parallel_size tensor_parallel_size).
Local Abbreviation ctx_of p :=
  (bias_ctx (Z.of_nat d) (Z.of_nat (row_of d p)) (Z.of_nat (col_of d p)) dep_rank
     PARALLEL_2P5D_COL skip_bias_add data_parallel_rank pipeline_parallel_rank
     pipeline_parallel_size tensor_parallel_size).

Local Abbreviation Bias_process :=
  (Bias_process d size input bias skip_bias_add dep_rank data_parallel_rank
     pipeline_parallel_rank pipeline_parallel_size tensor_parallel_size).

Local Abbreviation Bias_backward_process :=
  (Bias_backward_process d grad skip_bias_add dep_rank data_parallel_rank
     pipeline_parallel_rank pipeline_parallel_size tensor_parallel_size).

Local Abbreviation Bias_reduced := (Bias_reduced grad skip_bias_add).

Lemma Add_Bias_forward_grid :
  0 < d → (∀ c, c < d → shape (bias c) = [size]) →
  run_grid d offset scratch 1 (launch d Bias_process)
  = Some ((λ p, outcome
                  (if skip_bias_add then mret (bias (col_of d p), ctx_of p)
                   else output ← torch_add (input p) (bias (col_of d p));
                        mret (output, ctx_of p)))
          <$> seq 0 (d * d)).
Proof.
  intros Hd Hbias. unfold launch, Bias_process.
  set (buf := λ p, if bool_decide (Z.of_nat (row_of d p) = 0%Z) then clone (bias p)
                   else full [size] 0%Q).
  assert (∀ p, p < d * d → shape (buf p) = [size]) as Hbuf.
  { intros p Hp. unfold buf, clone. case_bool_decide as Hr; [|done].
    apply Hbias. pose proof (row_col_join d p Hd).
    destruct (row_col_bound d p Hp). nia. }
  assert (∀ p, p < d * d → buf (0 * d + col_of d p) = bias (col_of d p)) as Hsrc.
  { intros p Hp. destruct (row_col_bound d p Hp) as [_ Hc]. unfold buf.
    destruct (row_col_of d 0 (col_of d p) Hc) as [Hr' Hc']. cbn in Hr', Hc'. cbn.
    by rewrite Hr', bool_decide_eq_true_2. }
  rewrite run_grid_waiting; [|nia|].
  2:{ unfold Add_Bias_2p5D_forward. rewrite torch_zeros_1d. 
      destruct (bool_decide _); done. }
  erewrite (step_broadcast d offset scratch _ PARALLEL_2P5D_COL _
              (λ _, 0) (λ p, 0 * d + col_of d p) buf); cycle 1.
  { intros p Hp. unfold Add_Bias_2p5D_forward. rewrite torch_zeros_1d.
    unfold buf. destruct (bool_decide _); prog_simpl; reflexivity. }
  { intros p q Hp Hq. cbv beta.
    apply list_elem_of_fmap in Hq as (r & -> & Hr). apply elem_of_seq in Hr.
    destruct (row_col_bound d p Hp) as [_ Hc].
    by destruct (row_col_of d r (col_of d p) Hc) as [_ ->]. }
  { intros p Hp. cbv beta.
    rewrite <- (position_member d offset PARALLEL_2P5D_COL p 0) by lia.
    f_equal. unfold slice_offset. lia. }
  { intros p Hp. by rewrite group_members_lookup by lia. }
  { intros p Hp. destruct (row_col_bound d p Hp) as [_ Hc].
    rewrite !Hbuf; [done|done|nia]. }
  rewrite run_grid_finished.
  - apply f_equal, fmap_seq_ext. intros p Hp. cbv beta. rewrite Hsrc by done.
    by destruct skip_bias_add.
  - intros p Hp. cbv beta. destruct skip_bias_add; [done|].
    apply pure_bind; [apply quiet_pure; apply quiet_binop|done].
Qed.

Local Abbreviation Bias_gradients := (Bias_gradients d grad skip_bias_add).

Lemma Add_Bias_backward_grid :
  0 < d → (∀ p q, p < d * d → q < d * d → shape (grad p) = shape (grad q)) →
  run_grid d offset scratch 1 (launch d Bias_backward_process)
  = Some ((λ p, inr (Bias_gradients p)) <$> seq 0 (d * d)).
Proof.
  intros Hd Hgrad. unfold launch, Bias_backward_process.
  assert (∀ p q, p < d * d → q ∈ group_members d PARALLEL_2P5D_COL p →
                 shape (Bias_reduced q) = shape (Bias_reduced p)) as Hshape.
  { intros p q Hp Hq. pose proof (group_members_bound _ _ _ _ Hp Hq) as Hb.
    unfold Bias_reduced. destruct skip_bias_add; [|apply shape_column_sum]; by apply Hgrad. }
  unfold Bias_gradients. revert Hshape. unfold Bias_reduced.
  unfold Add_Bias_2p5D_backward.
  cbn [bias_ctx bias_bias bias_row_rank bias_col_rank bias_dep_rank bias_tesseract_dim
         bias_col_parallel_mode bias_data_parallel_rank bias_pipeline_parallel_rank
         bias_pipeline_parallel_size bias_tensor_parallel_size].
  destruct skip_bias_add; intros Hshape.
  all: rewrite run_grid_waiting; [|nia|by rewrite ?torch_sum_leading].
  all: erewrite (step_reduce d offset scratch _ PARALLEL_2P5D_COL _ (λ _, 0));
    [ | intros p Hp; rewrite ?torch_sum_leading; unfold dist_reduce; prog_simpl; reflexivity
      | intros p q Hp Hq; cbv beta;
        apply list_elem_of_fmap in Hq as (r & -> & Hr); apply elem_of_seq in Hr;
        destruct (row_col_bound d p Hp) as [_ Hc];
        by destruct (row_col_of d r (col_of d p) Hc) as [_ ->]
      | intros p Hp; cbv beta;
        rewrite <- (position_member d offset PARALLEL_2P5D_COL p 0) by lia;
        f_equal; unfold slice_offset; lia
      | done ].
  all: erewrite fmap_seq_ext; [apply run_grid_returned|].
  all: intros p Hp; cbv beta; destruct (row_col_bound d p Hp) as [Hr Hc].
  all: rewrite group_members_lookup by lia; unfold torch_zeros_like.
  all: pose proof (row_col_join d p Hd) as Hjoin.
  all: destruct (decide (row_of d p = 0)) as [Hz|Hnz];
    [ rewrite decide_True by (f_equal; lia); by rewrite bool_decide_eq_true_2 by lia
    | rewrite decide_False by (intros [=]; nia); by rewrite bool_decide_eq_false_2 by lia ].
Qed.
End Bias.

(* ================================================================= *)
(** ** Broadcasting *)

Lemma broadcast_rev_comm (s1 s2 : list nat) : broadcast_rev s1 s2 = broadcast_rev s2 s1.
Proof.
  revert s2. induction s1 as [|a s1 IH]; intros [|b s2]; try done.
  cbn. rewrite IH. destruct (broadcast_rev s2 s1); [|done]. cbn.
  repeat case_decide; congruence.
Qed.

Lemma broadcast_shapes_comm (s1 s2 : list nat) : broadcast_shapes s1 s2 = broadcast_shapes s2 s1.
Proof. unfold broadcast_shapes. by rewrite broadcast_rev_comm. Qed.

Lemma broadcast_rev_self (s : list nat) : broadcast_rev s s = Some s.
Proof.
  induction s as [|a s IH]; [done|]. cbn. rewrite IH. cbn. by rewrite decide_True.
Qed.

Lemma broadcast_shapes_self (s : list nat) : broadcast_shapes s s = Some s.
Proof. unfold broadcast_shapes. rewrite broadcast_rev_self. cbn. by rewrite reverse_involutive. Qed.

Lemma binop_comm (f : Q → Q → Q) (a b : Tensor) :
  (∀ x y, f x y = f y x) → binop f a b = binop f b a.
Proof.
  intros Hf. unfold binop. rewrite (broadcast_shapes_comm (shape b)).
  destruct (broadcast_shapes (shape a) (shape b)); [|done].
  unfold pointwise. do 2 f_equal. rewrite <- zip_with_flip. apply zip_with_ext; auto.
Qed.

Lemma binop_inplace (f : Q → Q → Q) (a b : Tensor) :
  broadcast_shapes (shape a) (shape b) = Some (shape a) → binop_ f a b = binop f a b.
Proof. intros H. unfold binop_, binop. rewrite H. by rewrite decide_True. Qed.

Lemma binop_shape (f : Q → Q → Q) (a b : Tensor) (s : list nat) :
  broadcast_shapes (shape a) (shape b) = Some s →
  ∃ t, binop f a b = Ret t ∧ shape t = s.
Proof. intros H. unfold binop. rewrite H. eauto. Qed.

(** The shape of a sum over the last dimension broadcasts back. *)
Lemma shape_row_sum_last (t : Tensor) (s : list nat) (a : nat) :
  shape t = s ++ [a] → shape (row_sum t) = s ++ [1].
Proof.
  intros Hs. unfold row_sum, sum_over, ndim. cbn [shape]. rewrite Hs.
  rewrite length_app. cbn [length].
  replace (Nat.max 1 (length s + 1) - 1) with (length s) by lia.
  rewrite imap_app. cbn [imap]. rewrite Nat.add_0_r.
  rewrite bool_decide_eq_true_2 by (apply list_elem_of_singleton; done). cbn [negb].
  f_equal. apply list_eq. intros i. rewrite list_lookup_imap.
  destruct (s !! i) as [n|] eqn:Hi; [|done]. cbn.
  apply lookup_lt_Some in Hi.
  rewrite bool_decide_eq_false_2; [done|]. rewrite list_elem_of_singleton. lia.
Qed.

Lemma broadcast_shapes_last (s : list nat) (a : nat) :
  broadcast_shapes (s ++ [a]) (s ++ [1]) = Some (s ++ [a]).
Proof.
  unfold broadcast_shapes. rewrite !reverse_snoc. cbn. rewrite broadcast_rev_self. cbn.
  assert (∀ x, rev_append (reverse s) [x] = s ++ [x]) as Hrev.
  { intros x. rewrite rev_append_rev, rev_alt. f_equal. apply reverse_involutive. }
  repeat case_decide; subst; cbn; rewrite ?Hrev; congruence.
Qed.

(* ================================================================= *)
(** ** The layer normalisation on the grid *)

Lemma binop_pointwise (f : Q → Q → Q) (a b : Tensor) (s : list nat) :
  broadcast_shapes (shape a) (shape b) = Some s → binop f a b = Ret (pointwise f a b s).
Proof. intros H. unfold binop. by rewrite H. Qed.

Lemma shape_torch_div_ (t : Tensor) (n : Z) : shape (torch_div_ t n) = shape t.
Proof. done. Qed.

Lemma shape_tensor_sum (t : Tensor) (ts : list Tensor) : shape (tensor_sum t ts) = shape t.
Proof. done. Qed.


Section LayerNorm.
Variables (d : nat) (x Var_x grad : nat → Tensor) (hidden_size : Z).
Variables (s : list nat) (a : nat).
Variables (offset : Z) (scratch : nat → Tensor → list Q).

Local Abbreviation LayerNorm_backward_process :=
  (LayerNorm_backward_process x Var_x grad hidden_size).

Local Abbreviation LayerNorm_product := (LayerNorm_product x grad s a).

Local Abbreviation LayerNorm_sum_term := (LayerNorm_sum_term d grad hidden_size).

Local Abbreviation LayerNorm_mean_term := (LayerNorm_mean_term d x grad hidden_size s a).

Local Abbreviation LayerNorm_grad_in := (LayerNorm_grad_in d x Var_x grad hidden_size s a).

Hypothesis Hd : 0 < d.
Hypothesis Hgrad : ∀ p, p < d * d → shape (grad p) = s ++ [a].
Hypothesis Hx : ∀ p, p < d * d → shape (x p) = s ++ [a].
Hypothesis HVar : ∀ p, p < d * d → broadcast_shapes (s ++ [a]) (shape (Var_x p)) = Some (s ++ [a]).

Lemma LayerNorm_product_eq (p : nat) :
  p < d * d → torch_mul (grad p) (x p) = Ret (LayerNorm_product p).
Proof.
  intros Hp. apply binop_pointwise. rewrite Hgrad, Hx by done. apply broadcast_shapes_self.
Qed.

Lemma LayerNorm_formula_eq (p : nat) :
  p < d * d →
  LayerNorm_grad_formula (Var_x p) (grad p) (x p) (LayerNorm_mean_term p) (LayerNorm_sum_term p)
  = Ret (LayerNorm_grad_in p).
Proof.
  intros Hp. unfold LayerNorm_grad_formula, torch_mul, torch_sub.
  rewrite (binop_pointwise _ (x p) _ (s ++ [a])).
  2:{ rewrite Hx by done. unfold LayerNorm_mean_term.
      rewrite shape_torch_div_, shape_tensor_sum, (shape_row_sum_last _ s a) by done.
      apply broadcast_shapes_last. }
  prog_simpl. rewrite (binop_pointwise _ (grad p) _ (s ++ [a])).
  2:{ rewrite Hgrad by done. apply broadcast_shapes_self. }
  prog_simpl. rewrite (binop_pointwise _ _ (LayerNorm_sum_term p) (s ++ [a])).
  2:{ unfold LayerNorm_sum_term.
      rewrite shape_torch_div_, shape_tensor_sum, (shape_row_sum_last _ s a) by auto.
      apply broadcast_shapes_last. }
  prog_simpl. apply binop_pointwise.
  rewrite broadcast_shapes_comm. by apply HVar.
Qed.

Lemma LayerNorm_backward_grid :
  run_grid d offset scratch 2 (launch d LayerNorm_backward_process)
  = Some ((λ p, inr [Some (LayerNorm_grad_in p); None; None; None; None; None; None])
          <$> seq 0 (d * d)).
Proof.
  unfold launch, LayerNorm_backward_process.
  assert (∀ p q, p < d * d → q ∈ group_members d PARALLEL_2P5D_ROW p →
                 shape (row_sum (grad q)) = shape (row_sum (grad p))) as Hs1.
  { intros p q Hp Hq. pose proof (group_members_bound _ _ _ _ Hp Hq).
    apply shape_row_sum. by rewrite !Hgrad. }
  assert (∀ p q, p < d * d → q ∈ group_members d PARALLEL_2P5D_ROW p →
                 shape (row_sum (LayerNorm_product q))
                 = shape (row_sum (LayerNorm_product p))) as Hs2.
  { intros p q Hp Hq. by apply shape_row_sum. }
  rewrite run_grid_waiting; [|nia|].
  2:{ unfold LayerNorm_2p5D_backward. cbn [ln_saved_tensors]. by rewrite torch_sum_last. }
  erewrite (step_all_reduce d offset scratch _ PARALLEL_2P5D_ROW (λ p, row_sum (grad p)));
    cycle 1.
  { intros p Hp. unfold LayerNorm_2p5D_backward.
    cbn [ln_saved_tensors ln_row_parallel_mode ln_hidden_size].
    rewrite torch_sum_last. unfold dist_all_reduce. prog_simpl. reflexivity. }
  { done. }
  erewrite (fmap_seq_ext _ _); cycle 1.
  { intros p Hp. cbv beta. rewrite (LayerNorm_product_eq p Hp). prog_simpl.
    rewrite torch_sum_last. prog_simpl. reflexivity. }
  rewrite run_grid_waiting; [|nia|done].
  erewrite (step_all_reduce d offset scratch _ PARALLEL_2P5D_ROW
              (λ p, row_sum (LayerNorm_product p))); cycle 1.
  { intros p Hp. reflexivity. }
  { done. }
  erewrite fmap_seq_ext; [apply run_grid_returned|].
  intros p Hp. cbv beta. unfold clone.
  fold (LayerNorm_sum_term p). fold (LayerNorm_mean_term p).
  pose proof (LayerNorm_formula_eq p Hp) as Hf.
  unfold LayerNorm_grad_formula, torch_mul, torch_sub in Hf.
  unfold torch_mul, torch_sub_, torch_mul_.
  destruct (binop_shape Qmult (x p) (LayerNorm_mean_term p) (s ++ [a])) as (t1 & E1 & S1).
  { rewrite Hx by done. unfold LayerNorm_mean_term.
    rewrite shape_torch_div_, shape_tensor_sum, (shape_row_sum_last _ s a) by done.
    apply broadcast_shapes_last. }
  rewrite E1 in Hf |- *. prog_simpl. revert Hf. prog_simpl. intros Hf.
  assert (broadcast_shapes (shape (grad p)) (shape t1) = Some (shape (grad p))) as B2.
  { rewrite S1, Hgrad by done. apply broadcast_shapes_self. }
  rewrite (binop_inplace _ _ _ B2).
  rewrite Hgrad in B2 by done.
  destruct (binop_shape Qminus (grad p) t1 (s ++ [a])) as (t2 & E2 & S2);
    [by rewrite Hgrad in * by done|].
  rewrite E2 in Hf |- *. prog_simpl. revert Hf. prog_simpl. intros Hf.
  assert (broadcast_shapes (shape t2) (shape (LayerNorm_sum_term p)) = Some (shape t2)) as B3.
  { rewrite S2. unfold LayerNorm_sum_term.
    rewrite shape_torch_div_, shape_tensor_sum, (shape_row_sum_last _ s a) by auto.
    apply broadcast_shapes_last. }
  rewrite (binop_inplace _ _ _ B3).
  destruct (binop_shape Qminus t2 (LayerNorm_sum_term p) (s ++ [a])) as (t3 & E3 & S3);
    [by rewrite S2 in B3 |- *|].
  rewrite E3 in Hf |- *. prog_simpl. revert Hf. prog_simpl. intros Hf.
  rewrite binop_inplace by (rewrite S3; by apply HVar).
  rewrite (binop_comm Qmult t3 (Var_x p) Qmult_comm_eq), Hf. done.
Qed.
End LayerNorm.

(* ================================================================= *)
(** ** The backward passes *)

Section BiasCalls.
Context `{!GlobalContext, !Allocator}.
Variable o : Oracle.

(** What [Add_Bias_2p5D.backward] reduces, where to, and what it returns
    for [input]. *)
Lemma Add_Bias_backward_trace (ctx : BiasCtx) (output_grad : Tensor) :
  trace_of o (Add_Bias_2p5D_backward ctx output_grad)
  = [CallReduce (bias_col_parallel_mode ctx)
       (grid_address (bias_col_rank ctx) (bias_dep_rank ctx) (bias_tesseract_dim ctx)
          (bias_data_parallel_rank ctx) (bias_pipeline_parallel_rank ctx)
          (bias_pipeline_parallel_size ctx) (bias_tensor_parallel_size ctx))
       (if bias_bias ctx then output_grad else column_sum output_grad)]
  ∧ ∃ bias_grad nones,
      result_of o (Add_Bias_2p5D_backward ctx output_grad)
      = inr ((if bias_bias ctx then None else Some output_grad) :: Some bias_grad :: nones)
      ∧ nones = replicate (if bias_bias ctx then 14 else 15) None.
Proof.
  unfold trace_of, result_of, Add_Bias_2p5D_backward, grid_address.
  destruct (bias_bias ctx).
  - cbn. destruct (bool_decide _); cbn; eauto.
  - rewrite torch_sum_leading. cbn. destruct (bool_decide _); cbn; eauto.
Qed.

Lemma Add_Bias_forward_sigs (input bias : Tensor)
    (output_size_per_partition tesseract_dim row_rank col_rank dep_rank : Z)
    (col_parallel_mode : ParallelMode) (skip_bias_add : bool)
    (data_parallel_rank pipeline_parallel_rank pipeline_parallel_size
       tensor_parallel_size : Z) :
  sigs o 0
    (Add_Bias_2p5D_forward input bias output_size_per_partition tesseract_dim row_rank
       col_rank dep_rank col_parallel_mode skip_bias_add data_parallel_rank
       pipeline_parallel_rank pipeline_parallel_size tensor_parallel_size)
  `prefix_of`
    [SigBroadcast col_parallel_mode
       (grid_address col_rank dep_rank tesseract_dim data_parallel_rank
          pipeline_parallel_rank pipeline_parallel_size tensor_parallel_size)].
Proof.
  unfold Add_Bias_2p5D_forward. apply sigs_pure_bind.
  { destruct (bool_decide _); [done|]. apply quiet_pure, quiet_torch_zeros. }
  intros bias_temp. unfold dist_broadcast. prog_simpl. unfold sigs.
  cbn [run_with fst fmap list_fmap call_sig]. apply prefix_cons.
  match goal with |- _ <$> (run_with _ _ ?p).1 `prefix_of` _ => assert (pure p) as Hp end.
  { destruct skip_bias_add; [done|].
    apply pure_bind; [apply quiet_pure, quiet_binop|done]. }
  destruct (pure_inv _ Hp) as [[? ->]|[? ->]]; apply prefix_nil.
Qed.

Lemma Add_Bias_forward_sigs_ok (input bias : Tensor)
    (output_size_per_partition tesseract_dim row_rank col_rank dep_rank : Z)
    (col_parallel_mode : ParallelMode) (skip_bias_add : bool)
    (data_parallel_rank pipeline_parallel_rank pipeline_parallel_size
       tensor_parallel_size : Z) (r : Tensor * BiasCtx) :
  result_of o
    (Add_Bias_2p5D_forward input bias output_size_per_partition tesseract_dim row_rank
       col_rank dep_rank col_parallel_mode skip_bias_add data_parallel_rank
       pipeline_parallel_rank pipeline_parallel_size tensor_parallel_size) = inr r →
  sigs o 0
    (Add_Bias_2p5D_forward input bias output_size_per_partition tesseract_dim row_rank
       col_rank dep_rank col_parallel_mode skip_bias_add data_parallel_rank
       pipeline_parallel_rank pipeline_parallel_size tensor_parallel_size)
  = [SigBroadcast col_parallel_mode
       (grid_address col_rank dep_rank tesseract_dim data_parallel_rank
          pipeline_parallel_rank pipeline_parallel_size tensor_parallel_size)].
Proof.
  unfold result_of, Add_Bias_2p5D_forward. intros Hrun.
  match type of Hrun with
  | (run_with _ _ (?p ≫= _)).2 = _ => assert (pure p) as Hp
  end.
  { destruct (bool_decide _); [done|]. apply quiet_pure, quiet_torch_zeros. }
  destruct (pure_inv _ Hp) as [[bias_temp Heq]|[e Heq]];
    rewrite Heq in Hrun |- *; [|done].
  clear Hrun Hp Heq. unfold dist_broadcast. prog_simpl. unfold sigs.
  cbn [run_with fst fmap list_fmap call_sig]. f_equal.
  match goal with |- _ <$> (run_with _ _ ?p).1 = _ => assert (pure p) as Hp end.
  { destruct skip_bias_add; [done|].
    apply pure_bind; [apply quiet_pure, quiet_binop|done]. }
  by destruct (pure_inv _ Hp) as [[? ->]|[? ->]].
Qed.
End BiasCalls.

(** ** How many gradients the backward passes return *)

Section Arity.
Context `{!GlobalContext, !Allocator}.
Variables (o : Oracle).

Lemma Matmul_AB_backward_length (ctx : MatmulCtx) (g : Tensor) (grads : list (option Tensor)) :
  result_of o (Matmul_AB_2p5D_backward ctx g) = inr grads → length grads = 15.
Proof.
  unfold result_of, Matmul_AB_2p5D_backward. destruct (saved_tensors ctx) as [A B].
  intros Hrun. peel_binds Hrun. cbn in Hrun. by injection Hrun as <-.
Qed.

Lemma Matmul_ABT_backward_length (ctx : MatmulCtx) (g : Tensor) (grads : list (option Tensor)) :
  result_of o (Matmul_ABT_2p5D_backward ctx g) = inr grads → length grads = 15.
Proof.
  unfold result_of, Matmul_ABT_2p5D_backward. destruct (saved_tensors ctx) as [A B].
  intros Hrun. peel_binds Hrun. cbn in Hrun. by injection Hrun as <-.
Qed.

Lemma Matmul_ATB_backward_length (ctx : MatmulCtx) (g : Tensor) (grads : list (option Tensor)) :
  result_of o (Matmul_ATB_2p5D_backward ctx g) = inr grads → length grads = 15.
Proof.
  unfold result_of, Matmul_ATB_2p5D_backward. destruct (saved_tensors ctx) as [A B].
  intros Hrun. peel_binds Hrun. cbn in Hrun. by injection Hrun as <-.
Qed.

Lemma LayerNorm_backward_length (ctx : LayerNormCtx) (g : Tensor) (grads : list (option Tensor)) :
  result_of o (LayerNorm_2p5D_backward ctx g) = inr grads → length grads = 7.
Proof.
  unfold result_of, LayerNorm_2p5D_backward. destruct (ln_saved_tensors ctx) as [x v].
  intros Hrun. peel_binds Hrun. cbn in Hrun. by injection Hrun as <-.
Qed.

Lemma AllGatherLast_backward_length (ctx : GatherCtx) (g : Tensor) (grads : list (option Tensor)) :
  result_of o (AllGatherLast_backward ctx g) = inr grads → length grads = 3.
Proof.
  unfold result_of, AllGatherLast_backward.
  intros Hrun. peel_binds Hrun. cbn in Hrun. by injection Hrun as <-.
Qed.

Lemma SplitFirst_backward_length (ctx : SplitCtx) (g : Tensor) (grads : list (option Tensor)) :
  result_of o (SplitFirst_backward ctx g) = inr grads → length grads = 3.
Proof.
  unfold result_of, SplitFirst_backward.
  intros Hrun. peel_binds Hrun. cbn in Hrun. by injection Hrun as <-.
Qed.
End Arity.

(** ** [AllGatherLast] needs three dimensions *)

Section Gather.
Context `{!GlobalContext, !Allocator}.

Lemma torch_permute_wrong_ndim (t : Tensor) (dims : list Z) :
  length dims ≠ ndim t → ∃ e, torch_permute t dims = Raise e.
Proof. intros Hne. unfold torch_permute. rewrite decide_False by done. eauto. Qed.

Lemma AllGatherLast_forward_not_3d (inputs : Tensor) (tesseract_dim : Z)
    (col_parallel_mode : ParallelMode) :
  ndim inputs ≠ 3 →
  ∃ e, AllGatherLast_forward inputs tesseract_dim col_parallel_mode = Raise e.
Proof.
  intros Hn. unfold AllGatherLast_forward.
  destruct (pure_inv _ (quiet_pure _ (quiet_size_at inputs (-1)))) as [[last ->]|[e ->]];
    [|by eauto].
  prog_simpl.
  match goal with |- context [torch_empty ?sh] =>
    destruct (pure_inv _ (quiet_pure _ (quiet_torch_empty sh))) as [[outputs ->]|[e ->]];
      [|by eauto]
  end.
  prog_simpl.
  destruct (pure_inv _ (quiet_pure _ (quiet_torch_chunk outputs tesseract_dim 0)))
    as [[views ->]|[e ->]]; [|by eauto].
  prog_simpl.
  destruct (torch_permute_wrong_ndim inputs [2; 0; 1]%Z) as [e ->]; [cbn; lia|].
  eauto.
Qed.
End Gather.

(** A three-dimensional input does reach the all-gather: alone in its
    group, a process gets its input back. *)
Example AllGatherLast_3d_gathers :
  run_with alone 0
    (AllGatherLast_forward (gpc := alone_gpc) (alloc := sevens) (full [1; 1; 2] 1%Q) 1
       PARALLEL_2P5D_COL)
  = ([CallAllGather PARALLEL_2P5D_COL [full [2; 1; 1] 7%Q] (full [2; 1; 1] 1%Q)],
     inr (full [1; 1; 2] 1%Q, {| gather_tesseract_dim := 1; gather_row_rank := 0 |})).
Proof. by vm_compute. Qed.

(* ================================================================= *)
(** ** Lists of results *)

Lemma fmap_inr {X Y E : Type} (f : X → Y) (l : list X) :
  (λ p, inr (f p)) <$> l = (inr : Y → E + Y) <$> (f <$> l).
Proof. by rewrite <- list_fmap_compose. Qed.

(* ================================================================= *)
(** ** Processes in lock step *)

Section LockStepsLemmas.
Context {A : Type}.
Variables (d : nat) (offset : Z) (scratch : nat → Tensor → list Q).

Lemma lock_steps_add (n m : nat) (w : list (Prog A)) :
  lock_steps d offset scratch (n + m) w
  = lock_steps d offset scratch n w ≫= lock_steps d offset scratch m.
Proof.
  revert w. induction n as [|n IH]; intros w; [done|].
  cbn [Nat.add lock_steps]. destruct (forallb _ w); [apply IH|done].
Qed.

Lemma lock_steps_run (n fuel : nat) (w w' : list (Prog A)) :
  w ≠ [] → lock_steps d offset scratch n w = Some w' →
  run_grid d offset scratch (n + fuel) w = run_grid d offset scratch fuel w'.
Proof.
  revert w. induction n as [|n IH]; intros w Hne Hw.
  - by injection Hw as ->.
  - cbn [lock_steps] in Hw. destruct (forallb _ w) eqn:Hall; [|done].
    cbn [Nat.add]. rewrite run_grid_step.
    + apply IH; [|done]. unfold step_grid. destruct w; [done|]. done.
    + destruct w as [|prog w]; [done|]. cbn in Hall |- *.
      apply andb_true_iff in Hall as [Hprog _]. by destruct (finished prog).
Qed.

Lemma lock_steps_run_grid (n fuel N : nat) (f : nat → Prog A) (w' : list (Prog A)) :
  0 < N → lock_steps d offset scratch n (f <$> seq 0 N) = Some w' →
  run_grid d offset scratch (n + fuel) (f <$> seq 0 N) = run_grid d offset scratch fuel w'.
Proof.
  intros HN. apply lock_steps_run. destruct N; [lia|done].
Qed.

Lemma lock_steps_S (n N : nat) (f : nat → Prog A) :
  (∀ p, p < N → finished (f p) = false) →
  lock_steps d offset scratch (S n) (f <$> seq 0 N)
  = lock_steps d offset scratch n (step_grid d offset scratch (f <$> seq 0 N)).
Proof.
  intros Hf. cbn [lock_steps].
  assert (forallb (λ prog, negb (finished prog)) (f <$> seq 0 N) = true) as ->; [|done].
  apply forallb_forall. intros x Hx. apply in_map_iff in Hx as (p & <- & Hp).
  apply in_seq in Hp. by rewrite Hf by lia.
Qed.
End LockStepsLemmas.

Section Sequencing.
Context {A B : Type}.
Variables (d : nat) (offset : Z) (scratch : nat → Tensor → list Q).
Variable k : nat → A → Prog B.

Lemma all_waiting_lookup (w : list (Prog A)) (p : nat) (prog : Prog A) :
  forallb (λ prog, negb (finished prog)) w = true → w !! p = Some prog →
  finished prog = false.
Proof.
  intros Hall Hp. rewrite forallb_forall in Hall. apply negb_true_iff, Hall.
  apply list_elem_of_In. by eapply list_elem_of_lookup_2.
Qed.

Lemma pending_bind (prog : Prog A) (f : A → Prog B) :
  finished prog = false → pending (prog ≫= f) = pending prog.
Proof. by destruct prog. Qed.

Lemma contributions_then_each (w : list (Prog A)) (ms : list nat)
    (sel : Call → option Tensor) :
  forallb (λ prog, negb (finished prog)) w = true →
  contributions (then_each k w) ms sel = contributions w ms sel.
Proof.
  intros Hall. unfold contributions.
  induction ms as [|q ms IH]; [done|]. cbn [mapM]. rewrite IH.
  assert ((then_each k w !! q ≫= λ p, pending p ≫= λ c, sel c)
          = (w !! q ≫= λ p, pending p ≫= λ c, sel c)) as ->; [|done].
  unfold then_each. rewrite list_lookup_imap.
  destruct (w !! q) as [prog|] eqn:Hq; [|done]. cbn.
  rewrite pending_bind; [done|]. by eapply all_waiting_lookup.
Qed.

Lemma step_grid_then_each (w : list (Prog A)) :
  forallb (λ prog, negb (finished prog)) w = true →
  step_grid d offset scratch (then_each k w) = then_each k (step_grid d offset scratch w).
Proof.
  intros Hall. unfold step_grid at 1 2. unfold then_each at 2 3.
  apply list_eq. intros p. rewrite !list_lookup_imap.
  fold (then_each k w).
  destruct (w !! p) as [prog|] eqn:Hp; [|done]. cbn. f_equal.
  destruct prog as [a|e|g bufs t kk|g src t kk|g dst t kk|g t kk].
  - by pose proof (all_waiting_lookup _ _ _ Hall Hp).
  - by pose proof (all_waiting_lookup _ _ _ Hall Hp).
  - cbn. rewrite contributions_then_each by done.
    destruct (contributions w _ _); [|done]. by destruct (decide _).
  - cbn. rewrite contributions_then_each by done.
    destruct (contributions w _ _); [|done].
    destruct (position _ _ _); [|done]. by destruct (decide _).
  - cbn. rewrite contributions_then_each by done.
    destruct (contributions w _ _); [|done].
    destruct (position _ _ _); [|done].
    destruct (decide _); [|done]. by destruct (decide _).
  - cbn. rewrite contributions_then_each by done.
    destruct (contributions w _ _); [|done]. by destruct (decide _).
Qed.

Lemma lock_steps_then_each (n : nat) (w w' : list (Prog A)) :
  lock_steps d offset scratch n w = Some w' →
  lock_steps d offset scratch n (then_each k w) = Some (then_each k w').
Proof.
  revert w. induction n as [|n IH]; intros w Hw.
  - by injection Hw as ->.
  - cbn [lock_steps] in Hw |- *.
    destruct (forallb _ w) eqn:Hall; [|done].
    assert (forallb (λ prog, negb (finished prog)) (then_each k w) = true) as ->.
    { apply forallb_forall. intros x Hx. apply list_elem_of_In in Hx.
      apply list_elem_of_lookup in Hx as [p Hx]. unfold then_each in Hx.
      rewrite list_lookup_imap in Hx.
      destruct (w !! p) as [prog|] eqn:Hp; [|done]. injection Hx as <-.
      pose proof (all_waiting_lookup _ _ _ Hall Hp). by destruct prog. }
    rewrite step_grid_then_each by done. by apply IH.
Qed.

Lemma then_each_fmap (f : nat → Prog A) (N : nat) :
  then_each k (f <$> seq 0 N) = (λ p, f p ≫= k p) <$> seq 0 N.
Proof.
  unfold then_each. apply list_eq. intros p.
  rewrite list_lookup_imap, !list_lookup_fmap.
  destruct (decide (p < N)).
  - by rewrite lookup_seq_lt.
  - by rewrite lookup_seq_ge by lia.
Qed.

(** Processes that run in lock step and all return go on, each with its
    continuation, as if the continuations had been launched on the results. *)
Lemma lock_steps_bind (n N : nat) (f : nat → Prog A) (v : nat → A) :
  0 < N →
  lock_steps d offset scratch n (f <$> seq 0 N) = Some ((λ p, Ret (v p)) <$> seq 0 N) →
  lock_steps d offset scratch n ((λ p, f p ≫= k p) <$> seq 0 N)
  = Some ((λ p, k p (v p)) <$> seq 0 N).
Proof.
  intros HN Hf. rewrite <- then_each_fmap.
  rewrite (lock_steps_then_each _ _ _ Hf). by rewrite then_each_fmap.
Qed.
End Sequencing.

(* ================================================================= *)
(** ** The forwards in lock step *)

Section AB_lock.
Context `{!Allocator}.
Variables (d m k n : nat) (A B : Tensor).
Variables (dep_rank data_parallel_rank pipeline_parallel_rank pipeline_parallel_size
             tensor_parallel_size : Z).
Variable ctx : bool.
Variable scratch : nat → Tensor → list Q.

Local Abbreviation offset :=
  (slice_offset (Z.of_nat d) dep_rank data_parallel_rank pipeline_parallel_rank
     pipeline_parallel_size tensor_parallel_size).

Lemma Matmul_AB_lock_steps :
  0 < d → 0 < k → 0 < n →
  lock_steps d offset scratch 2
    (launch d (AB_process d m k n A B dep_rank data_parallel_rank pipeline_parallel_rank
                 pipeline_parallel_size tensor_parallel_size ctx))
  = Some ((λ p, Ret (AB_tile d m k n A B (row_of d p) (col_of d p),
                     matmul_ctx ctx
                       (tile A m k (row_of d p) (col_of d p))
                       (tile B k n (row_of d p) (col_of d p))
                       (Z.of_nat d) (Z.of_nat (row_of d p)) (Z.of_nat (col_of d p)) dep_rank
                       PARALLEL_2P5D_ROW PARALLEL_2P5D_COL data_parallel_rank
                       pipeline_parallel_rank pipeline_parallel_size tensor_parallel_size))
          <$> seq 0 (d * d)).
Proof.
  intros Hd Hk Hn. unfold launch, AB_process.
  set (tA := λ p, tile A m k (row_of d p) (col_of d p)).
  set (tB := λ p, tile B k n (row_of d p) (col_of d p)).
  rewrite lock_steps_S.
  2:{ intros p Hp. rewrite (Matmul_AB_forward_calls _ _ _ m k n) by done. done. }
  erewrite step_all_gather; cycle 1.
  { intros p Hp. apply (Matmul_AB_forward_calls _ _ _ m k n); done. }
  { intros p Hp. destruct (row_col_bound d p Hp).
    cbn [grid_gpc get_world_size get_local_rank].
    rewrite shape_gather_buffers by done.
    rewrite (shape_tiles tA [m; k]) by done. by rewrite length_group_members. }
  rewrite lock_steps_S by done.
  erewrite step_all_gather; cycle 1.
  { intros p Hp. reflexivity. }
  { intros p Hp. destruct (row_col_bound d p Hp).
    cbn [grid_gpc get_world_size get_local_rank].
    rewrite shape_gather_buffers by done.
    rewrite (shape_tiles tB [k; n]) by done. by rewrite length_group_members. }
  cbn [lock_steps]. f_equal. apply fmap_seq_ext.
  intros p Hp. cbv beta. destruct (row_col_bound d p Hp) as [Hr Hc].
  rewrite !group_members_fmap.
  rewrite (fmap_seq_ext (λ j, tA (row_of d p * d + j)) (λ j, tile A m k (row_of d p) j)).
  2:{ intros j Hj. unfold tA. by destruct (row_col_of d (row_of d p) j Hj) as [-> ->]. }
  rewrite (fmap_seq_ext (λ j, tB (j * d + col_of d p)) (λ j, tile B k n j (col_of d p))).
  2:{ intros j Hj. unfold tB. by destruct (row_col_of d j (col_of d p) Hc) as [-> ->]. }
  unfold for_range. rewrite py_range_nat, full_tab2.
  rewrite (Matmul_AB_loop d m k n (λ j, tile A m k (row_of d p) j)
             (λ j, tile B k n j (col_of d p)) _ _ (λ _ _, eq_refl) (λ _ _, eq_refl) d 0)
    by done.
  prog_simpl. rewrite (reshape_same _ m n) by done. done.
Qed.
End AB_lock.

Section ABT_lock.
Context `{!Allocator}.
Variables (d m n k : nat) (A B : Tensor).
Variables (dep_rank data_parallel_rank pipeline_parallel_rank pipeline_parallel_size
             tensor_parallel_size : Z).
Variable ctx : bool.
Variable scratch : nat → Tensor → list Q.

Local Abbreviation offset :=
  (slice_offset (Z.of_nat d) dep_rank data_parallel_rank pipeline_parallel_rank
     pipeline_parallel_size tensor_parallel_size).
Local Abbreviation ABT_tile := (ABT_tile d m n k A B).
Local Abbreviation ABT_rest :=
  (ABT_rest d m n k A B dep_rank data_parallel_rank pipeline_parallel_rank
     pipeline_parallel_size tensor_parallel_size ctx).
Local Abbreviation ABT_held := (ABT_held d m n k A B).

Lemma ABT_iterations_lock_steps :
  0 < d →
  ∀ len i, i + len = d →
  lock_steps d offset scratch (2 * len)
    ((λ p, ABT_rest p (Z.of_nat <$> seq i len) (ABT_held i p)) <$> seq 0 (d * d))
  = Some ((λ p, Ret (ABT_tile (row_of d p) (col_of d p),
                     matmul_ctx ctx
                       (tile A m k (row_of d p) (col_of d p))
                       (tile B n k (row_of d p) (col_of d p))
                       (Z.of_nat d) (Z.of_nat (row_of d p)) (Z.of_nat (col_of d p)) dep_rank
                       PARALLEL_2P5D_ROW PARALLEL_2P5D_COL data_parallel_rank
                       pipeline_parallel_rank pipeline_parallel_size tensor_parallel_size))
          <$> seq 0 (d * d)).
Proof.
  intros Hd len. induction len as [|len IH]; intros i Hi.
  - cbn [Nat.mul lock_steps]. f_equal. apply fmap_seq_ext.
    intros p Hp. destruct (row_col_bound d p Hp) as [Hr Hc].
    unfold ABT_rest. cbn [seq fmap list_fmap for_each]. prog_simpl.
    unfold ABT_held. rewrite decide_True by lia.
    by rewrite (reshape_same _ m n).
  - replace (2 * S len) with (S (S (2 * len))) by lia.
    cbn [seq fmap list_fmap].
    (* the broadcast of B within the column groups *)
    rewrite lock_steps_S by done.
    erewrite (step_broadcast d _ scratch _ PARALLEL_2P5D_COL _
                (λ _, i) (λ p, i * d + col_of d p)); cycle 1.
    { intros p Hp. unfold ABT_rest. cbn [for_each].
      rewrite Matmul_ABT_loop_body_calls. prog_simpl. reflexivity. }
    { intros p q Hp Hq. cbv beta.
      apply list_elem_of_fmap in Hq as (r & -> & Hr). apply elem_of_seq in Hr.
      destruct (row_col_bound d p Hp) as [_ Hc].
      by destruct (row_col_of d r (col_of d p) Hc) as [_ ->]. }
    { intros p Hp. cbv beta.
      rewrite <- (position_member d offset PARALLEL_2P5D_COL p i) by lia.
      f_equal. unfold slice_offset. lia. }
    { intros p Hp. by rewrite group_members_lookup by lia. }
    { intros p Hp. done. }
    (* the product and its reduction within the row groups *)
    erewrite (fmap_seq_ext _ _); cycle 1.
    { intros p Hp. cbv beta. unfold clone.
      rewrite (torch_transpose_2d _ n k) by done. prog_simpl.
      rewrite (torch_matmul_2d _ _ m k n) by done. unfold dist_reduce. prog_simpl.
      reflexivity. }
    rewrite lock_steps_S by done.
    erewrite (step_reduce d _ scratch _ PARALLEL_2P5D_ROW _ (λ _, i)); cycle 1.
    { intros p Hp. reflexivity. }
    { intros p q Hp Hq. cbv beta.
      apply list_elem_of_fmap in Hq as (c & -> & Hc). apply elem_of_seq in Hc.
      by destruct (row_col_of d (row_of d p) c) as [-> _]; [lia|]. }
    { intros p Hp. cbv beta.
      rewrite <- (position_member d offset PARALLEL_2P5D_ROW p i) by lia.
      f_equal. unfold slice_offset. lia. }
    { intros p q Hp Hq. done. }
    (* what is kept *)
    rewrite <- (IH (S i)) by lia. f_equal.
    apply fmap_seq_ext. intros p Hp. destruct (row_col_bound d p Hp) as [Hr Hc].
    cbv beta. unfold ABT_rest. prog_simpl.
    match goal with
    | |- bind (for_each _ _ ?X) _ = _ =>
        assert (X = ABT_held (S i) p) as ->; [|reflexivity]
    end.
    rewrite group_members_lookup by lia. unfold ABT_held, clone.
    destruct (decide (i = col_of d p)) as [->|Hne].
    + rewrite bool_decide_eq_true_2 by done.
      rewrite decide_True by (by rewrite row_col_join).
      rewrite (decide_True (P := _ < S _)) by lia.
      rewrite group_members_fmap, tensor_sum_tab2. unfold ABT_tile.
      apply tab2_ext. intros x y _ _. apply Qsum_ext. intros t Ht.
      destruct (row_col_of d (row_of d p) t Ht) as [-> ->].
      by destruct (row_col_of d (col_of d p) t Ht) as [-> ->].
    + rewrite bool_decide_eq_false_2 by lia.
      destruct (decide (col_of d p < i)), (decide (col_of d p < S i)); done || lia.
Qed.

Lemma Matmul_ABT_lock_steps :
  0 < d → 0 < k →
  lock_steps d offset scratch (2 * d)
    (launch d (ABT_process d m n k A B dep_rank data_parallel_rank pipeline_parallel_rank
                 pipeline_parallel_size tensor_parallel_size ctx))
  = Some ((λ p, Ret (ABT_tile (row_of d p) (col_of d p),
                     matmul_ctx ctx
                       (tile A m k (row_of d p) (col_of d p))
                       (tile B n k (row_of d p) (col_of d p))
                       (Z.of_nat d) (Z.of_nat (row_of d p)) (Z.of_nat (col_of d p)) dep_rank
                       PARALLEL_2P5D_ROW PARALLEL_2P5D_COL data_parallel_rank
                       pipeline_parallel_rank pipeline_parallel_size tensor_parallel_size))
          <$> seq 0 (d * d)).
Proof.
  intros Hd Hk. rewrite <- (ABT_iterations_lock_steps Hd d 0) by lia.
  f_equal. unfold launch. apply fmap_seq_ext. intros p Hp.
  unfold ABT_process. rewrite (Matmul_ABT_forward_loop _ _ _ m n k) by done.
  unfold for_range. rewrite py_range_nat. reflexivity.
Qed.
End ABT_lock.

Section ATB_lock.
Context `{!Allocator}.
Variables (d m k n : nat) (A B : Tensor).
Variables (dep_rank data_parallel_rank pipeline_parallel_rank pipeline_parallel_size
             tensor_parallel_size : Z).
Variable ctx : bool.
Variable scratch : nat → Tensor → list Q.

Local Abbreviation offset :=
  (slice_offset (Z.of_nat d) dep_rank data_parallel_rank pipeline_parallel_rank
     pipeline_parallel_size tensor_parallel_size).
Local Abbreviation ATB_tile := (ATB_tile d m k n A B).
Local Abbreviation ATB_rest :=
  (ATB_rest d m k n A B dep_rank data_parallel_rank pipeline_parallel_rank
     pipeline_parallel_size tensor_parallel_size ctx).
Local Abbreviation ATB_held := (ATB_held d m k n A B).

Lemma ATB_iterations_lock_steps :
  0 < d →
  ∀ len i, i + len = d →
  lock_steps d offset scratch (2 * len)
    ((λ p, ATB_rest p (Z.of_nat <$> seq i len) (ATB_held i p)) <$> seq 0 (d * d))
  = Some ((λ p, Ret (ATB_tile (row_of d p) (col_of d p),
                     matmul_ctx ctx
                       (tile A m k (row_of d p) (col_of d p))
                       (tile B m n (row_of d p) (col_of d p))
                       (Z.of_nat d) (Z.of_nat (row_of d p)) (Z.of_nat (col_of d p)) dep_rank
                       PARALLEL_2P5D_ROW PARALLEL_2P5D_COL data_parallel_rank
                       pipeline_parallel_rank pipeline_parallel_size tensor_parallel_size))
          <$> seq 0 (d * d)).
Proof.
  intros Hd len. induction len as [|len IH]; intros i Hi.
  - cbn [Nat.mul lock_steps]. f_equal. apply fmap_seq_ext.
    intros p Hp. destruct (row_col_bound d p Hp) as [Hr Hc].
    unfold ATB_rest. cbn [seq fmap list_fmap for_each]. prog_simpl.
    unfold ATB_held. rewrite decide_True by lia.
    by rewrite (reshape_same _ k n).
  - replace (2 * S len) with (S (S (2 * len))) by lia.
    cbn [seq fmap list_fmap].
    (* the broadcast of A within the row groups *)
    rewrite lock_steps_S by done.
    erewrite (step_broadcast d _ scratch _ PARALLEL_2P5D_ROW _
                (λ _, i) (λ p, row_of d p * d + i)); cycle 1.
    { intros p Hp. unfold ATB_rest. cbn [for_each].
      rewrite Matmul_ATB_loop_body_calls. prog_simpl. reflexivity. }
    { intros p q Hp Hq. cbv beta.
      apply list_elem_of_fmap in Hq as (c & -> & Hc). apply elem_of_seq in Hc.
      by destruct (row_col_of d (row_of d p) c) as [-> _]; [lia|]. }
    { intros p Hp. cbv beta.
      rewrite <- (position_member d offset PARALLEL_2P5D_ROW p i) by lia.
      f_equal. unfold slice_offset. lia. }
    { intros p Hp. by rewrite group_members_lookup by lia. }
    { intros p Hp. done. }
    (* the product and its reduction within the column groups *)
    erewrite (fmap_seq_ext _ _); cycle 1.
    { intros p Hp. cbv beta. unfold clone.
      rewrite (torch_transpose_2d _ m k) by done. prog_simpl.
      rewrite (torch_matmul_2d _ _ k m n) by done. unfold dist_reduce. prog_simpl.
      reflexivity. }
    rewrite lock_steps_S by done.
    erewrite (step_reduce d _ scratch _ PARALLEL_2P5D_COL _ (λ _, i)); cycle 1.
    { intros p Hp. reflexivity. }
    { intros p q Hp Hq. cbv beta.
      apply list_elem_of_fmap in Hq as (r & -> & Hr). apply elem_of_seq in Hr.
      destruct (row_col_bound d p Hp) as [_ Hc].
      by destruct (row_col_of d r (col_of d p) Hc) as [_ ->]. }
    { intros p Hp. cbv beta.
      rewrite <- (position_member d offset PARALLEL_2P5D_COL p i) by lia.
      f_equal. unfold slice_offset. lia. }
    { intros p q Hp Hq. done. }
    (* what is kept *)
    rewrite <- (IH (S i)) by lia. f_equal.
    apply fmap_seq_ext. intros p Hp. destruct (row_col_bound d p Hp) as [Hr Hc].
    cbv beta. unfold ATB_rest. prog_simpl.
    match goal with
    | |- bind (for_each _ _ ?X) _ = _ =>
        assert (X = ATB_held (S i) p) as ->; [|reflexivity]
    end.
    rewrite group_members_lookup by lia. unfold ATB_held, clone.
    destruct (decide (i = row_of d p)) as [->|Hne].
    + rewrite bool_decide_eq_true_2 by done.
      rewrite decide_True by (by rewrite row_col_join).
      rewrite (decide_True (P := _ < S _)) by lia.
      rewrite group_members_fmap, tensor_sum_tab2. unfold ATB_tile.
      apply tab2_ext. intros x y _ _. apply Qsum_ext. intros t Ht.
      destruct (row_col_of d t (col_of d p) Hc) as [-> ->].
      by destruct (row_col_of d t (row_of d p) Hr) as [-> ->].
    + rewrite bool_decide_eq_false_2 by lia.
      destruct (decide (row_of d p < i)), (decide (row_of d p < S i)); done || lia.
Qed.

Lemma Matmul_ATB_lock_steps :
  0 < d → 0 < k → 0 < n →
  lock_steps d offset scratch (2 * d)
    (launch d (ATB_process d m k n A B dep_rank data_parallel_rank pipeline_parallel_rank
                 pipeline_parallel_size tensor_parallel_size ctx))
  = Some ((λ p, Ret (ATB_tile (row_of d p) (col_of d p),
                     matmul_ctx ctx
                       (tile A m k (row_of d p) (col_of d p))
                       (tile B m n (row_of d p) (col_of d p))
                       (Z.of_nat d) (Z.of_nat (row_of d p)) (Z.of_nat (col_of d p)) dep_rank
                       PARALLEL_2P5D_ROW PARALLEL_2P5D_COL data_parallel_rank
                       pipeline_parallel_rank pipeline_parallel_size tensor_parallel_size))
          <$> seq 0 (d * d)).
Proof.
  intros Hd Hk Hn. rewrite <- (ATB_iterations_lock_steps Hd d 0) by lia.
  f_equal. unfold launch. apply fmap_seq_ext. intros p Hp.
  unfold ATB_process. rewrite (Matmul_ATB_forward_loop _ _ _ m k n) by done.
  unfold for_range. rewrite py_range_nat. reflexivity.
Qed.
End ATB_lock.

(* ================================================================= *)
(** ** Saved contexts *)

Lemma matmul_ctx_saved (A B : Tensor) (tesseract_dim : Z)
    (row_rank col_rank dep_rank : Z) (row_parallel_mode col_parallel_mode : ParallelMode)
    (data_parallel_rank pipeline_parallel_rank pipeline_parallel_size
       tensor_parallel_size : Z) :
  matmul_ctx true A B tesseract_dim row_rank col_rank dep_rank row_parallel_mode
    col_parallel_mode data_parallel_rank pipeline_parallel_rank pipeline_parallel_size
    tensor_parallel_size
  = Some (saved_context A B tesseract_dim row_rank col_rank dep_rank row_parallel_mode
            col_parallel_mode data_parallel_rank pipeline_parallel_rank
            pipeline_parallel_size tensor_parallel_size).
Proof. reflexivity. Qed.

Section Backward.
Context `{!Allocator}.
Variables (d : nat).
Variables (dep_rank data_parallel_rank pipeline_parallel_rank pipeline_parallel_size
             tensor_parallel_size : Z).
Variable scratch : nat → Tensor → list Q.

Local Abbreviation offset :=
  (slice_offset (Z.of_nat d) dep_rank data_parallel_rank pipeline_parallel_rank
     pipeline_parallel_size tensor_parallel_size).

(** Two forwards one after the other, as the backward passes call them. *)
Lemma two_products_run {X Y : Type} (n1 n2 : nat) (f : nat → Prog (Tensor * X))
    (g : nat → Prog (Tensor * Y)) (u v : nat → Tensor) (x : nat → X) (y : nat → Y) :
  0 < d →
  lock_steps d offset scratch n1 (f <$> seq 0 (d * d))
  = Some ((λ p, Ret (u p, x p)) <$> seq 0 (d * d)) →
  lock_steps d offset scratch n2 (g <$> seq 0 (d * d))
  = Some ((λ p, Ret (v p, y p)) <$> seq 0 (d * d)) →
  run_grid d offset scratch (n1 + n2)
    ((λ p, A_grad ← (r ← f p; mret r.1);
           B_grad ← (r ← g p; mret r.1);
           mret (Some A_grad :: Some B_grad :: replicate 13 None)) <$> seq 0 (d * d))
  = Some ((λ p, inr (Some (u p) :: Some (v p) :: replicate 13 None)) <$> seq 0 (d * d)).
Proof.
  intros Hd Hf Hg.
  assert (0 < d * d) as HN by nia.
  pose proof (lock_steps_bind d offset scratch (λ _ r, mret r.1) _ _ _ _ HN Hf) as Hf'.
  pose proof (lock_steps_bind d offset scratch (λ _ r, mret r.1) _ _ _ _ HN Hg) as Hg'.
  cbn [fst] in Hf', Hg'.
  pose proof (lock_steps_bind d offset scratch
                (λ p A_grad, B_grad ← (r ← g p; mret r.1);
                             mret (Some A_grad :: Some B_grad :: replicate 13 None))
                _ _ _ _ HN Hf') as H1.
  cbv beta in H1.
  replace (n1 + n2) with (n1 + (n2 + 0)) by lia.
  rewrite (lock_steps_run_grid _ _ _ _ _ _ _ _ HN H1).
  pose proof (λ a, lock_steps_bind d offset scratch
                (λ p B_grad, mret (Some (a p) :: Some B_grad :: replicate 13 None))
                _ _ _ _ HN Hg') as H2.
  specialize (H2 u). cbv beta in H2.
  rewrite (lock_steps_run_grid _ _ _ _ _ _ _ _ HN H2).
  apply run_grid_returned.
Qed.
End Backward.

(* ================================================================= *)
(** ** The backward passes on the grid *)

Section BackwardGrid.
Context `{!Allocator}.
Variables (d : nat).
Variables (dep_rank data_parallel_rank pipeline_parallel_rank pipeline_parallel_size
             tensor_parallel_size : Z).
Variable scratch : nat → Tensor → list Q.

Local Abbreviation offset :=
  (slice_offset (Z.of_nat d) dep_rank data_parallel_rank pipeline_parallel_rank
     pipeline_parallel_size tensor_parallel_size).

Lemma Matmul_AB_backward_grid (m k n : nat) (A B G : Tensor) :
  0 < d → 0 < k → 0 < n →
  run_grid d offset scratch (2 * d + 2 * d)
    (launch d (AB_backward_process d m k n A B G dep_rank data_parallel_rank
                 pipeline_parallel_rank pipeline_parallel_size tensor_parallel_size))
  = Some ((λ p, inr (Some (ABT_tile d m k n G B (row_of d p) (col_of d p))
                       :: Some (ATB_tile d m k n A G (row_of d p) (col_of d p))
                       :: replicate 13 None))
            <$> seq 0 (d * d)).
Proof.
  intros Hd Hk Hn.
  pose proof (Matmul_ABT_lock_steps d m k n G B dep_rank data_parallel_rank
                pipeline_parallel_rank pipeline_parallel_size tensor_parallel_size
                true scratch Hd Hn) as Hf.
  pose proof (Matmul_ATB_lock_steps d m k n A G dep_rank data_parallel_rank
                pipeline_parallel_rank pipeline_parallel_size tensor_parallel_size
                true scratch Hd Hk Hn) as Hg.
  unfold launch in Hf, Hg.
  rewrite <- (two_products_run d dep_rank data_parallel_rank pipeline_parallel_rank
                pipeline_parallel_size tensor_parallel_size scratch _ _ _ _ _ _ _ _
                Hd Hf Hg).
  reflexivity.
Qed.

Lemma Matmul_ABT_backward_grid (m n k : nat) (A B G : Tensor) :
  0 < d → 0 < k → 0 < n →
  run_grid d offset scratch (2 + 2 * d)
    (launch d (ABT_backward_process d m n k A B G dep_rank data_parallel_rank
                 pipeline_parallel_rank pipeline_parallel_size tensor_parallel_size))
  = Some ((λ p, inr (Some (AB_tile d m n k G B (row_of d p) (col_of d p))
                       :: Some (ATB_tile d m n k G A (row_of d p) (col_of d p))
                       :: replicate 13 None))
            <$> seq 0 (d * d)).
Proof.
  intros Hd Hk Hn.
  pose proof (Matmul_AB_lock_steps d m n k G B dep_rank data_parallel_rank
                pipeline_parallel_rank pipeline_parallel_size tensor_parallel_size
                true scratch Hd Hn Hk) as Hf.
  pose proof (Matmul_ATB_lock_steps d m n k G A dep_rank data_parallel_rank
                pipeline_parallel_rank pipeline_parallel_size tensor_parallel_size
                true scratch Hd Hn Hk) as Hg.
  unfold launch in Hf, Hg.
  rewrite <- (two_products_run d dep_rank data_parallel_rank pipeline_parallel_rank
                pipeline_parallel_size tensor_parallel_size scratch _ _ _ _ _ _ _ _
                Hd Hf Hg).
  reflexivity.
Qed.

Lemma Matmul_ATB_backward_grid (m k n : nat) (A B G : Tensor) :
  0 < d → 0 < k → 0 < n →
  run_grid d offset scratch (2 * d + 2)
    (launch d (ATB_backward_process d m k n A B G dep_rank data_parallel_rank
                 pipeline_parallel_rank pipeline_parallel_size tensor_parallel_size))
  = Some ((λ p, inr (Some (ABT_tile d m k n B G (row_of d p) (col_of d p))
                       :: Some (AB_tile d m k n A G (row_of d p) (col_of d p))
                       :: replicate 13 None))
            <$> seq 0 (d * d)).
Proof.
  intros Hd Hk Hn.
  pose proof (Matmul_ABT_lock_steps d m k n B G dep_rank data_parallel_rank
                pipeline_parallel_rank pipeline_parallel_size tensor_parallel_size
                true scratch Hd Hn) as Hf.
  pose proof (Matmul_AB_lock_steps d m k n A G dep_rank data_parallel_rank
                pipeline_parallel_rank pipeline_parallel_size tensor_parallel_size
                true scratch Hd Hk Hn) as Hg.
  unfold launch in Hf, Hg.
  rewrite <- (two_products_run d dep_rank data_parallel_rank pipeline_parallel_rank
                pipeline_parallel_size tensor_parallel_size scratch _ _ _ _ _ _ _ _
                Hd Hf Hg).
  reflexivity.
Qed.
End BackwardGrid.

(* ================================================================= *)
(** ** The output is reshaped last *)

Lemma result_pure_inv {A : Type} (o : Oracle) (n : nat) (p : Prog A) (a : A) :
  pure p → (run_with o n p).2 = inr a → p = Ret a.
Proof. destruct p; cbn; intros Hp Hr; try done. by injection Hr as ->. Qed.

Lemma pure_reshape (t : Tensor) (s : list Z) : pure (reshape t s).
Proof. apply quiet_pure, quiet_reshape. Qed.

(** A reshape to a shape without [-1] gives that shape and keeps the
    entries. *)
Lemma reshape_shape (t t' : Tensor) (s : list Z) :
  reshape t s = Ret t' → Forall (λ x, 0 <= x)%Z s →
  shape t' = Z.to_nat <$> s ∧ data t' = data t.
Proof.
  unfold reshape. intros Hr Hs.
  destruct (existsb _ s); [done|].
  assert (count_occ Z.eq_dec s (-1)%Z = 0) as Hc.
  { apply count_occ_not_In. intros Hin. rewrite Forall_forall in Hs.
    apply list_elem_of_In, Hs in Hin. lia. }
  rewrite Hc in Hr. destruct (_ =? _)%Z; [|done]. by injection Hr as <-.
Qed.

Lemma reshape_data (t t' : Tensor) (s : list Z) : reshape t s = Ret t' → data t' = data t.
Proof.
  unfold reshape. intros Hr.
  destruct (existsb _ s); [done|].
  destruct (count_occ Z.eq_dec s (-1)%Z) as [|[|?]]; [| |done].
  - destruct (_ =? _)%Z; [|done]. by injection Hr as <-.
  - destruct (_ =? _)%Z; [done|]. destruct (_ =? _)%Z; [|done]. by injection Hr as <-.
Qed.

(** Like [peel_binds], keeping the last step. *)
Ltac peel_to_last H Hlast :=
  repeat (let H' := fresh "Hstep" in
          apply result_bind_inv in H as (? & ? & H' & H); cbv beta zeta in H;
          try clear Hlast; rename H' into Hlast).

Section OutputShape.
Context `{!GlobalContext, !Allocator}.
Variables (o : Oracle) (n : nat) (ctx : bool) (A B : Tensor) (tesseract_dim : Z)
  (out_shape : list Z) (row_rank col_rank dep_rank : Z)
  (row_parallel_mode col_parallel_mode : ParallelMode)
  (data_parallel_rank pipeline_parallel_rank pipeline_parallel_size tensor_parallel_size : Z).

Lemma Matmul_AB_forward_reshaped (out : Tensor) (c : option MatmulCtx) :
  (run_with o n
     (Matmul_AB_2p5D_forward ctx A B tesseract_dim out_shape row_rank col_rank dep_rank
        row_parallel_mode col_parallel_mode data_parallel_rank pipeline_parallel_rank
        pipeline_parallel_size tensor_parallel_size)).2 = inr (out, c) →
  ∃ C, reshape C out_shape = Ret out.
Proof.
  intros Hrun. unfold Matmul_AB_2p5D_forward in Hrun. peel_to_last Hrun Hlast.
  cbn in Hrun. injection Hrun as <- _.
  eexists. eapply result_pure_inv; [apply pure_reshape|done].
Qed.

Lemma Matmul_ABT_forward_reshaped (out : Tensor) (c : option MatmulCtx) :
  (run_with o n
     (Matmul_ABT_2p5D_forward ctx A B tesseract_dim out_shape row_rank col_rank dep_rank
        row_parallel_mode col_parallel_mode data_parallel_rank pipeline_parallel_rank
        pipeline_parallel_size tensor_parallel_size)).2 = inr (out, c) →
  ∃ C, reshape C out_shape = Ret out.
Proof.
  intros Hrun. unfold Matmul_ABT_2p5D_forward in Hrun. peel_to_last Hrun Hlast.
  cbn in Hrun. injection Hrun as <- _.
  eexists. eapply result_pure_inv; [apply pure_reshape|done].
Qed.

Lemma Matmul_ATB_forward_reshaped (out : Tensor) (c : option MatmulCtx) :
  (run_with o n
     (Matmul_ATB_2p5D_forward ctx A B tesseract_dim out_shape row_rank col_rank dep_rank
        row_parallel_mode col_parallel_mode data_parallel_rank pipeline_parallel_rank
        pipeline_parallel_size tensor_parallel_size)).2 = inr (out, c) →
  ∃ C, reshape C out_shape = Ret out.
Proof.
  intros Hrun. unfold Matmul_ATB_2p5D_forward in Hrun. peel_to_last Hrun Hlast.
  cbn in Hrun. injection Hrun as <- _.
  eexists. eapply result_pure_inv; [apply pure_reshape|done].
Qed.
End OutputShape.

(* ================================================================= *)
(** ** Shapes of the gradients *)

Lemma size_tuple_to_nat (s : list nat) : Z.to_nat <$> size_tuple s = s.
Proof.
  unfold size_tuple. rewrite <- list_fmap_compose.
  induction s as [|x s IH]; [done|]. csimpl. rewrite IH. f_equal. apply Nat2Z.id.
Qed.

Lemma size_tuple_nonneg (s : list nat) : Forall (λ x, 0 <= x)%Z (size_tuple s).
Proof. unfold size_tuple. apply Forall_fmap, Forall_forall. intros x _. simpl. lia. Qed.

Lemma reshape_size_tuple (t t' : Tensor) (s : list nat) :
  reshape t (size_tuple s) = Ret t' → shape t' = s.
Proof.
  intros Hr. destruct (reshape_shape _ _ _ Hr (size_tuple_nonneg s)) as [-> _].
  apply size_tuple_to_nat.
Qed.

Section GradientShapes.
Context `{!GlobalContext, !Allocator}.
Variables (o : Oracle).

Lemma Matmul_AB_apply_shape (n : nat) (A B : Tensor) (tesseract_dim : Z) (s : list nat)
    (row_rank col_rank dep_rank : Z) (row_parallel_mode col_parallel_mode : ParallelMode)
    (data_parallel_rank pipeline_parallel_rank pipeline_parallel_size tensor_parallel_size : Z)
    (out : Tensor) :
  (run_with o n
     (Matmul_AB_2p5D_apply A B tesseract_dim (size_tuple s) row_rank col_rank dep_rank
        row_parallel_mode col_parallel_mode data_parallel_rank pipeline_parallel_rank
        pipeline_parallel_size tensor_parallel_size)).2 = inr out →
  shape out = s.
Proof.
  intros Hrun. unfold Matmul_AB_2p5D_apply in Hrun.
  apply result_bind_inv in Hrun as ([out' c] & n' & Hfwd & Hret).
  cbn in Hret. injection Hret as <-.
  apply Matmul_AB_forward_reshaped in Hfwd as [C HC]. by apply reshape_size_tuple in HC.
Qed.

Lemma Matmul_ABT_apply_shape (n : nat) (A B : Tensor) (tesseract_dim : Z) (s : list nat)
    (row_rank col_rank dep_rank : Z) (row_parallel_mode col_parallel_mode : ParallelMode)
    (data_parallel_rank pipeline_parallel_rank pipeline_parallel_size tensor_parallel_size : Z)
    (out : Tensor) :
  (run_with o n
     (Matmul_ABT_2p5D_apply A B tesseract_dim (size_tuple s) row_rank col_rank dep_rank
        row_parallel_mode col_parallel_mode data_parallel_rank pipeline_parallel_rank
        pipeline_parallel_size tensor_parallel_size)).2 = inr out →
  shape out = s.
Proof.
  intros Hrun. unfold Matmul_ABT_2p5D_apply in Hrun.
  apply result_bind_inv in Hrun as ([out' c] & n' & Hfwd & Hret).
  cbn in Hret. injection Hret as <-.
  apply Matmul_ABT_forward_reshaped in Hfwd as [C HC]. by apply reshape_size_tuple in HC.
Qed.

Lemma Matmul_ATB_apply_shape (n : nat) (A B : Tensor) (tesseract_dim : Z) (s : list nat)
    (row_rank col_rank dep_rank : Z) (row_parallel_mode col_parallel_mode : ParallelMode)
    (data_parallel_rank pipeline_parallel_rank pipeline_parallel_size tensor_parallel_size : Z)
    (out : Tensor) :
  (run_with o n
     (Matmul_ATB_2p5D_apply A B tesseract_dim (size_tuple s) row_rank col_rank dep_rank
        row_parallel_mode col_parallel_mode data_parallel_rank pipeline_parallel_rank
        pipeline_parallel_size tensor_parallel_size)).2 = inr out →
  shape out = s.
Proof.
  intros Hrun. unfold Matmul_ATB_2p5D_apply in Hrun.
  apply result_bind_inv in Hrun as ([out' c] & n' & Hfwd & Hret).
  cbn in Hret. injection Hret as <-.
  apply Matmul_ATB_forward_reshaped in Hfwd as [C HC]. by apply reshape_size_tuple in HC.
Qed.

Lemma Matmul_AB_backward_shapes (ctx : MatmulCtx) (g : Tensor) (grads : list (option Tensor)) :
  result_of o (Matmul_AB_2p5D_backward ctx g) = inr grads →
  ∃ A_grad B_grad,
    grads = Some A_grad :: Some B_grad :: replicate 13 None
    ∧ shape A_grad = ctx_A_shape ctx ∧ shape B_grad = ctx_B_shape ctx.
Proof.
  unfold result_of, Matmul_AB_2p5D_backward. destruct (saved_tensors ctx) as [A B].
  intros Hrun.
  apply result_bind_inv in Hrun as (A_grad & n1 & HA & Hrun).
  apply result_bind_inv in Hrun as (B_grad & n2 & HB & Hrun).
  cbn in Hrun. injection Hrun as <-.
  exists A_grad, B_grad. split; [done|]. split.
  - by apply Matmul_ABT_apply_shape in HA.
  - by apply Matmul_ATB_apply_shape in HB.
Qed.

Lemma Matmul_ABT_backward_shapes (ctx : MatmulCtx) (g : Tensor) (grads : list (option Tensor)) :
  result_of o (Matmul_ABT_2p5D_backward ctx g) = inr grads →
  ∃ A_grad B_grad,
    grads = Some A_grad :: Some B_grad :: replicate 13 None
    ∧ shape A_grad = ctx_A_shape ctx ∧ shape B_grad = ctx_B_shape ctx.
Proof.
  unfold result_of, Matmul_ABT_2p5D_backward. destruct (saved_tensors ctx) as [A B].
  intros Hrun.
  apply result_bind_inv in Hrun as (A_grad & n1 & HA & Hrun).
  apply result_bind_inv in Hrun as (B_grad & n2 & HB & Hrun).
  cbn in Hrun. injection Hrun as <-.
  exists A_grad, B_grad. split; [done|]. split.
  - by apply Matmul_AB_apply_shape in HA.
  - by apply Matmul_ATB_apply_shape in HB.
Qed.

Lemma Matmul_ATB_backward_shapes (ctx : MatmulCtx) (g : Tensor) (grads : list (option Tensor)) :
  result_of o (Matmul_ATB_2p5D_backward ctx g) = inr grads →
  ∃ A_grad B_grad,
    grads = Some A_grad :: Some B_grad :: replicate 13 None
    ∧ shape A_grad = ctx_A_shape ctx ∧ shape B_grad = ctx_B_shape ctx.
Proof.
  unfold result_of, Matmul_ATB_2p5D_backward. destruct (saved_tensors ctx) as [A B].
  intros Hrun.
  apply result_bind_inv in Hrun as (A_grad & n1 & HA & Hrun).
  apply result_bind_inv in Hrun as (B_grad & n2 & HB & Hrun).
  cbn in Hrun. injection Hrun as <-.
  exists A_grad, B_grad. split; [done|]. split.
  - by apply Matmul_ABT_apply_shape in HA.
  - by apply Matmul_AB_apply_shape in HB.
Qed.
End GradientShapes.

(* ================================================================= *)
(** ** The calls of a forward that returns *)

Lemma sigs_pure_bind_ok {A B : Type} (o : Oracle) (n : nat) (p : Prog A) (f : A → Prog B)
    (v : B) (X : list CallSig) :
  pure p → (run_with o n (p ≫= f)).2 = inr v →
  (∀ a, (run_with o n (f a)).2 = inr v → sigs o n (f a) = X) →
  sigs o n (p ≫= f) = X.
Proof.
  intros Hp Hrun Hf. destruct (pure_inv p Hp) as [[a ->]|[e ->]]; [|done].
  by apply Hf.
Qed.

Lemma sigs_loop_ok (o : Oracle) (g1 g2 : ParallelMode) (src dst : Z → Z)
    (body : Z → Tensor → Prog Tensor) :
  (∀ i C n,
      let r := run_with o n (body i C) in
      (call_sig <$> r.1 = [SigBroadcast g1 (src i); SigReduce g2 (dst i)] ∧ ∃ z, r.2 = inr z)
      ∨ (call_sig <$> r.1 = [SigBroadcast g1 (src i)] ∧ ∃ e, r.2 = inl e)) →
  ∀ l n C C',
    (run_with o n (for_each l body C)).2 = inr C' →
    sigs o n (for_each l body C)
    = (i ← l; [SigBroadcast g1 (src i); SigReduce g2 (dst i)]).
Proof.
  intros Hbody l. induction l as [|i l IH]; intros n C C' Hrun; [done|].
  cbn [for_each] in Hrun |- *. unfold sigs. rewrite run_with_bind in Hrun |- *.
  destruct (Hbody i C n) as [[Htr [z Hz]]|[Htr [e He]]]; cbv zeta in *.
  - rewrite Hz in Hrun |- *. cbn [fst snd] in Hrun |- *. rewrite fmap_app, Htr.
    cbn [mbind list_bind]. cbn [app]. do 2 f_equal. by eapply IH.
  - by rewrite He in Hrun.
Qed.

Ltac pure_ok H :=
  repeat (eapply sigs_pure_bind_ok;
          [solve [apply pure_py_assert | apply quiet_pure; auto with quiet]
          |exact H|clear H; intros ? H]).

Section Traces.
Context `{!GlobalContext, !Allocator}.
Variables (o : Oracle) (ctx : bool) (A B : Tensor) (tesseract_dim : Z)
  (out_shape : list Z) (row_rank col_rank dep_rank : Z)
  (row_parallel_mode col_parallel_mode : ParallelMode)
  (data_parallel_rank pipeline_parallel_rank pipeline_parallel_size tensor_parallel_size : Z).

Local Abbreviation address minor :=
  (grid_address minor dep_rank tesseract_dim data_parallel_rank pipeline_parallel_rank
     pipeline_parallel_size tensor_parallel_size).

Lemma Matmul_ABT_forward_sigs_ok (r : Tensor * option MatmulCtx) :
  result_of o
    (Matmul_ABT_2p5D_forward ctx A B tesseract_dim out_shape row_rank col_rank dep_rank
       row_parallel_mode col_parallel_mode data_parallel_rank pipeline_parallel_rank
       pipeline_parallel_size tensor_parallel_size) = inr r →
  sigs o 0
    (Matmul_ABT_2p5D_forward ctx A B tesseract_dim out_shape row_rank col_rank dep_rank
       row_parallel_mode col_parallel_mode data_parallel_rank pipeline_parallel_rank
       pipeline_parallel_size tensor_parallel_size)
  = (i ← py_range tesseract_dim;
     [SigBroadcast col_parallel_mode (address (col_rank + i * tesseract_dim)%Z);
      SigReduce row_parallel_mode (address (i + row_rank * tesseract_dim)%Z)]).
Proof.
  unfold result_of, Matmul_ABT_2p5D_forward. intros Hrun. pure_ok Hrun.
  rewrite sigs_bind_silent.
  2:{ intros C. apply pure_bind; [apply quiet_pure; auto with quiet|done]. }
  apply result_bind_inv in Hrun as (C' & ? & Hloop & _).
  eapply sigs_loop_ok; [|exact Hloop]. intros i C n.
  rewrite Matmul_ABT_loop_body_calls.
  apply (sigs_broadcast_reduce o n _ _ _ _ _
           (λ x, torch_transpose x 0 1) (λ B_t, torch_matmul _ B_t)
           (λ z, if bool_decide (i = col_rank) then clone z else C));
    intros ?; apply quiet_pure; auto with quiet.
Qed.

Lemma Matmul_ATB_forward_sigs_ok (r : Tensor * option MatmulCtx) :
  result_of o
    (Matmul_ATB_2p5D_forward ctx A B tesseract_dim out_shape row_rank col_rank dep_rank
       row_parallel_mode col_parallel_mode data_parallel_rank pipeline_parallel_rank
       pipeline_parallel_size tensor_parallel_size) = inr r →
  sigs o 0
    (Matmul_ATB_2p5D_forward ctx A B tesseract_dim out_shape row_rank col_rank dep_rank
       row_parallel_mode col_parallel_mode data_parallel_rank pipeline_parallel_rank
       pipeline_parallel_size tensor_parallel_size)
  = (i ← py_range tesseract_dim;
     [SigBroadcast row_parallel_mode (address (i + row_rank * tesseract_dim)%Z);
      SigReduce col_parallel_mode (address (col_rank + i * tesseract_dim)%Z)]).
Proof.
  unfold result_of, Matmul_ATB_2p5D_forward. intros Hrun. pure_ok Hrun.
  rewrite sigs_bind_silent.
  2:{ intros C. apply pure_bind; [apply quiet_pure; auto with quiet|done]. }
  apply result_bind_inv in Hrun as (C' & ? & Hloop & _).
  eapply sigs_loop_ok; [|exact Hloop]. intros i C n.
  rewrite Matmul_ATB_loop_body_calls.
  apply (sigs_broadcast_reduce o n _ _ _ _ _
           (λ x, torch_transpose x 0 1) (λ A_t, torch_matmul A_t _)
           (λ z, if bool_decide (i = row_rank) then clone z else C));
    intros ?; apply quiet_pure; auto with quiet.
Qed.

Lemma Matmul_AB_forward_sigs_ok (r : Tensor * option MatmulCtx) :
  result_of o
    (Matmul_AB_2p5D_forward ctx A B tesseract_dim out_shape row_rank col_rank dep_rank
       row_parallel_mode col_parallel_mode data_parallel_rank pipeline_parallel_rank
       pipeline_parallel_size tensor_parallel_size) = inr r →
  sigs o 0
    (Matmul_AB_2p5D_forward ctx A B tesseract_dim out_shape row_rank col_rank dep_rank
       row_parallel_mode col_parallel_mode data_parallel_rank pipeline_parallel_rank
       pipeline_parallel_size tensor_parallel_size)
  = [SigAllGather row_parallel_mode; SigAllGather col_parallel_mode].
Proof.
  unfold result_of, Matmul_AB_2p5D_forward. intros Hrun. pure_ok Hrun.
  unfold dist_all_gather. prog_simpl. unfold sigs. cbn [run_with fst fmap list_fmap].
  do 2 f_equal.
  match goal with |- _ <$> (run_with _ _ ?p).1 = _ => assert (pure p) as Hp end.
  { apply pure_bind.
    - unfold for_range. generalize (py_range tesseract_dim). intros l.
      match goal with |- pure (for_each l ?b ?c) => generalize c end.
      induction l as [|i l IH]; intros c; [done|].
      cbn [for_each]. apply pure_bind; [|done].
      unfold Matmul_AB_2p5D_loop_body. cbv zeta.
      repeat first [ solve [apply quiet_pure; auto with quiet]
                   | apply pure_bind; [|intros ?] ].
    - intros C. apply pure_bind; [apply quiet_pure; auto with quiet|done]. }
  by destruct (pure_inv _ Hp) as [[? ->]|[? ->]].
Qed.
End Traces.

(* ================================================================= *)
(** ** Multi-indices *)

Lemma ravel_bound (s mi : list nat) : in_bounds mi s → ravel s mi < size_prod s.
Proof.
  intros H. induction H as [|i n mi s Hi _ IH]; cbn; [lia|].
  fold (size_prod s). nia.
Qed.

Lemma unravel_bound (s : list nat) (o : nat) : o < size_prod s → in_bounds (unravel s o) s.
Proof.
  revert o. induction s as [|n s IH]; intros o Ho; cbn; [constructor|].
  cbn in Ho. fold (size_prod s) in Ho.
  assert (0 < size_prod s) by nia.
  constructor.
  - apply Nat.Div0.div_lt_upper_bound. lia.
  - apply IH. by apply Nat.mod_upper_bound, Nat.neq_0_lt_0.
Qed.

Lemma ravel_unravel (s : list nat) (o : nat) : o < size_prod s → ravel s (unravel s o) = o.
Proof.
  revert o. induction s as [|n s IH]; intros o Ho; cbn in *; [lia|].
  fold (size_prod s) in *.
  assert (0 < size_prod s) by nia.
  rewrite IH by (by apply Nat.mod_upper_bound, Nat.neq_0_lt_0).
  pose proof (Nat.div_mod_eq o (size_prod s)). lia.
Qed.

Lemma unravel_ravel (s mi : list nat) : in_bounds mi s → unravel s (ravel s mi) = mi.
Proof.
  intros H. induction H as [|i n mi s Hi Hmi IH]; cbn; [done|].
  fold (size_prod s). pose proof (ravel_bound _ _ Hmi) as Hb.
  f_equal.
  - rewrite Nat.div_add_l by lia. rewrite Nat.div_small by done. lia.
  - rewrite Nat.add_comm, Nat.Div0.mod_add, Nat.mod_small by done. done.
Qed.

Lemma length_data_tabulate (s : list nat) (f : list nat → Q) :
  length (data (tabulate s f)) = size_prod s.
Proof. cbn. by rewrite length_fmap, length_seq. Qed.

Lemma flat_get_tabulate (s : list nat) (f : list nat → Q) (o : nat) :
  o < size_prod s → flat_get (tabulate s f) o = f (unravel s o).
Proof.
  intros Ho. unfold flat_get, tabulate. cbn [data].
  rewrite (nth_fmap_seq _ _ _ _ Ho). done.
Qed.

Lemma get_tabulate (s mi : list nat) (f : list nat → Q) :
  in_bounds mi s → get (tabulate s f) mi = f mi.
Proof.
  intros H. unfold get. change (shape (tabulate s f)) with s.
  rewrite flat_get_tabulate by (by apply ravel_bound). by rewrite unravel_ravel.
Qed.

Lemma tabulate_ext (s : list nat) (f g : list nat → Q) :
  (∀ mi, in_bounds mi s → f mi = g mi) → tabulate s f = tabulate s g.
Proof.
  intros H. unfold tabulate. f_equal. apply fmap_seq_ext. intros o Ho.
  apply H. by apply unravel_bound.
Qed.

(** A well-formed tensor is the table of its entries. *)
Lemma tabulate_get (t : Tensor) : well_formed t → tabulate (shape t) (get t) = t.
Proof.
  intros Hwf. destruct t as [s l]. unfold well_formed, numel in Hwf.
  cbn [shape data] in Hwf.
  unfold tabulate. cbn [shape]. f_equal.
  apply list_eq. intros o. rewrite list_lookup_fmap.
  destruct (decide (o < size_prod s)) as [Ho|Ho].
  - rewrite lookup_seq_lt by done. cbn. unfold get, flat_get. cbn [shape data].
    rewrite ravel_unravel by done.
    destruct (l !! o) as [x|] eqn:Hx.
    + f_equal. by apply nth_lookup_Some with (d := 0%Q) in Hx.
    + apply lookup_ge_None in Hx. lia.
  - rewrite lookup_seq_ge by lia. cbn. symmetry. apply lookup_ge_None. lia.
Qed.

(* ================================================================= *)
(** ** Chunks along the first dimension *)

Lemma fmap_nth_seq_take_drop {X : Type} (l : list X) (x0 : X) (a n : nat) :
  a + n ≤ length l →
  (λ o, nth (a + o) l x0) <$> seq 0 n = take n (drop a l).
Proof.
  intros Hl. apply list_eq. intros i. rewrite list_lookup_fmap.
  destruct (decide (i < n)) as [Hi|Hi].
  - rewrite lookup_seq_lt by done. cbn.
    rewrite lookup_take_lt by done. rewrite lookup_drop.
    destruct (l !! (a + i)) as [x|] eqn:Hx.
    + f_equal. by apply nth_lookup_Some with (d := x0) in Hx.
    + apply lookup_ge_None in Hx. lia.
  - rewrite lookup_seq_ge by lia. cbn. symmetry. apply lookup_ge_None.
    rewrite length_take, length_drop. lia.
Qed.

(** [narrow] along the first dimension is a slice of the memory. *)
Lemma narrow_first (t : Tensor) (b : nat) (s : list nat) (start len : nat) :
  shape t = b :: s → well_formed t → start + len ≤ b →
  narrow t 0 start len = rows_slice t start len.
Proof.
  intros Hs Hwf Hb. unfold narrow, rows_slice, tabulate. rewrite Hs.
  change (<[0:=len]> (b :: s)) with (len :: s).
  change (drop 1 (b :: s)) with s. f_equal.
  change (size_prod (len :: s)) with (len * size_prod s).
  unfold well_formed, numel in Hwf. rewrite Hs in Hwf.
  change (size_prod (b :: s)) with (b * size_prod s) in Hwf.
  rewrite <- (fmap_nth_seq_take_drop _ 0%Q) by nia.
  apply fmap_seq_ext. intros o Ho.
  assert (0 < size_prod s) as Hpos by nia.
  cbn [unravel alter list_alter]. unfold get, flat_get. rewrite Hs. cbn [ravel].
  rewrite ravel_unravel by (by apply Nat.mod_upper_bound, Nat.neq_0_lt_0).
  f_equal. pose proof (Nat.div_mod_eq o (size_prod s)). nia.
Qed.

Lemma norm_dim_0 (n : nat) : 0 < n → norm_dim n 0 = Some 0.
Proof.
  intros Hn. unfold norm_dim.
  assert (((0 <=? 0) && (0 <? Z.of_nat n))%Z = true) as -> by lia. done.
Qed.

(** [t.chunk(d, dim=0)] of a tensor with [b > 0] rows. *)
Lemma torch_chunk_first (t : Tensor) (b : nat) (s : list nat) (d : nat) :
  shape t = b :: s → 0 < d → 0 < b →
  torch_chunk t (Z.of_nat d) 0
  = Ret ((λ j, narrow t 0 (j * ((b + d - 1) / d))
                 (Nat.min ((b + d - 1) / d) (b - j * ((b + d - 1) / d))))
           <$> seq 0 ((b + (b + d - 1) / d - 1) / ((b + d - 1) / d))).
Proof.
  intros Hs Hd Hb. unfold torch_chunk, ndim. rewrite Hs.
  rewrite decide_False by done.
  assert ((Z.of_nat d <=? 0)%Z = false) as -> by lia.
  rewrite norm_dim_0 by (cbn; lia).
  cbv zeta. rewrite Nat2Z.id. cbn [nth].
  rewrite decide_False; [done|]. 
  pose proof (Nat.div_mod_eq (b + d - 1) d).
  pose proof (Nat.mod_upper_bound (b + d - 1) d). nia.
Qed.

Lemma chunk_count (b step r : nat) :
  0 < step → (r < (b + step - 1) / step ↔ r * step < b).
Proof.
  intros Hstep.
  pose proof (Nat.div_mod_eq (b + step - 1) step).
  pose proof (Nat.mod_upper_bound (b + step - 1) step). split; nia.
Qed.

Section SplitForward.
Context `{!GlobalContext}.

(** [SplitFirst.forward] hands the process of local rank [r] the rows
    [r * step ..] of its input, [step = ceil(b / d)] of them or what is
    left; when no row is left for it, indexing the chunks fails. *)
Lemma SplitFirst_forward_rows (inputs : Tensor) (b : nat) (s : list nat) (d r : nat)
    (col_parallel_mode : ParallelMode) :
  shape inputs = b :: s → well_formed inputs → 0 < d → 0 < b →
  get_local_rank col_parallel_mode = Z.of_nat r →
  SplitFirst_forward inputs (Z.of_nat d) col_parallel_mode
  = if decide (r * ((b + d - 1) / d) < b)
    then Ret (rows_slice inputs (r * ((b + d - 1) / d))
                (Nat.min ((b + d - 1) / d) (b - r * ((b + d - 1) / d))),
              {| split_tesseract_dim := Z.of_nat d;
                 split_batch_size := b;
                 split_para_mode := col_parallel_mode |})
    else Raise (IndexError "tuple index out of range").
Proof.
  intros Hs Hwf Hd Hb Hr. unfold SplitFirst_forward, size_at, py_index. rewrite Hs.
  cbn [Z.leb Z.to_nat lookup list_lookup]. prog_simpl.
  rewrite (torch_chunk_first _ b s) by done. prog_simpl.
  rewrite Hr. unfold tuple_get. rewrite py_index_nat, list_lookup_fmap.
  set (step := (b + d - 1) / d).
  assert (0 < step) as Hstep.
  { unfold step. pose proof (Nat.div_mod_eq (b + d - 1) d).
    pose proof (Nat.mod_upper_bound (b + d - 1) d). nia. }
  destruct (decide (r * step < b)) as [Hlt|Hge].
  - rewrite lookup_seq_lt by (by apply chunk_count). cbn.
    rewrite (narrow_first _ b s) by (done || lia). done.
  - rewrite lookup_seq_ge; [done|].
    pose proof (chunk_count b step r Hstep). lia.
Qed.
End SplitForward.

(* ================================================================= *)
(** ** SplitFirst on the grid *)

Lemma torch_empty_nat `{!Allocator} (s : list nat) :
  torch_empty (size_tuple s) = Ret (full s empty_value).
Proof.
  unfold torch_empty.
  assert (existsb (λ x, x <? 0)%Z (size_tuple s) = false) as ->.
  { apply not_true_is_false. intros Hex. apply existsb_exists in Hex as (x & Hx & Hneg).
    pose proof (size_tuple_nonneg s) as Hall. rewrite Forall_forall in Hall.
    apply list_elem_of_In, Hall in Hx. lia. }
  by rewrite size_tuple_to_nat.
Qed.

Lemma shape_narrow_first (t : Tensor) (b : nat) (s : list nat) (start len : nat) :
  shape t = b :: s → shape (narrow t 0 start len) = len :: s.
Proof. intros Hs. unfold narrow. cbn. by rewrite Hs. Qed.

(** The views [t.chunk(d, dim=0)] of a tensor with [d * c] rows. *)
Lemma torch_chunk_even (t : Tensor) (d c : nat) (s : list nat) :
  shape t = (d * c) :: s → 0 < d → 0 < c →
  torch_chunk t (Z.of_nat d) 0 = Ret ((λ j, narrow t 0 (j * c) c) <$> seq 0 d).
Proof.
  intros Hs Hd Hc. rewrite (torch_chunk_first _ (d * c) s) by (done || nia).
  assert ((d * c + d - 1) / d = c) as ->.
  { symmetry. apply Nat.div_unique with (d - 1); lia. }
  assert ((d * c + c - 1) / c = d) as ->.
  { symmetry. apply Nat.div_unique with (c - 1); lia. }
  f_equal. apply fmap_seq_ext. intros j Hj. f_equal. nia.
Qed.

Lemma shape_chunks_even (t : Tensor) (d c : nat) (s : list nat) :
  shape t = (d * c) :: s →
  shape <$> ((λ j, narrow t 0 (j * c) c) <$> seq 0 d) = replicate d (c :: s).
Proof.
  intros Hs. rewrite <- list_fmap_compose.
  apply list_eq. intros j. rewrite list_lookup_fmap.
  destruct (decide (j < d)) as [Hj|Hj].
  - rewrite lookup_seq_lt, lookup_replicate_2 by done. cbn. by rewrite Hs.
  - rewrite lookup_seq_ge by lia. cbn. symmetry. apply lookup_replicate_None. lia.
Qed.

Lemma concat_slices {X : Type} (l : list X) (d L : nat) :
  length l = d * L →
  concat ((λ r, take L (drop (r * L) l)) <$> seq 0 d) = l.
Proof.
  revert l. induction d as [|d IH]; intros l Hl.
  - destruct l; [done|]. cbn in Hl. lia.
  - rewrite seq_S, fmap_app, concat_app. cbn [fmap list_fmap concat]. rewrite app_nil_r.
    cbn [Nat.add].
    transitivity (take (d * L) l ++ drop (d * L) l); [|apply take_drop]. f_equal.
    + rewrite <- (IH (take (d * L) l)) by (rewrite length_take; nia).
      f_equal. apply fmap_seq_ext. intros r Hr.
      apply list_eq. intros i. destruct (decide (i < L)) as [Hi|Hi].
      * rewrite !lookup_take_lt, !lookup_drop by done. rewrite lookup_take_lt by nia. done.
      * by rewrite !lookup_take_ge by lia.
    + apply take_ge. rewrite length_drop. nia.
Qed.

Lemma shape_group (d : nat) (g : ParallelMode) (p : nat) (t : nat → Tensor) (s : list nat) :
  p < d * d → (∀ q, q < d * d → shape (t q) = s) →
  shape <$> (t <$> group_members d g p) = replicate d s.
Proof.
  intros Hp Ht. rewrite <- (length_group_members d g p) at 2.
  pose proof (group_members_bound d g p) as Hb.
  induction (group_members d g p) as [|q ms IH]; [done|].
  csimpl. rewrite Ht by (apply Hb; [done|by left]). f_equal.
  apply IH. intros q' Hp' Hq'. apply Hb; [done|by right].
Qed.

Section SplitBackward.
Context `{!Allocator}.
Variables (d c : nat) (s : list nat) (offset : Z) (scratch : nat → Tensor → list Q).

Lemma SplitFirst_backward_calls (g : Tensor) :
  shape g = c :: s → 0 < d → 0 < c →
  SplitFirst_backward
    {| split_tesseract_dim := Z.of_nat d;
       split_batch_size := d * c;
       split_para_mode := PARALLEL_2P5D_COL |} g
  = AllGather PARALLEL_2P5D_COL
      ((λ j, narrow (full ((d * c) :: s) empty_value) 0 (j * c) c) <$> seq 0 d) g
      (λ parts, mret [Some (written_through_chunks (full ((d * c) :: s) empty_value) parts);
                      None; None]).
Proof.
  intros Hg Hd Hc. unfold SplitFirst_backward. cbn [split_batch_size split_tesseract_dim
    split_para_mode]. rewrite Hg. cbn [drop].
  change (drop 0 s) with s.
  change (Z.of_nat (d * c) :: size_tuple s) with (size_tuple ((d * c) :: s)).
  rewrite torch_empty_nat. prog_simpl.
  rewrite (torch_chunk_even _ d c s) by done. prog_simpl. reflexivity.
Qed.

(** On the grid, the backward returns the output gradients of the column
    group, one after the other along the first dimension. *)
Lemma SplitFirst_backward_grid (grad : nat → Tensor) :
  0 < d → 0 < c → (∀ p, p < d * d → shape (grad p) = c :: s) →
  run_grid d offset scratch 1 (launch d (SplitFirst_backward_process d (d * c) grad))
  = Some ((λ p, inr [Some (mkTensor ((d * c) :: s)
                             (concat (data <$> (grad <$> group_members d PARALLEL_2P5D_COL p))));
                     None; None])
            <$> seq 0 (d * d)).
Proof.
  intros Hd Hc Hgrad. unfold launch, SplitFirst_backward_process.
  rewrite run_grid_waiting; [|nia|].
  2:{ rewrite SplitFirst_backward_calls; [done|apply Hgrad; nia|done..]. }
  erewrite (step_all_gather d offset scratch _ PARALLEL_2P5D_COL _ grad); cycle 1.
  { intros p Hp. by apply SplitFirst_backward_calls; [apply Hgrad|..]. }
  { intros p Hp. cbv beta. rewrite (shape_chunks_even _ d c s) by done.
    by rewrite (shape_group d _ p grad (c :: s)). }
  erewrite fmap_seq_ext; [apply run_grid_returned|].
  intros p Hp. reflexivity.
Qed.

(** Splitting a tensor that every process of a column holds and gathering
    the pieces again gives the tensor back on every process. *)
Lemma SplitFirst_round_trip_grid (x : nat → Tensor) :
  0 < d → 0 < c →
  (∀ j, j < d → shape (x j) = (d * c) :: s ∧ well_formed (x j)) →
  run_grid d offset scratch 1 (launch d (SplitFirst_round_trip d x))
  = Some ((λ p, inr [Some (x (col_of d p)); None; None]) <$> seq 0 (d * d)).
Proof.
  intros Hd Hc Hx.
  set (piece := λ p, rows_slice (x (col_of d p)) (row_of d p * c) c).
  assert (∀ p, p < d * d → shape (piece p) = c :: s) as Hpiece.
  { intros p Hp. destruct (row_col_bound d p Hp) as [_ Hcol].
    unfold piece, rows_slice. cbn [shape]. by rewrite (proj1 (Hx _ Hcol)). }
  unfold launch at 1.
  rewrite (fmap_seq_ext (λ p, SplitFirst_round_trip d x p (grid_gpc d p))
             (λ p, SplitFirst_backward_process d (d * c) piece p (grid_gpc d p))).
  2:{ intros p Hp. destruct (row_col_bound d p Hp) as [Hrow Hcol].
      destruct (Hx _ Hcol) as [Hs Hwf].
      unfold SplitFirst_round_trip.
      rewrite (SplitFirst_forward_rows (H := grid_gpc d p) _ (d * c) s d
                 (row_of d p)) by (done || nia).
      assert ((d * c + d - 1) / d = c) as ->.
      { symmetry. apply Nat.div_unique with (d - 1); lia. }
      rewrite decide_True by nia. prog_simpl.
      replace (Nat.min c (d * c - row_of d p * c)) with c by nia. done. }
  change ((λ p, SplitFirst_backward_process d (d * c) piece p (grid_gpc d p)) <$> seq 0 (d * d))
    with (launch d (SplitFirst_backward_process d (d * c) piece)).
  rewrite (SplitFirst_backward_grid piece Hd Hc Hpiece). f_equal.
  apply fmap_seq_ext. intros p Hp. destruct (row_col_bound d p Hp) as [Hrow Hcol].
  destruct (Hx _ Hcol) as [Hs Hwf].
  do 3 f_equal. rewrite group_members_fmap.
  rewrite <- list_fmap_compose.
  rewrite (fmap_seq_ext _ (λ r, take (c * size_prod s)
                                  (drop (r * (c * size_prod s)) (data (x (col_of d p)))))).
  2:{ intros r Hr. cbn [compose]. unfold piece, rows_slice. cbn [data].
      destruct (row_col_of d r (col_of d p) Hcol) as [-> ->].
      rewrite Hs. change (drop 1 (d * c :: s)) with s. f_equal. f_equal. lia. }
  rewrite concat_slices.
  - destruct (x (col_of d p)) as [sx dx]. cbn in Hs. by rewrite Hs.
  - unfold well_formed, numel in Hwf. rewrite Hwf, Hs. cbn. fold (size_prod s). lia.
Qed.
End SplitBackward.

(* ================================================================= *)
(** ** Permutations and chunks along the last dimension *)

Lemma in_bounds_3 (mi : list nat) (a b c : nat) :
  in_bounds mi [a; b; c] → ∃ i j l, mi = [i; j; l] ∧ i < a ∧ j < b ∧ l < c.
Proof.
  intros H. inversion H as [|i ? mi1 ? Hi H1]; subst.
  inversion H1 as [|j ? mi2 ? Hj H2]; subst.
  inversion H2 as [|l ? mi3 ? Hl H3]; subst.
  inversion H3; subst. eauto 10.
Qed.

Lemma in_bounds_3_intro (i j l a b c : nat) :
  i < a → j < b → l < c → in_bounds [i; j; l] [a; b; c].
Proof. intros. repeat constructor; done. Qed.

Lemma NoDup_3 (x y z : nat) : x ≠ y → x ≠ z → y ≠ z → NoDup [x; y; z].
Proof.
  intros Hxy Hxz Hyz. repeat constructor.
  - intros [->|[->|[]%elem_of_nil]%elem_of_cons]%elem_of_cons; done.
  - intros [->|[]%elem_of_nil]%elem_of_cons; done.
  - by intros ?%elem_of_nil.
Qed.

(** [t.permute(2, 0, 1)] and [t.permute(1, 2, 0)] of a tensor with three
    dimensions. *)
Lemma torch_permute_201 (t : Tensor) (a b c : nat) :
  shape t = [a; b; c] →
  torch_permute t [2; 0; 1]%Z
  = Ret (tabulate [c; a; b]
           (λ mi, match mi with [z; i; j] => get t [i; j; z] | _ => 0%Q end)).
Proof.
  intros Hs. unfold torch_permute, ndim. rewrite Hs.
  cbn [length]. rewrite decide_True by done.
  change (mapM (norm_dim 3) [2; 0; 1]%Z) with (Some [2; 0; 1]). cbv beta iota.
  destruct (decide (NoDup [2; 0; 1])) as [_|Hnd].
  2:{ exfalso. apply Hnd. by apply NoDup_3. }
  reflexivity.
Qed.

Lemma torch_permute_120 (t : Tensor) (a b c : nat) :
  shape t = [a; b; c] →
  torch_permute t [1; 2; 0]%Z
  = Ret (tabulate [b; c; a]
           (λ mi, match mi with [i; j; z] => get t [z; i; j] | _ => 0%Q end)).
Proof.
  intros Hs. unfold torch_permute, ndim. rewrite Hs.
  cbn [length]. rewrite decide_True by done.
  change (mapM (norm_dim 3) [1; 2; 0]%Z) with (Some [1; 2; 0]). cbv beta iota.
  destruct (decide (NoDup [1; 2; 0])) as [_|Hnd].
  2:{ exfalso. apply Hnd. by apply NoDup_3. }
  reflexivity.
Qed.

(** Entry [o] of block [q] of a concatenation of blocks of length [L]. *)
Lemma nth_concat_blocks {X : Type} (ls : list (list X)) (L q o : nat) (x0 : X) :
  Forall (λ l, length l = L) ls → o < L →
  nth (q * L + o) (concat ls) x0 = nth o (nth q ls []) x0.
Proof.
  intros Hls Ho. revert q. induction Hls as [|l ls Hl _ IH]; intros q.
  - cbn [concat]. by destruct (q * L + o), q, o.
  - destruct q as [|q]; cbn [concat nth].
    + cbn [Nat.mul Nat.add]. by rewrite app_nth1 by lia.
    + rewrite app_nth2 by lia. rewrite <- IH. f_equal. lia.
Qed.

Lemma norm_dim_last (n : nat) : 0 < n → norm_dim n (-1) = Some (n - 1).
Proof.
  intros Hn. unfold norm_dim.
  assert (((0 <=? -1) && (-1 <? Z.of_nat n))%Z = false) as -> by lia.
  assert (((- Z.of_nat n <=? -1) && (-1 <? 0))%Z = true) as -> by lia.
  f_equal. lia.
Qed.

Lemma size_at_last_3 (t : Tensor) (a b c : nat) :
  shape t = [a; b; c] → size_at t (-1) = Ret c.
Proof. intros Hs. unfold size_at, py_index. by rewrite Hs. Qed.

Section Gathering.
Context `{!GlobalContext, !Allocator}.

Lemma AllGatherLast_forward_calls (x : Tensor) (a b c d : nat) :
  shape x = [a; b; c] → 0 < d → 0 < c →
  AllGatherLast_forward x (Z.of_nat d) PARALLEL_2P5D_COL
  = AllGather PARALLEL_2P5D_COL
      ((λ j, narrow (full [d * c; a; b] empty_value) 0 (j * c) c) <$> seq 0 d)
      (tabulate [c; a; b] (λ mi, match mi with [z; i; j] => get x [i; j; z] | _ => 0%Q end))
      (λ parts,
         outputs ← torch_permute
                     (written_through_chunks (full [d * c; a; b] empty_value) parts)
                     [1; 2; 0]%Z;
         mret (contiguous outputs,
               {| gather_tesseract_dim := Z.of_nat d;
                  gather_row_rank := get_local_rank PARALLEL_2P5D_COL |})).
Proof.
  intros Hs Hd Hc. unfold AllGatherLast_forward, ndim.
  rewrite (size_at_last_3 _ a b c Hs), Hs. prog_simpl.
  change (take (length [a; b; c] - 1) [a; b; c]) with [a; b].
  change ((Z.of_nat d * Z.of_nat c)%Z :: size_tuple [a; b])
    with ((Z.of_nat d * Z.of_nat c)%Z :: Z.of_nat a :: Z.of_nat b :: []).
  rewrite <- Nat2Z.inj_mul.
  change (Z.of_nat (d * c) :: Z.of_nat a :: Z.of_nat b :: [])
    with (size_tuple [d * c; a; b]).
  rewrite torch_empty_nat. prog_simpl.
  rewrite (torch_chunk_even _ d c [a; b]) by done. prog_simpl.
  rewrite (torch_permute_201 _ a b c Hs). prog_simpl. reflexivity.
Qed.
End Gathering.

(* ================================================================= *)
(** ** AllGatherLast in lock step *)

Lemma size_prod_3 (a b c : nat) : size_prod [a; b; c] = a * (b * c).
Proof. cbn. lia. Qed.

Lemma ravel_3 (a b c i j l : nat) : ravel [a; b; c] [i; j; l] = i * (b * c) + j * c + l.
Proof. cbn. lia. Qed.

(** What the all-gather of [AllGatherLast.forward] leaves in the output
    buffer: entry [(z, i, j)] is entry [(z mod c, i, j)] of part [z / c]. *)
Lemma get_written_chunks (buf : Tensor) (parts : list Tensor) (d a b c z i j : nat)
    (F : nat → list nat → Q) :
  shape buf = [d * c; a; b] → length parts = d →
  (∀ q, q < d → parts !! q = Some (tabulate [c; a; b] (F q))) →
  z < d * c → i < a → j < b →
  get (written_through_chunks buf parts) [z; i; j] = F (z / c) [z mod c; i; j].
Proof.
  intros Hbuf Hlen Hparts Hz Hi Hj.
  assert (0 < c) as Hc by nia.
  assert (z / c < d) as Hq by (apply Nat.Div0.div_lt_upper_bound; lia).
  assert (z mod c < c) as Hr by (apply Nat.mod_upper_bound; lia).
  unfold get, written_through_chunks, flat_get. cbn [shape data]. rewrite Hbuf, ravel_3.
  replace (z * (a * b) + i * b + j)
    with (z / c * size_prod [c; a; b] + ravel [c; a; b] [z mod c; i; j]).
  2:{ rewrite size_prod_3, ravel_3. pose proof (Nat.div_mod_eq z c). nia. }
  pose proof (ravel_bound [c; a; b] [z mod c; i; j]
                (in_bounds_3_intro _ _ _ _ _ _ Hr Hi Hj)) as Ho.
  rewrite (nth_concat_blocks _ (size_prod [c; a; b])); [|..|done].
  - assert (nth (z / c) (data <$> parts) [] = data (tabulate [c; a; b] (F (z / c)))) as ->.
    { apply nth_lookup_Some with (d := []). by rewrite list_lookup_fmap, Hparts. }
    fold (flat_get (tabulate [c; a; b] (F (z / c))) (ravel [c; a; b] [z mod c; i; j])).
    rewrite flat_get_tabulate by done.
    by rewrite unravel_ravel by (by apply in_bounds_3_intro).
  - apply Forall_fmap, Forall_lookup. intros q t Hqt. cbn.
    assert (q < d) as Hqd by (rewrite <- Hlen; by eapply lookup_lt_Some).
    rewrite Hparts in Hqt by done. injection Hqt as <-. apply length_data_tabulate.
Qed.

Section GatherGrid.
Context `{!Allocator}.
Variables (d a b c : nat) (offset : Z) (scratch : nat → Tensor → list Q).
Variable x : nat → Tensor.
Hypothesis Hd : 0 < d.
Hypothesis Hc : 0 < c.
Hypothesis Hx : ∀ p, p < d * d → shape (x p) = [a; b; c].

(** On the grid, the forward returns on every process the inputs of its
    column group side by side along the last dimension. *)
Lemma AllGatherLast_forward_lock_steps :
  lock_steps d offset scratch 1 (launch d (AllGatherLast_process d x))
  = Some ((λ p, Ret (gathered_last a b c (x <$> group_members d PARALLEL_2P5D_COL p),
                     {| gather_tesseract_dim := Z.of_nat d;
                        gather_row_rank := Z.of_nat (row_of d p) |}))
            <$> seq 0 (d * d)).
Proof.
  unfold launch, AllGatherLast_process.
  set (permuted := λ p, tabulate [c; a; b]
                          (λ mi, match mi with
                                 | [z; i; j] => get (x p) [i; j; z]
                                 | _ => 0%Q
                                 end)).
  rewrite lock_steps_S.
  2:{ intros p Hp. by rewrite (AllGatherLast_forward_calls _ a b c d) by auto. }
  erewrite (step_all_gather d offset scratch _ PARALLEL_2P5D_COL _ permuted); cycle 1.
  { intros p Hp. by apply (AllGatherLast_forward_calls (H := grid_gpc d p)); auto. }
  { intros p Hp. cbv beta. rewrite (shape_chunks_even _ d c [a; b]) by done.
    by rewrite (shape_group d _ p permuted [c; a; b]). }
  cbn [lock_steps]. f_equal. apply fmap_seq_ext. intros p Hp. cbv beta.
  destruct (row_col_bound d p Hp) as [Hrow Hcol].
  rewrite (torch_permute_120 _ (d * c) a b) by done. prog_simpl.
  unfold contiguous. cbn [grid_gpc get_local_rank]. do 2 f_equal.
  unfold gathered_last. rewrite length_fmap, length_group_members.
  apply tabulate_ext. intros mi Hmi.
  apply in_bounds_3 in Hmi as (i & j & z & -> & Hi & Hj & Hz).
  assert (z / c < d) as Hq by (apply Nat.Div0.div_lt_upper_bound; lia).
  rewrite (get_written_chunks _ _ d a b c z i j
             (λ q mi, match mi with
                      | [z; i; j] =>
                          get (x (default 0 (group_members d PARALLEL_2P5D_COL p !! q))) [i; j; z]
                      | _ => 0%Q
                      end)); try done.
  - rewrite list_lookup_fmap.
    destruct (group_members d PARALLEL_2P5D_COL p !! (z / c)) as [q|] eqn:Hlook; [done|].
    apply lookup_ge_None in Hlook. rewrite length_group_members in Hlook. lia.
  - by rewrite length_fmap, length_group_members.
  - intros q Hqd. rewrite list_lookup_fmap.
    destruct (group_members d PARALLEL_2P5D_COL p !! q) as [m|] eqn:Hlook; [done|].
    apply lookup_ge_None in Hlook. rewrite length_group_members in Hlook. lia.
Qed.
End GatherGrid.

(* ================================================================= *)
(** ** AllGatherLast on the grid *)

(** [t.chunk(d, dim=-1)] of a tensor with three dimensions, the last of
    [d * c] entries. *)
Lemma torch_chunk_last (t : Tensor) (a b c d : nat) :
  shape t = [a; b; d * c] → 0 < d → 0 < c →
  torch_chunk t (Z.of_nat d) (-1) = Ret ((λ j, narrow t 2 (j * c) c) <$> seq 0 d).
Proof.
  intros Hs Hd Hc. unfold torch_chunk, ndim. rewrite Hs.
  rewrite (decide_False (P := length [a; b; d * c] = 0)) by done.
  assert ((Z.of_nat d <=? 0)%Z = false) as -> by lia.
  rewrite norm_dim_last by (cbn; lia). cbn [length Nat.sub].
  cbv zeta. rewrite Nat2Z.id. cbn [nth].
  assert ((d * c + d - 1) / d = c) as ->.
  { symmetry. apply Nat.div_unique with (d - 1); lia. }
  assert ((d * c + c - 1) / c = d) as ->.
  { symmetry. apply Nat.div_unique with (c - 1); lia. }
  rewrite decide_False by lia.
  f_equal. apply fmap_seq_ext. intros j Hj. f_equal. nia.
Qed.

(** [AllGatherLast.backward] keeps the slice of the process along the
    last dimension. *)
Lemma AllGatherLast_backward_slice (g : Tensor) (a b c d r : nat) :
  shape g = [a; b; d * c] → 0 < c → r < d →
  AllGatherLast_backward
    {| gather_tesseract_dim := Z.of_nat d; gather_row_rank := Z.of_nat r |} g
  = Ret [Some (tabulate [a; b; c]
                 (λ mi, match mi with [i; j; l] => get g [i; j; r * c + l] | _ => 0%Q end));
         None; None].
Proof.
  intros Hs Hc Hr. unfold AllGatherLast_backward.
  cbn [gather_tesseract_dim gather_row_rank].
  rewrite (torch_chunk_last _ a b c d) by (done || lia). prog_simpl.
  rewrite (tuple_get_nat _ r (narrow g 2 (r * c) c)).
  2:{ rewrite list_lookup_fmap, lookup_seq_lt by done. done. }
  prog_simpl. unfold contiguous, narrow. rewrite Hs. reflexivity.
Qed.

Section GatherRoundTrip.
Context `{!Allocator}.
Variables (d a b c : nat) (offset : Z) (scratch : nat → Tensor → list Q).
Variable x : nat → Tensor.
Hypothesis Hd : 0 < d.
Hypothesis Hc : 0 < c.
Hypothesis Hx : ∀ p, p < d * d → shape (x p) = [a; b; c] ∧ well_formed (x p).

Lemma AllGatherLast_forward_grid :
  run_grid d offset scratch 1 (launch d (AllGatherLast_process d x))
  = Some ((λ p, inr (gathered_last a b c (x <$> group_members d PARALLEL_2P5D_COL p),
                     {| gather_tesseract_dim := Z.of_nat d;
                        gather_row_rank := Z.of_nat (row_of d p) |}))
            <$> seq 0 (d * d)).
Proof.
  assert (0 < d * d) as HN by nia.
  pose proof (AllGatherLast_forward_lock_steps d a b c offset scratch x Hd Hc
                (λ p Hp, proj1 (Hx p Hp))) as Hrun.
  unfold launch in *.
  etrans; [exact (lock_steps_run_grid _ _ _ 1 0 _ _ _ HN Hrun)|]. apply run_grid_returned.
Qed.

(** Gathering and then taking the gradient slice back gives every
    process its own input. *)
Lemma AllGatherLast_round_trip_grid :
  run_grid d offset scratch 1 (launch d (AllGatherLast_round_trip d x))
  = Some ((λ p, inr [Some (x p); None; None]) <$> seq 0 (d * d)).
Proof.
  assert (0 < d * d) as HN by nia.
  pose proof (AllGatherLast_forward_lock_steps d a b c offset scratch x Hd Hc
                (λ p Hp, proj1 (Hx p Hp))) as Hrun.
  unfold launch in *.
  pose proof (lock_steps_bind d offset scratch
                (λ (_ : nat) '(outputs, ctx), AllGatherLast_backward ctx outputs)
                _ _ _ _ HN Hrun) as Hbind.
  cbv beta iota in Hbind.
  etrans; [exact (lock_steps_run_grid _ _ _ 1 0 _ _ _ HN Hbind)|].
  erewrite fmap_seq_ext; [apply run_grid_returned|].
  intros p Hp. cbv beta. destruct (row_col_bound d p Hp) as [Hrow Hcol].
  destruct (Hx p Hp) as [Hs Hwf].
  rewrite (AllGatherLast_backward_slice _ a b c d (row_of d p)); [|
    by unfold gathered_last; rewrite length_fmap, length_group_members|done..].
  do 3 f_equal.
  transitivity (tabulate (shape (x p)) (get (x p))); [|by apply tabulate_get]. rewrite Hs.
  apply tabulate_ext. intros mi Hmi.
  apply in_bounds_3 in Hmi as (i & j & l & -> & Hi & Hj & Hl).
  unfold gathered_last. rewrite length_fmap, length_group_members.
  rewrite get_tabulate by (apply in_bounds_3_intro; nia).
  rewrite Nat.div_add_l, Nat.div_small, Nat.add_0_r by lia.
  rewrite Nat.add_comm, Nat.Div0.mod_add, Nat.mod_small by done.
  rewrite list_lookup_fmap, group_members_lookup by done. cbn.
  by rewrite row_col_join.
Qed.
End GatherRoundTrip.

(* ================================================================= *)
(** ** The calls of the remaining operations *)

Lemma trace_pure {A : Type} (o : Oracle) (n : nat) (p : Prog A) :
  pure p → (run_with o n p).1 = [].
Proof. by destruct p. Qed.

Lemma sigs_pure {A : Type} (o : Oracle) (n : nat) (p : Prog A) : pure p → sigs o n p = [].
Proof. intros Hp. unfold sigs. by rewrite trace_pure. Qed.

Ltac pure_binds :=
  repeat first [ solve [apply quiet_pure; auto with quiet]
               | done
               | apply pure_bind; [|intros ?] ].

Ltac fold_sigs :=
  match goal with
  | |- context [call_sig <$> (run_with ?o ?n ?p).1] =>
      change (call_sig <$> (run_with o n p).1) with (sigs o n p)
  end.

Section Silent.
Context `{!GlobalContext, !Allocator}.

Lemma pure_LayerNorm_forward (input E_x Var_x : Tensor) (hidden_size : Z)
    (row_parallel_mode : ParallelMode) :
  pure (LayerNorm_2p5D_forward input E_x Var_x hidden_size row_parallel_mode).
Proof. unfold LayerNorm_2p5D_forward, torch_sub, torch_mul. pure_binds. Qed.

Lemma pure_AllGatherLast_backward (ctx : GatherCtx) (g : Tensor) :
  pure (AllGatherLast_backward ctx g).
Proof. unfold AllGatherLast_backward. pure_binds. Qed.

Lemma pure_SplitFirst_forward (inputs : Tensor) (tesseract_dim : Z)
    (col_parallel_mode : ParallelMode) :
  pure (SplitFirst_forward inputs tesseract_dim col_parallel_mode).
Proof. unfold SplitFirst_forward. pure_binds. Qed.

Variable o : Oracle.

Lemma LayerNorm_backward_sigs_ok (ctx : LayerNormCtx) (g : Tensor)
    (grads : list (option Tensor)) :
  result_of o (LayerNorm_2p5D_backward ctx g) = inr grads →
  sigs o 0 (LayerNorm_2p5D_backward ctx g)
  = [SigAllReduce (ln_row_parallel_mode ctx); SigAllReduce (ln_row_parallel_mode ctx)].
Proof.
  unfold result_of, LayerNorm_2p5D_backward. destruct (ln_saved_tensors ctx) as [x Var_x].
  cbv zeta. unfold torch_mul, torch_sub_, torch_mul_. intros Hrun. pure_ok Hrun.
  unfold dist_all_reduce in Hrun |- *. prog_simpl. cbn [mbind mret Prog_bind Prog_ret bind] in Hrun.
  unfold sigs. cbn [run_with fst snd fmap list_fmap] in Hrun |- *. f_equal.
  fold_sigs. pure_ok Hrun.
  unfold dist_all_reduce in Hrun |- *. prog_simpl. cbn [mbind mret Prog_bind Prog_ret bind] in Hrun.
  unfold sigs. cbn [run_with fst snd fmap list_fmap] in Hrun |- *. f_equal.
  fold_sigs. apply sigs_pure. pure_binds.
Qed.

Lemma AllGatherLast_forward_sigs_ok (inputs : Tensor) (tesseract_dim : Z)
    (col_parallel_mode : ParallelMode) (r : Tensor * GatherCtx) :
  result_of o (AllGatherLast_forward inputs tesseract_dim col_parallel_mode) = inr r →
  sigs o 0 (AllGatherLast_forward inputs tesseract_dim col_parallel_mode)
  = [SigAllGather col_parallel_mode].
Proof.
  unfold result_of, AllGatherLast_forward. cbv zeta. intros Hrun. pure_ok Hrun.
  unfold dist_all_gather in Hrun |- *. prog_simpl. cbn [mbind mret Prog_bind Prog_ret bind] in Hrun.
  unfold sigs. cbn [run_with fst snd fmap list_fmap] in Hrun |- *. f_equal.
  fold_sigs. apply sigs_pure. pure_binds.
Qed.

Lemma SplitFirst_backward_sigs_ok (ctx : SplitCtx) (g : Tensor)
    (grads : list (option Tensor)) :
  result_of o (SplitFirst_backward ctx g) = inr grads →
  sigs o 0 (SplitFirst_backward ctx g) = [SigAllGather (split_para_mode ctx)].
Proof.
  unfold result_of, SplitFirst_backward. cbv zeta. intros Hrun. pure_ok Hrun.
  unfold dist_all_gather in Hrun |- *. prog_simpl. cbn [mbind mret Prog_bind Prog_ret bind] in Hrun.
  unfold sigs. cbn [run_with fst snd fmap list_fmap] in Hrun |- *. f_equal.
Qed.
End Silent.

(* ================================================================= *)
(** ** The shape of the bias gradient *)

Lemma omap_imap_dropped (ds : list nat) (s : list nat) (k : nat) :
  (∀ i, i < length s → k + i ∈ ds) →
  omap id (imap (λ i n, if negb (bool_decide (k + i ∈ ds)) then Some n else None) s) = [].
Proof.
  revert k. induction s as [|n s IH]; intros k Hin; [done|].
  cbn [imap]. rewrite Nat.add_0_r.
  rewrite bool_decide_eq_true_2 by (rewrite <- (Nat.add_0_r k); apply Hin; cbn; lia).
  cbn [negb omap list_omap id].
  rewrite <- (IH (S k)).
  - f_equal. apply imap_ext. intros i x _. cbn. by rewrite Nat.add_succ_r.
  - intros i Hi. rewrite Nat.add_succ_l, <- Nat.add_succ_r. apply Hin. cbn. lia.
Qed.

(** The shape of the sum over all dimensions but the last; a tensor with
    one dimension is summed over that dimension. *)
Lemma shape_column_sum_last (t : Tensor) (s : list nat) (a : nat) :
  shape t = s ++ [a] →
  shape (column_sum t) = if decide (s = []) then [] else [a].
Proof.
  intros Hs. unfold column_sum, sum_over, ndim. cbn [shape]. rewrite Hs.
  rewrite length_app. cbn [length].
  replace (length s + 1 - 1) with (length s) by lia.
  destruct (decide (s = [])) as [->|Hne].
  - cbn [length seq]. rewrite decide_True by done. done.
  - rewrite decide_False by (destruct s; done).
    rewrite imap_app, omap_app. cbn [imap omap]. rewrite Nat.add_0_r.
    rewrite bool_decide_eq_false_2 by (rewrite elem_of_seq; lia). cbn [negb id].
    rewrite (imap_ext _ (λ i n, if negb (bool_decide (0 + i ∈ seq 0 (length s)))
                                then Some n else None)) by done.
    rewrite omap_imap_dropped; [done|]. intros i Hi. rewrite elem_of_seq. lia.
Qed.

Section BiasShape.
Variables (d : nat) (grad : nat → Tensor) (skip_bias_add : bool) (s : list nat) (size : nat).

Lemma shape_Bias_gradient (p : nat) :
  shape (grad p) = s ++ [size] →
  ∃ bias_grad,
    Bias_gradients d grad skip_bias_add p
    = (if skip_bias_add then None else Some (grad p))
        :: Some bias_grad :: replicate (if skip_bias_add then 14 else 15) None
    ∧ shape bias_grad
      = if skip_bias_add then s ++ [size] else if decide (s = []) then [] else [size].
Proof.
  intros Hs. unfold Bias_gradients. eexists. split; [done|].
  assert (shape (Bias_reduced grad skip_bias_add p)
          = if skip_bias_add then s ++ [size]
            else if decide (s = []) then [] else [size]) as <-.
  { unfold Bias_reduced. destruct skip_bias_add; [done|]. by apply shape_column_sum_last. }
  by destruct (decide (row_of d p = 0)).
Qed.
End BiasShape.

(* ================================================================= *)
(** ** Flattening the leading dimensions *)

Lemma same_output_bind {A X Y : Type} (p : Prog A) (f : A → Prog (Tensor * X))
    (g : A → Prog (Tensor * Y)) :
  (∀ a, same_output (f a) (g a)) → same_output (p ≫= f) (p ≫= g).
Proof.
  intros Hfg. induction p as [a|e|gr l t k IH|gr s t k IH|gr s t k IH|gr t k IH]; cbn;
    auto.
Qed.

Lemma same_output_run {X Y : Type} (o : Oracle) (p : Prog (Tensor * X))
    (q : Prog (Tensor * Y)) (n : nat) :
  same_output p q →
  (run_with o n p).1 = (run_with o n q).1
  ∧ sum_map id fst (run_with o n p).2 = sum_map id fst (run_with o n q).2.
Proof.
  revert q n. induction p as [a|e|g l t k IH|g s t k IH|g s t k IH|g t k IH];
    intros [b|e'|g' l' t' k'|g' s' t' k'|g' s' t' k'|g' t' k'] n Hpq; cbn in Hpq; try done.
  - cbn. by rewrite Hpq.
  - by subst.
  - destruct Hpq as (-> & -> & -> & Hk). cbn.
    destruct (IH _ _ (S n) (Hk (o n (CallAllGather g' l' t')))) as [-> ->]. done.
  - destruct Hpq as (-> & -> & -> & Hk). cbn.
    destruct (IH _ _ (S n) (Hk (hd t' (o n (CallBroadcast g' s' t'))))) as [-> ->]. done.
  - destruct Hpq as (-> & -> & -> & Hk). cbn.
    destruct (IH _ _ (S n) (Hk (hd t' (o n (CallReduce g' s' t'))))) as [-> ->]. done.
  - destruct Hpq as (-> & -> & Hk). cbn.
    destruct (IH _ _ (S n) (Hk (hd t' (o n (CallAllReduce g' t'))))) as [-> ->]. done.
Qed.

Lemma size_prod_app (s1 s2 : list nat) : size_prod (s1 ++ s2) = size_prod s1 * size_prod s2.
Proof.
  unfold size_prod. induction s1 as [|x s1 IH]; cbn [app foldr]; [lia|]. rewrite IH. lia.
Qed.

Lemma py_index_last {X : Type} (l : list X) (x : X) : py_index (l ++ [x]) (-1) = Some x.
Proof.
  unfold py_index. change (0 <=? -1)%Z with false. cbv iota. rewrite length_app. cbn [length].
  assert ((- Z.of_nat (length l + 1) <=? -1)%Z = true) as -> by lia.
  replace (Z.to_nat (Z.of_nat (length l + 1) + -1)) with (length l) by lia.
  rewrite lookup_app_r by reflexivity. by rewrite Nat.sub_diag.
Qed.

Lemma as_matrix_snoc (t : Tensor) (s : list nat) (h : nat) :
  shape t = s ++ [h] → as_matrix t = mkTensor [size_prod s; h] (data t).
Proof.
  intros Hs. unfold as_matrix. rewrite Hs, removelast_last, last_last. done.
Qed.

(** [t.reshape((-1, h))] of a tensor whose last dimension is [h > 0]. *)
Lemma reshape_as_matrix (t : Tensor) (s : list nat) (h : nat) :
  shape t = s ++ [h] → 0 < h →
  reshape t [(-1)%Z; Z.of_nat h] = Ret (as_matrix t).
Proof.
  intros Hs Hh. rewrite (as_matrix_snoc _ _ _ Hs).
  unfold reshape, numel. rewrite Hs, size_prod_app.
  change (size_prod [h]) with (h * 1). rewrite Nat.mul_1_r. simpl.
  assert ((Z.of_nat h <? -1)%Z = false) as -> by lia.
  destruct (Z.eq_dec (Z.of_nat h) (-1)%Z) as [?|_]; [lia|]. simpl.
  assert ((Z.of_nat h =? -1)%Z = false) as -> by lia.
  rewrite Z.mul_1_r.
  assert ((Z.of_nat h =? 0)%Z = false) as -> by lia.
  assert ((Z.of_nat (size_prod s * h) mod Z.of_nat h =? 0)%Z = true) as ->.
  { rewrite Nat2Z.inj_mul, Z.mod_mul by lia. done. }
  f_equal. f_equal.
  rewrite Nat2Z.inj_mul, Z.div_mul by lia. by rewrite !Nat2Z.id.
Qed.

Lemma shape_as_matrix (t : Tensor) (s : list nat) (h : nat) :
  shape t = s ++ [h] → shape (as_matrix t) = [size_prod s; h].
Proof. intros Hs. by rewrite (as_matrix_snoc _ _ _ Hs). Qed.

Lemma shape_at_Some (t : Tensor) (i : Z) (n : nat) :
  py_index (shape t) i = Some n → shape_at t i = Ret n.
Proof. intros H. unfold shape_at. by rewrite H. Qed.

Section Flatten.
Context {gpc : GlobalContext} {alloc : Allocator}.
Variables (ctx : bool) (A B : Tensor) (s : list nat) (h : nat).
Variables (tesseract_dim : Z) (out_shape : list Z) (row_rank col_rank dep_rank : Z).
Variables (row_parallel_mode col_parallel_mode : ParallelMode).
Variables (dp pp pps tps : Z).
Hypothesis HA : shape A = s ++ [h].
Hypothesis Hh : 0 < h.

Lemma Matmul_AB_same_output :
  py_index (shape B) (-2) = Some h →
  same_output
    (Matmul_AB_2p5D_forward ctx A B tesseract_dim out_shape row_rank col_rank dep_rank
       row_parallel_mode col_parallel_mode dp pp pps tps)
    (Matmul_AB_2p5D_forward ctx (as_matrix A) B tesseract_dim out_shape row_rank col_rank
       dep_rank row_parallel_mode col_parallel_mode dp pp pps tps).
Proof.
  intros HB. unfold Matmul_AB_2p5D_forward.
  rewrite (shape_at_Some A (-1) h) by (rewrite HA; apply py_index_last).
  rewrite (shape_at_Some (as_matrix A) (-1) h) by (by rewrite (shape_as_matrix _ _ _ HA)).
  rewrite (shape_at_Some B _ h HB).
  cbn [mbind mret Prog_bind Prog_ret bind]. rewrite bool_decide_eq_true_2 by done.
  cbn [py_assert mbind mret Prog_bind Prog_ret bind].
  rewrite (reshape_as_matrix _ _ _ HA Hh).
  rewrite (reshape_rows (as_matrix A) (size_prod s) h) by (by apply shape_as_matrix || done).
  cbn [mbind mret Prog_bind Prog_ret bind].
  repeat (apply same_output_bind; intros ?).
  reflexivity.
Qed.

Lemma Matmul_ABT_same_output :
  py_index (shape B) (-1) = Some h →
  same_output
    (Matmul_ABT_2p5D_forward ctx A B tesseract_dim out_shape row_rank col_rank dep_rank
       row_parallel_mode col_parallel_mode dp pp pps tps)
    (Matmul_ABT_2p5D_forward ctx (as_matrix A) B tesseract_dim out_shape row_rank col_rank
       dep_rank row_parallel_mode col_parallel_mode dp pp pps tps).
Proof.
  intros HB. unfold Matmul_ABT_2p5D_forward.
  rewrite (shape_at_Some A (-1) h) by (rewrite HA; apply py_index_last).
  rewrite (shape_at_Some (as_matrix A) (-1) h) by (by rewrite (shape_as_matrix _ _ _ HA)).
  rewrite (shape_at_Some B _ h HB).
  cbn [mbind mret Prog_bind Prog_ret bind]. rewrite bool_decide_eq_true_2 by done.
  cbn [py_assert mbind mret Prog_bind Prog_ret bind].
  rewrite (reshape_as_matrix _ _ _ HA Hh).
  rewrite (reshape_rows (as_matrix A) (size_prod s) h) by (by apply shape_as_matrix || done).
  cbn [mbind mret Prog_bind Prog_ret bind].
  repeat (apply same_output_bind; intros ?).
  reflexivity.
Qed.

End Flatten.

(* ================================================================= *)
(** * The claims *)

(** C1: on a [d] by [d] grid with [d > 0] (so for [d] in {1, 2, 4}), each
    process holding its tiles of the dense matrices, the forward of
    [Matmul_AB_2p5D] returns on every process, and the tiles it returns,
    assembled, are the dense product [A · B]; the forwards of
    [Matmul_ABT_2p5D] and [Matmul_ATB_2p5D] return the tiles of [A · Bᵗ]
    and of [Aᵗ · B].  Entries are rationals, so the equality is exact. *)
Theorem tiled_products_equal_dense `{!Allocator} (d m k n : nat)
    (A B_AB B_ABT B_ATB : Tensor)
    (dep_rank data_parallel_rank pipeline_parallel_rank pipeline_parallel_size
       tensor_parallel_size : Z) (ctx : bool) (scratch : nat → Tensor → list Q) :
  0 < d → 0 < m → 0 < k → 0 < n →
  shape A = [d * m; d * k] →
  shape B_AB = [d * k; d * n] → shape B_ABT = [d * n; d * k] → shape B_ATB = [d * m; d * n] →
  (∃ outs,
      run_grid d (slice_offset (Z.of_nat d) dep_rank data_parallel_rank
                    pipeline_parallel_rank pipeline_parallel_size tensor_parallel_size)
        scratch 2
        (launch d (AB_process d m k n A B_AB dep_rank data_parallel_rank
                     pipeline_parallel_rank pipeline_parallel_size tensor_parallel_size ctx))
      = Some (inr <$> outs)
      ∧ torch_matmul A B_AB = Ret (assemble d m n (outs.*1)))
  ∧ (∃ outs,
      run_grid d (slice_offset (Z.of_nat d) dep_rank data_parallel_rank
                    pipeline_parallel_rank pipeline_parallel_size tensor_parallel_size)
        scratch (2 * d)
        (launch d (ABT_process d m n k A B_ABT dep_rank data_parallel_rank
                     pipeline_parallel_rank pipeline_parallel_size tensor_parallel_size ctx))
      = Some (inr <$> outs)
      ∧ (B_t ← torch_transpose B_ABT 0 1; torch_matmul A B_t)
        = Ret (assemble d m n (outs.*1)))
  ∧ (∃ outs,
      run_grid d (slice_offset (Z.of_nat d) dep_rank data_parallel_rank
                    pipeline_parallel_rank pipeline_parallel_size tensor_parallel_size)
        scratch (2 * d)
        (launch d (ATB_process d m k n A B_ATB dep_rank data_parallel_rank
                     pipeline_parallel_rank pipeline_parallel_size tensor_parallel_size ctx))
      = Some (inr <$> outs)
      ∧ (A_t ← torch_transpose A 0 1; torch_matmul A_t B_ATB)
        = Ret (assemble d k n (outs.*1))).
Proof.
  intros Hd Hm Hk Hn HA HAB HABT HATB. split_and!.
  - eexists. split.
    + rewrite Matmul_AB_grid_run by done. apply (f_equal Some), fmap_inr.
    + rewrite <- list_fmap_compose. by apply assemble_AB.
  - eexists. split.
    + rewrite Matmul_ABT_grid_run by done. apply (f_equal Some), fmap_inr.
    + rewrite <- list_fmap_compose. by apply assemble_ABT.
  - eexists. split.
    + rewrite Matmul_ATB_grid_run by done. apply (f_equal Some), fmap_inr.
    + rewrite <- list_fmap_compose. by apply assemble_ATB.
Qed.

Lemma tiled_products_equal_dense_witness :
  (∃ outs,
      run_grid 2 (slice_offset 2 1 0 0 1 8) untouched 2
        (launch 2 (@AB_process sevens 2 1 1 1 square_1234 square_5678
                     1 0 0 1 8 false))
      = Some (inr <$> outs)
      ∧ torch_matmul square_1234 square_5678 = Ret (assemble 2 1 1 (outs.*1)))
  ∧ (∃ outs,
      run_grid 2 (slice_offset 2 1 0 0 1 8) untouched 4
        (launch 2 (@ABT_process sevens 2 1 1 1 square_1234 square_5678
                     1 0 0 1 8 false))
      = Some (inr <$> outs)
      ∧ (B_t ← torch_transpose square_5678 0 1; torch_matmul square_1234 B_t)
        = Ret (assemble 2 1 1 (outs.*1)))
  ∧ (∃ outs,
      run_grid 2 (slice_offset 2 1 0 0 1 8) untouched 4
        (launch 2 (@ATB_process sevens 2 1 1 1 square_1234 square_5678
                     1 0 0 1 8 false))
      = Some (inr <$> outs)
      ∧ (A_t ← torch_transpose square_1234 0 1; torch_matmul A_t square_5678)
        = Ret (assemble 2 1 1 (outs.*1))).
Proof.
  apply (@tiled_products_equal_dense sevens 2 1 1 1
           square_1234 square_5678 square_5678 square_5678 1 0 0 1 8 false untouched);
    first [lia | reflexivity].
Defined.

(** C2: whenever a forward of one of the three products has returned and
    left its context [c], the backward run on [c] calls the sibling
    products through [apply], with the operands in the order of the spec
    and the saved shapes and grid arguments as the forward received them:
    for [Matmul_AB_2p5D], [ABT(grad, B)] and [ATB(A, grad)]; for
    [Matmul_ABT_2p5D], [AB(grad, B)] and [ATB(grad, A)]; for
    [Matmul_ATB_2p5D], [ABT(B, grad)] and [AB(A, grad)]. *)
Theorem backward_calls_siblings `{!GlobalContext, !Allocator} (o : Oracle) (A B : Tensor)
    (tesseract_dim : Z) (out_shape : list Z) (row_rank col_rank dep_rank : Z)
    (row_parallel_mode col_parallel_mode : ParallelMode)
    (data_parallel_rank pipeline_parallel_rank pipeline_parallel_size
       tensor_parallel_size : Z)
    (out : Tensor) (c : MatmulCtx) (output_grad : Tensor) :
  (result_of o (Matmul_AB_2p5D_forward true A B tesseract_dim out_shape row_rank col_rank
                  dep_rank row_parallel_mode col_parallel_mode data_parallel_rank
                  pipeline_parallel_rank pipeline_parallel_size tensor_parallel_size)
   = inr (out, Some c) →
   Matmul_AB_2p5D_backward c output_grad
   = (A_grad ← Matmul_ABT_2p5D_apply output_grad B tesseract_dim (size_tuple (shape A))
                 row_rank col_rank dep_rank row_parallel_mode col_parallel_mode
                 data_parallel_rank pipeline_parallel_rank pipeline_parallel_size
                 tensor_parallel_size;
      B_grad ← Matmul_ATB_2p5D_apply A output_grad tesseract_dim (size_tuple (shape B))
                 row_rank col_rank dep_rank row_parallel_mode col_parallel_mode
                 data_parallel_rank pipeline_parallel_rank pipeline_parallel_size
                 tensor_parallel_size;
      mret (Some A_grad :: Some B_grad :: replicate 13 None)))
  ∧ (result_of o (Matmul_ABT_2p5D_forward true A B tesseract_dim out_shape row_rank col_rank
                    dep_rank row_parallel_mode col_parallel_mode data_parallel_rank
                    pipeline_parallel_rank pipeline_parallel_size tensor_parallel_size)
     = inr (out, Some c) →
     Matmul_ABT_2p5D_backward c output_grad
     = (A_grad ← Matmul_AB_2p5D_apply output_grad B tesseract_dim (size_tuple (shape A))
                   row_rank col_rank dep_rank row_parallel_mode col_parallel_mode
                   data_parallel_rank pipeline_parallel_rank pipeline_parallel_size
                   tensor_parallel_size;
        B_grad ← Matmul_ATB_2p5D_apply output_grad A tesseract_dim (size_tuple (shape B))
                   row_rank col_rank dep_rank row_parallel_mode col_parallel_mode
                   data_parallel_rank pipeline_parallel_rank pipeline_parallel_size
                   tensor_parallel_size;
        mret (Some A_grad :: Some B_grad :: replicate 13 None)))
  ∧ (result_of o (Matmul_ATB_2p5D_forward true A B tesseract_dim out_shape row_rank col_rank
                    dep_rank row_parallel_mode col_parallel_mode data_parallel_rank
                    pipeline_parallel_rank pipeline_parallel_size tensor_parallel_size)
     = inr (out, Some c) →
     Matmul_ATB_2p5D_backward c output_grad
     = (A_grad ← Matmul_ABT_2p5D_apply B output_grad tesseract_dim (size_tuple (shape A))
                   row_rank col_rank dep_rank row_parallel_mode col_parallel_mode
                   data_parallel_rank pipeline_parallel_rank pipeline_parallel_size
                   tensor_parallel_size;
        B_grad ← Matmul_AB_2p5D_apply A output_grad tesseract_dim (size_tuple (shape B))
                   row_rank col_rank dep_rank row_parallel_mode col_parallel_mode
                   data_parallel_rank pipeline_parallel_rank pipeline_parallel_size
                   tensor_parallel_size;
        mret (Some A_grad :: Some B_grad :: replicate 13 None))).
Proof.
  split_and!; intros Hrun.
  - apply Matmul_AB_forward_ctx in Hrun. by injection Hrun as ->.
  - apply Matmul_ABT_forward_ctx in Hrun. by injection Hrun as ->.
  - apply Matmul_ATB_forward_ctx in Hrun. by injection Hrun as ->.
Qed.

Lemma backward_calls_siblings_witness :
  ∃ out c,
    result_of alone
      (Matmul_AB_2p5D_forward (gpc := alone_gpc) (alloc := sevens) true square_1234 square_5678 1
         [2; 2]%Z 0 0 0 PARALLEL_2P5D_ROW PARALLEL_2P5D_COL 0 0 1 1)
    = inr (out, Some c)
    ∧ Matmul_AB_2p5D_backward (alloc := sevens) c ones11
      = (A_grad ← Matmul_ABT_2p5D_apply (alloc := sevens) ones11 square_5678 1
                    [2; 2]%Z 0 0 0 PARALLEL_2P5D_ROW PARALLEL_2P5D_COL 0 0 1 1;
         B_grad ← Matmul_ATB_2p5D_apply (alloc := sevens) square_1234 ones11 1
                    [2; 2]%Z 0 0 0 PARALLEL_2P5D_ROW PARALLEL_2P5D_COL 0 0 1 1;
         mret (Some A_grad :: Some B_grad :: replicate 13 None)).
Proof.
  eexists _, _.
  match goal with
  | |- ?P ∧ _ => assert P as Hrun by (vm_compute; reflexivity)
  end.
  split; [exact Hrun|].
  exact (proj1 (@backward_calls_siblings alone_gpc sevens alone
                  square_1234 square_5678 1 [2; 2]%Z 0 0 0
                  PARALLEL_2P5D_ROW PARALLEL_2P5D_COL 0 0 1 1 _ _ ones11) Hrun).
Defined.

(** C3, as the code has it: at iteration [i] of the accumulation loop of
    [Matmul_AB_2p5D.forward], with [0 <= i < tesseract_dim], the tiles
    multiplied and added into [C] are [A_list[i]] and [B_list[i]]: the
    indices [(i + tesseract_dim * row_rank) mod tesseract_dim] and
    [(i + tesseract_dim * col_rank) mod tesseract_dim] of the source do not
    depend on the ranks. *)
Theorem Matmul_AB_loop_index (A_list B_list : list Tensor)
    (tesseract_dim row_rank col_rank : Z) (i : Z) (C : Tensor) :
  (0 <= i < tesseract_dim)%Z →
  Matmul_AB_2p5D_loop_body A_list B_list tesseract_dim row_rank col_rank i C
  = (A_temp ← list_get A_list i; B_temp ← list_get B_list i; torch_addmm C A_temp B_temp).
Proof.
  intros Hi. unfold Matmul_AB_2p5D_loop_body. cbv zeta.
  rewrite !(Z.mul_comm tesseract_dim), !Z_mod_plus_full, Z.mod_small by done. done.
Qed.

Lemma Matmul_AB_loop_index_witness :
  (0 <= 0 < 2)%Z
  ∧ Matmul_AB_2p5D_loop_body [ones11; zeros11] [ones11; zeros11] 2 1 0 0 zeros11
    = (A_temp ← list_get [ones11; zeros11] 0%Z; B_temp ← list_get [ones11; zeros11] 0%Z;
       torch_addmm zeros11 A_temp B_temp).
Proof. split; [lia|]. apply Matmul_AB_loop_index. lia. Defined.

(** C3, as the spec words it, fails: on the process at row 1 and column 0
    of a grid with [tesseract_dim = 2], holding the gathered tiles
    [[1]], [[0]] of both matrices, the loop of the source ends with
    [1·1 + 0·0], while a loop over the tiles [(i + row_rank) mod 2] and
    [(i + col_rank) mod 2] would end with [0·1 + 1·0]. *)
Lemma Matmul_AB_loop_not_shifted :
  for_each (py_range 2)
    (Matmul_AB_2p5D_loop_body [ones11; zeros11] [ones11; zeros11] 2 1 0) zeros11
  = Ret ones11
  ∧ for_each (py_range 2)
      (Matmul_AB_loop_body_spec [ones11; zeros11] [ones11; zeros11] 2 1 0) zeros11
    = Ret zeros11
  ∧ ones11 ≠ zeros11.
Proof. split_and!; [by vm_compute..|]. intros [=]. Qed.

(** C4: whatever the other processes reply, the collectives a process
    issues in the forwards of the three products and in the forward and
    backward of the bias name ranks of the form [grid_address minor ...],
    that is [minor + dep_rank · tesseract_dim² + data_parallel_rank ·
    pipeline_parallel_size · tensor_parallel_size + pipeline_parallel_rank ·
    tensor_parallel_size]: at iteration [i], [minor] is
    [col_rank + i · tesseract_dim] in the column group and
    [i + row_rank · tesseract_dim] in the row group; the bias addresses
    [minor = col_rank], the process of row 0; the all-gathers of the AB
    product name no rank.  A forward that returns has issued all of these
    calls, one broadcast and one reduce at every iteration [i] of
    [range(tesseract_dim)], and no other; a forward that fails has issued a
    prefix of them; the backward of the bias always issues its reduce. *)
Theorem collective_ranks `{!GlobalContext, !Allocator} (o : Oracle) (ctx : bool)
    (A B : Tensor) (tesseract_dim : Z) (out_shape : list Z)
    (row_rank col_rank dep_rank : Z) (row_parallel_mode col_parallel_mode : ParallelMode)
    (data_parallel_rank pipeline_parallel_rank pipeline_parallel_size
       tensor_parallel_size : Z)
    (input bias : Tensor) (output_size_per_partition : Z) (skip_bias_add : bool)
    (output_grad : Tensor) :
  (let forward :=
     Matmul_AB_2p5D_forward ctx A B tesseract_dim out_shape row_rank col_rank dep_rank
       row_parallel_mode col_parallel_mode data_parallel_rank pipeline_parallel_rank
       pipeline_parallel_size tensor_parallel_size in
   let calls := [SigAllGather row_parallel_mode; SigAllGather col_parallel_mode] in
   sigs o 0 forward `prefix_of` calls
   ∧ ∀ r, result_of o forward = inr r → sigs o 0 forward = calls)
  ∧ (let forward :=
       Matmul_ABT_2p5D_forward ctx A B tesseract_dim out_shape row_rank col_rank dep_rank
         row_parallel_mode col_parallel_mode data_parallel_rank pipeline_parallel_rank
         pipeline_parallel_size tensor_parallel_size in
     let calls :=
       i ← py_range tesseract_dim;
       [SigBroadcast col_parallel_mode
          (grid_address (col_rank + i * tesseract_dim) dep_rank tesseract_dim
             data_parallel_rank pipeline_parallel_rank pipeline_parallel_size
             tensor_parallel_size);
        SigReduce row_parallel_mode
          (grid_address (i + row_rank * tesseract_dim) dep_rank tesseract_dim
             data_parallel_rank pipeline_parallel_rank pipeline_parallel_size
             tensor_parallel_size)] in
     sigs o 0 forward `prefix_of` calls
     ∧ ∀ r, result_of o forward = inr r → sigs o 0 forward = calls)
  ∧ (let forward :=
       Matmul_ATB_2p5D_forward ctx A B tesseract_dim out_shape row_rank col_rank dep_rank
         row_parallel_mode col_parallel_mode data_parallel_rank pipeline_parallel_rank
         pipeline_parallel_size tensor_parallel_size in
     let calls :=
       i ← py_range tesseract_dim;
       [SigBroadcast row_parallel_mode
          (grid_address (i + row_rank * tesseract_dim) dep_rank tesseract_dim
             data_parallel_rank pipeline_parallel_rank pipeline_parallel_size
             tensor_parallel_size);
        SigReduce col_parallel_mode
          (grid_address (col_rank + i * tesseract_dim) dep_rank tesseract_dim
             data_parallel_rank pipeline_parallel_rank pipeline_parallel_size
             tensor_parallel_size)] in
     sigs o 0 forward `prefix_of` calls
     ∧ ∀ r, result_of o forward = inr r → sigs o 0 forward = calls)
  ∧ (let forward :=
       Add_Bias_2p5D_forward input bias output_size_per_partition tesseract_dim row_rank
         col_rank dep_rank col_parallel_mode skip_bias_add data_parallel_rank
         pipeline_parallel_rank pipeline_parallel_size tensor_parallel_size in
     let calls :=
       [SigBroadcast col_parallel_mode
          (grid_address col_rank dep_rank tesseract_dim data_parallel_rank
             pipeline_parallel_rank pipeline_parallel_size tensor_parallel_size)] in
     sigs o 0 forward `prefix_of` calls
     ∧ ∀ r, result_of o forward = inr r → sigs o 0 forward = calls)
  ∧ sigs o 0
      (Add_Bias_2p5D_backward
         (bias_ctx tesseract_dim row_rank col_rank dep_rank col_parallel_mode skip_bias_add
            data_parallel_rank pipeline_parallel_rank pipeline_parallel_size
            tensor_parallel_size)
         output_grad)
    = [SigReduce col_parallel_mode
         (grid_address col_rank dep_rank tesseract_dim data_parallel_rank
            pipeline_parallel_rank pipeline_parallel_size tensor_parallel_size)].
Proof.
  cbv zeta. split_and!.
  - apply Matmul_AB_forward_sigs.
  - intros r. apply Matmul_AB_forward_sigs_ok.
  - apply Matmul_ABT_forward_sigs.
  - intros r. apply Matmul_ABT_forward_sigs_ok.
  - apply Matmul_ATB_forward_sigs.
  - intros r. apply Matmul_ATB_forward_sigs_ok.
  - apply Add_Bias_forward_sigs.
  - intros r. apply Add_Bias_forward_sigs_ok.
  - unfold sigs. fold (trace_of o (Add_Bias_2p5D_backward
      (bias_ctx tesseract_dim row_rank col_rank dep_rank col_parallel_mode skip_bias_add
         data_parallel_rank pipeline_parallel_rank pipeline_parallel_size
         tensor_parallel_size) output_grad)).
    by rewrite (proj1 (Add_Bias_backward_trace o _ _)).
Qed.

Lemma collective_ranks_witness :
  ∃ r,
    result_of alone
      (Matmul_ATB_2p5D_forward (alloc := sevens) true square_1234 square_5678 2 [2; 2]%Z
         1 0 1 PARALLEL_2P5D_ROW PARALLEL_2P5D_COL 0 0 1 8)
    = inr r
    ∧ sigs alone 0
        (Matmul_ATB_2p5D_forward (alloc := sevens) true square_1234 square_5678 2 [2; 2]%Z
           1 0 1 PARALLEL_2P5D_ROW PARALLEL_2P5D_COL 0 0 1 8)
      = [SigBroadcast PARALLEL_2P5D_ROW 6; SigReduce PARALLEL_2P5D_COL 4;
         SigBroadcast PARALLEL_2P5D_ROW 7; SigReduce PARALLEL_2P5D_COL 6].
Proof.
  eexists.
  match goal with
  | |- ?P ∧ _ => assert P as Hrun by (vm_compute; reflexivity)
  end.
  split; [exact Hrun|].
  exact (proj2 (proj1 (proj2 (proj2
           (@collective_ranks alone_gpc sevens alone true square_1234 square_5678 2
              [2; 2]%Z 1 0 1 PARALLEL_2P5D_ROW PARALLEL_2P5D_COL 0 0 1 8
              ones11 ones11 1 false ones11)))) _ Hrun).
Defined.




(** C6, as the code has it: the backward of each of the three products
    returns 15 slots while the forward has 13 positional arguments; the
    backward of [Add_Bias_2p5D] always returns, 16 slots when [ctx.bias]
    is set and 17 when it is not, for 13 arguments; the backward of
    [_LayerNorm_2p5D] returns 7 slots for 5 arguments; only
    [AllGatherLast] and [SplitFirst] return as many slots, 3, as their
    forwards have arguments. *)
Theorem backward_arity `{!GlobalContext, !Allocator} (o : Oracle) :
  (length Matmul_forward_params = 13
   ∧ (∀ ctx g grads,
        result_of o (Matmul_AB_2p5D_backward ctx g) = inr grads → length grads = 15)
   ∧ (∀ ctx g grads,
        result_of o (Matmul_ABT_2p5D_backward ctx g) = inr grads → length grads = 15)
   ∧ (∀ ctx g grads,
        result_of o (Matmul_ATB_2p5D_backward ctx g) = inr grads → length grads = 15))
  ∧ (length Add_Bias_forward_params = 13
     ∧ ∀ ctx g, ∃ grads,
         result_of o (Add_Bias_2p5D_backward ctx g) = inr grads
         ∧ length grads = if bias_bias ctx then 16 else 17)
  ∧ (length LayerNorm_forward_params = 5
     ∧ ∀ ctx g grads,
         result_of o (LayerNorm_2p5D_backward ctx g) = inr grads → length grads = 7)
  ∧ (length AllGatherLast_forward_params = 3
     ∧ ∀ ctx g grads,
         result_of o (AllGatherLast_backward ctx g) = inr grads → length grads = 3)
  ∧ (length SplitFirst_forward_params = 3
     ∧ ∀ ctx g grads,
         result_of o (SplitFirst_backward ctx g) = inr grads → length grads = 3).
Proof.
  split_and!; try reflexivity.
  - apply Matmul_AB_backward_length.
  - apply Matmul_ABT_backward_length.
  - apply Matmul_ATB_backward_length.
  - intros ctx g. destruct (Add_Bias_backward_trace o ctx g) as (_ & bias_grad & nones & -> & ->).
    eexists. split; [done|]. by destruct (bias_bias ctx).
  - apply LayerNorm_backward_length.
  - apply AllGatherLast_backward_length.
  - apply SplitFirst_backward_length.
Qed.

Lemma backward_arity_witness :
  ∃ out c grads,
    result_of alone
      (Matmul_AB_2p5D_forward (gpc := alone_gpc) (alloc := sevens) true ones11 ones11 1
         [1; 1]%Z 0 0 0 PARALLEL_2P5D_ROW PARALLEL_2P5D_COL 0 0 1 1)
    = inr (out, Some c)
    ∧ result_of alone (Matmul_AB_2p5D_backward (alloc := sevens) c ones11) = inr grads
    ∧ length grads = 15
    ∧ length Matmul_forward_params = 13.
Proof.
  eexists _, _, _.
  split; [vm_compute; reflexivity|].
  match goal with
  | |- ?P ∧ _ => assert P as Hrun by (vm_compute; reflexivity)
  end.
  split; [exact Hrun|]. split; [|reflexivity].
  exact (proj1 (proj2 (proj1 (@backward_arity alone_gpc sevens alone))) _ _ _ Hrun).
Defined.

(** C7: on a [d] by [d] grid, the forward of [Add_Bias_2p5D] ends on every
    process [p] with the bias of the process at row 0 of the column of [p]
    (process [col_of d p]): it returns that bias, or the input plus that
    bias when the add is not skipped.  The backward ends on every process:
    the bias gradient it returns at row 0 is the sum over the column group
    of what the processes handed to the reduce, and at every other row a
    tensor of zeros. *)
Theorem bias_broadcast_and_gradient (d size : nat) (input bias grad : nat → Tensor)
    (skip_bias_add : bool)
    (dep_rank data_parallel_rank pipeline_parallel_rank pipeline_parallel_size
       tensor_parallel_size : Z) (scratch : nat → Tensor → list Q) :
  0 < d →
  (∀ c, c < d → shape (bias c) = [size]) →
  (∀ p q, p < d * d → q < d * d → shape (grad p) = shape (grad q)) →
  run_grid d (slice_offset (Z.of_nat d) dep_rank data_parallel_rank pipeline_parallel_rank
                pipeline_parallel_size tensor_parallel_size) scratch 1
    (launch d (Bias_process d size input bias skip_bias_add dep_rank data_parallel_rank
                 pipeline_parallel_rank pipeline_parallel_size tensor_parallel_size))
  = Some ((λ p,
             let ctx := bias_ctx (Z.of_nat d) (Z.of_nat (row_of d p)) (Z.of_nat (col_of d p))
                          dep_rank PARALLEL_2P5D_COL skip_bias_add data_parallel_rank
                          pipeline_parallel_rank pipeline_parallel_size
                          tensor_parallel_size in
             outcome (if skip_bias_add then mret (bias (col_of d p), ctx)
                      else output ← torch_add (input p) (bias (col_of d p));
                           mret (output, ctx)))
            <$> seq 0 (d * d))
  ∧ run_grid d (slice_offset (Z.of_nat d) dep_rank data_parallel_rank pipeline_parallel_rank
                  pipeline_parallel_size tensor_parallel_size) scratch 1
      (launch d (Bias_backward_process d grad skip_bias_add dep_rank data_parallel_rank
                   pipeline_parallel_rank pipeline_parallel_size tensor_parallel_size))
    = Some ((λ p,
               inr ((if skip_bias_add then None else Some (grad p))
                      :: Some (if decide (row_of d p = 0)
                               then tensor_sum (Bias_reduced grad skip_bias_add p)
                                      (Bias_reduced grad skip_bias_add
                                         <$> group_members d PARALLEL_2P5D_COL p)
                               else torch_zeros_like (Bias_reduced grad skip_bias_add p))
                      :: replicate (if skip_bias_add then 14 else 15) None))
              <$> seq 0 (d * d)).
Proof.
  intros Hd Hbias Hgrad. split.
  - by apply Add_Bias_forward_grid.
  - by apply Add_Bias_backward_grid.
Qed.

Lemma bias_broadcast_and_gradient_witness :
  run_grid 2 (slice_offset 2 0 0 0 1 4) untouched 1
    (launch 2 (Bias_process 2 1 ones_everywhere bias_of_rank false 0 0 0 1 4))
  = Some [inr (mkTensor [1; 1] [1%Q], bias_ctx 2 0 0 0 PARALLEL_2P5D_COL false 0 0 1 4);
          inr (mkTensor [1; 1] [2%Q], bias_ctx 2 0 1 0 PARALLEL_2P5D_COL false 0 0 1 4);
          inr (mkTensor [1; 1] [1%Q], bias_ctx 2 1 0 0 PARALLEL_2P5D_COL false 0 0 1 4);
          inr (mkTensor [1; 1] [2%Q], bias_ctx 2 1 1 0 PARALLEL_2P5D_COL false 0 0 1 4)]
  ∧ run_grid 2 (slice_offset 2 0 0 0 1 4) untouched 1
      (launch 2 (Bias_backward_process 2 ones_everywhere false 0 0 0 1 4))
    = Some [inr (Some ones11 :: Some (mkTensor [1] [2%Q]) :: replicate 15 None);
            inr (Some ones11 :: Some (mkTensor [1] [2%Q]) :: replicate 15 None);
            inr (Some ones11 :: Some (mkTensor [1] [0%Q]) :: replicate 15 None);
            inr (Some ones11 :: Some (mkTensor [1] [0%Q]) :: replicate 15 None)].
Proof.
  pose proof (bias_broadcast_and_gradient 2 1 ones_everywhere bias_of_rank ones_everywhere
                false 0 0 0 1 4 untouched) as Hrun.
  destruct Hrun as [Hforward Hbackward]; [lia|by intros..|].
  split.
  - etrans; [exact Hforward|]. vm_compute. reflexivity.
  - etrans; [exact Hbackward|]. vm_compute. reflexivity.
Defined.



(** C9: on a [d] by [d] grid where every process has saved an output
    [x p] and a [Var_x p] and receives an output gradient [grad p] of the
    same shape [s ++ [a]], the backward of [_LayerNorm_2p5D] ends on every
    process with the input gradient [LayerNorm_grad_in] and six [None]s,
    and that gradient is the formula of the spec,
    [Var_x · (grad_out − output · mean_term − sum_term)], where
    [sum_term] is the sum of [grad_out] over the last dimension, summed
    over the row group and divided by the hidden size, and [mean_term] the
    same for [grad_out · output].  The forward returns
    [(input − E_x) · Var_x] and saves it with [Var_x]. *)
Theorem layer_norm_gradient (d : nat) (x Var_x grad : nat → Tensor) (hidden_size : Z)
    (s : list nat) (a : nat) (offset : Z) (scratch : nat → Tensor → list Q)
    (input E_x V : Tensor) (row_parallel_mode : ParallelMode) (s1 s2 : list nat) :
  0 < d → hidden_size ≠ 0%Z →
  (∀ p, p < d * d → shape (grad p) = s ++ [a]) →
  (∀ p, p < d * d → shape (x p) = s ++ [a]) →
  (∀ p, p < d * d → broadcast_shapes (s ++ [a]) (shape (Var_x p)) = Some (s ++ [a])) →
  broadcast_shapes (shape input) (shape E_x) = Some s1 →
  broadcast_shapes s1 (shape V) = Some s2 →
  run_grid d offset scratch 2
    (launch d (LayerNorm_backward_process x Var_x grad hidden_size))
  = Some ((λ p, inr [Some (LayerNorm_grad_in d x Var_x grad hidden_size s a p);
                     None; None; None; None; None; None])
            <$> seq 0 (d * d))
  ∧ (∀ p, p < d * d →
       LayerNorm_grad_formula (Var_x p) (grad p) (x p)
         (LayerNorm_mean_term d x grad hidden_size s a p)
         (LayerNorm_sum_term d grad hidden_size p)
       = Ret (LayerNorm_grad_in d x Var_x grad hidden_size s a p))
  ∧ LayerNorm_2p5D_forward input E_x V hidden_size row_parallel_mode
    = Ret (pointwise Qmult (pointwise Qminus input E_x s1) V s2,
           {| ln_hidden_size := hidden_size;
              ln_saved_tensors := (pointwise Qmult (pointwise Qminus input E_x s1) V s2, V);
              ln_row_parallel_mode := row_parallel_mode |}).
Proof.
  intros Hd _ Hgrad Hx HVar Hs1 Hs2. split_and!.
  - by apply LayerNorm_backward_grid.
  - intros p Hp. by apply LayerNorm_formula_eq.
  - unfold LayerNorm_2p5D_forward, torch_sub, torch_mul.
    rewrite (binop_pointwise _ _ _ s1) by done. prog_simpl.
    rewrite (binop_pointwise _ _ _ s2) by done. done.
Qed.

Lemma layer_norm_gradient_witness :
  run_grid 2 0 untouched 2
    (launch 2 (LayerNorm_backward_process ones_everywhere ones_everywhere ones_everywhere 2))
  = Some [inr [Some (mkTensor [1; 1] [(-4 # 4)%Q]); None; None; None; None; None; None];
          inr [Some (mkTensor [1; 1] [(-4 # 4)%Q]); None; None; None; None; None; None];
          inr [Some (mkTensor [1; 1] [(-4 # 4)%Q]); None; None; None; None; None; None];
          inr [Some (mkTensor [1; 1] [(-4 # 4)%Q]); None; None; None; None; None; None]]
  ∧ LayerNorm_2p5D_forward square_5678 square_1234 ones11 2 PARALLEL_2P5D_ROW
    = Ret (mkTensor [2; 2] [4%Q; 4%Q; 4%Q; 4%Q],
           {| ln_hidden_size := 2;
              ln_saved_tensors := (mkTensor [2; 2] [4%Q; 4%Q; 4%Q; 4%Q], ones11);
              ln_row_parallel_mode := PARALLEL_2P5D_ROW |}).
Proof.
  pose proof (layer_norm_gradient 2 ones_everywhere ones_everywhere ones_everywhere 2 [1] 1 0
                untouched square_5678 square_1234 ones11 PARALLEL_2P5D_ROW [2; 2] [2; 2])
    as Hrun.
  destruct Hrun as (Hbackward & _ & Hforward);
    [lia|lia|by intros..|reflexivity|reflexivity|].
  split.
  - etrans; [exact Hbackward|]. vm_compute. reflexivity.
  - etrans; [exact Hforward|]. vm_compute. reflexivity.
Defined.

(** C10: on an input that does not have exactly three dimensions, the
    forward of [AllGatherLast] is an error before it has issued the
    all-gather: whatever the other processes would reply, its trace is
    empty. *)
Theorem AllGatherLast_needs_3d `{!GlobalContext, !Allocator} (inputs : Tensor)
    (tesseract_dim : Z) (col_parallel_mode : ParallelMode) :
  ndim inputs ≠ 3 →
  ∃ e, AllGatherLast_forward inputs tesseract_dim col_parallel_mode = Raise e
       ∧ ∀ o, trace_of o (AllGatherLast_forward inputs tesseract_dim col_parallel_mode) = [].
Proof.
  intros Hndim.
  destruct (AllGatherLast_forward_not_3d inputs tesseract_dim col_parallel_mode Hndim)
    as [e ->].
  by exists e.
Qed.

Lemma AllGatherLast_needs_3d_witness :
  ndim ones11 ≠ 3
  ∧ ∃ e, AllGatherLast_forward (gpc := alone_gpc) (alloc := sevens) ones11 1
           PARALLEL_2P5D_COL = Raise e
         ∧ ∀ o, trace_of o
                  (AllGatherLast_forward (gpc := alone_gpc) (alloc := sevens) ones11 1
                     PARALLEL_2P5D_COL) = [].
Proof.
  assert (ndim ones11 ≠ 3) as Hndim by (vm_compute; lia).
  split; [exact Hndim|].
  exact (@AllGatherLast_needs_3d alone_gpc sevens ones11 1 PARALLEL_2P5D_COL Hndim).
Defined.

(* ================================================================= *)
(** * Further properties of the operations *)

(** X1: on a [d] by [d] grid, each process holding the context its forward
    saved (its tiles of the dense [A] and [B]) and receiving its tile of the
    dense output gradient [G], the backward of [Matmul_AB_2p5D] returns on
    every process within [4 d] rounds of calls; it returns fifteen entries,
    the gradients of [A] and [B] and thirteen [None]; assembled, the
    gradients are the dense products [G · Bᵗ] and [Aᵗ · G]. *)
Theorem Matmul_AB_backward_dense `{!Allocator} (d m k n : nat) (A B G : Tensor)
    (dep_rank data_parallel_rank pipeline_parallel_rank pipeline_parallel_size
       tensor_parallel_size : Z) (scratch : nat → Tensor → list Q) :
  0 < d → 0 < m → 0 < k → 0 < n →
  shape A = [d * m; d * k] → shape B = [d * k; d * n] → shape G = [d * m; d * n] →
  ∃ A_grad B_grad : nat → Tensor,
    run_grid d (slice_offset (Z.of_nat d) dep_rank data_parallel_rank
                  pipeline_parallel_rank pipeline_parallel_size tensor_parallel_size)
      scratch (2 * d + 2 * d)
      (launch d (AB_backward_process d m k n A B G dep_rank data_parallel_rank
                   pipeline_parallel_rank pipeline_parallel_size tensor_parallel_size))
    = Some ((λ p, inr (Some (A_grad p) :: Some (B_grad p) :: replicate 13 None))
              <$> seq 0 (d * d))
    ∧ (B_t ← torch_transpose B 0 1; torch_matmul G B_t)
      = Ret (assemble d m k (A_grad <$> seq 0 (d * d)))
    ∧ (A_t ← torch_transpose A 0 1; torch_matmul A_t G)
      = Ret (assemble d k n (B_grad <$> seq 0 (d * d))).
Proof.
  intros Hd Hm Hk Hn HA HB HG.
  exists (λ p, ABT_tile d m k n G B (row_of d p) (col_of d p)),
         (λ p, ATB_tile d m k n A G (row_of d p) (col_of d p)).
  split_and!.
  - by apply Matmul_AB_backward_grid.
  - by apply assemble_ABT.
  - by apply assemble_ATB.
Qed.

Lemma Matmul_AB_backward_dense_witness :
  ∃ A_grad B_grad : nat → Tensor,
    run_grid 2 (slice_offset 2 1 0 0 1 8) untouched 8
      (launch 2 (@AB_backward_process sevens 2 1 1 1 square_1234 square_5678 square_1021
                   1 0 0 1 8))
    = Some ((λ p, inr (Some (A_grad p) :: Some (B_grad p) :: replicate 13 None))
              <$> seq 0 4)
    ∧ (B_t ← torch_transpose square_5678 0 1; torch_matmul square_1021 B_t)
      = Ret (assemble 2 1 1 (A_grad <$> seq 0 4))
    ∧ (A_t ← torch_transpose square_1234 0 1; torch_matmul A_t square_1021)
      = Ret (assemble 2 1 1 (B_grad <$> seq 0 4)).
Proof.
  apply (@Matmul_AB_backward_dense sevens 2 1 1 1 square_1234 square_5678 square_1021
           1 0 0 1 8 untouched); first [lia | reflexivity].
Defined.

(** X2: the backward of [Matmul_ABT_2p5D] on the grid (the forward had
    tiles of [A], [d m] by [d k], and of [B], [d n] by [d k]) returns on
    every process within [2 + 2 d] rounds; assembled, the gradients are
    [G · B] and [Gᵗ · A]. *)
Theorem Matmul_ABT_backward_dense `{!Allocator} (d m n k : nat) (A B G : Tensor)
    (dep_rank data_parallel_rank pipeline_parallel_rank pipeline_parallel_size
       tensor_parallel_size : Z) (scratch : nat → Tensor → list Q) :
  0 < d → 0 < m → 0 < k → 0 < n →
  shape A = [d * m; d * k] → shape B = [d * n; d * k] → shape G = [d * m; d * n] →
  ∃ A_grad B_grad : nat → Tensor,
    run_grid d (slice_offset (Z.of_nat d) dep_rank data_parallel_rank
                  pipeline_parallel_rank pipeline_parallel_size tensor_parallel_size)
      scratch (2 + 2 * d)
      (launch d (ABT_backward_process d m n k A B G dep_rank data_parallel_rank
                   pipeline_parallel_rank pipeline_parallel_size tensor_parallel_size))
    = Some ((λ p, inr (Some (A_grad p) :: Some (B_grad p) :: replicate 13 None))
              <$> seq 0 (d * d))
    ∧ torch_matmul G B = Ret (assemble d m k (A_grad <$> seq 0 (d * d)))
    ∧ (G_t ← torch_transpose G 0 1; torch_matmul G_t A)
      = Ret (assemble d n k (B_grad <$> seq 0 (d * d))).
Proof.
  intros Hd Hm Hk Hn HA HB HG.
  exists (λ p, AB_tile d m n k G B (row_of d p) (col_of d p)),
         (λ p, ATB_tile d m n k G A (row_of d p) (col_of d p)).
  split_and!.
  - by apply Matmul_ABT_backward_grid.
  - by apply assemble_AB.
  - by apply assemble_ATB.
Qed.

Lemma Matmul_ABT_backward_dense_witness :
  ∃ A_grad B_grad : nat → Tensor,
    run_grid 2 (slice_offset 2 1 0 0 1 8) untouched 6
      (launch 2 (@ABT_backward_process sevens 2 1 1 1 square_1234 square_5678 square_1021
                   1 0 0 1 8))
    = Some ((λ p, inr (Some (A_grad p) :: Some (B_grad p) :: replicate 13 None))
              <$> seq 0 4)
    ∧ torch_matmul square_1021 square_5678 = Ret (assemble 2 1 1 (A_grad <$> seq 0 4))
    ∧ (G_t ← torch_transpose square_1021 0 1; torch_matmul G_t square_1234)
      = Ret (assemble 2 1 1 (B_grad <$> seq 0 4)).
Proof.
  apply (@Matmul_ABT_backward_dense sevens 2 1 1 1 square_1234 square_5678 square_1021
           1 0 0 1 8 untouched); first [lia | reflexivity].
Defined.

(** X3: the backward of [Matmul_ATB_2p5D] on the grid (the forward had
    tiles of [A], [d m] by [d k], and of [B], [d m] by [d n]) returns on
    every process within [2 d + 2] rounds; assembled, the gradients are
    [B · Gᵗ] and [A · G]. *)
Theorem Matmul_ATB_backward_dense `{!Allocator} (d m k n : nat) (A B G : Tensor)
    (dep_rank data_parallel_rank pipeline_parallel_rank pipeline_parallel_size
       tensor_parallel_size : Z) (scratch : nat → Tensor → list Q) :
  0 < d → 0 < m → 0 < k → 0 < n →
  shape A = [d * m; d * k] → shape B = [d * m; d * n] → shape G = [d * k; d * n] →
  ∃ A_grad B_grad : nat → Tensor,
    run_grid d (slice_offset (Z.of_nat d) dep_rank data_parallel_rank
                  pipeline_parallel_rank pipeline_parallel_size tensor_parallel_size)
      scratch (2 * d + 2)
      (launch d (ATB_backward_process d m k n A B G dep_rank data_parallel_rank
                   pipeline_parallel_rank pipeline_parallel_size tensor_parallel_size))
    = Some ((λ p, inr (Some (A_grad p) :: Some (B_grad p) :: replicate 13 None))
              <$> seq 0 (d * d))
    ∧ (G_t ← torch_transpose G 0 1; torch_matmul B G_t)
      = Ret (assemble d m k (A_grad <$> seq 0 (d * d)))
    ∧ torch_matmul A G = Ret (assemble d m n (B_grad <$> seq 0 (d * d))).
Proof.
  intros Hd Hm Hk Hn HA HB HG.
  exists (λ p, ABT_tile d m k n B G (row_of d p) (col_of d p)),
         (λ p, AB_tile d m k n A G (row_of d p) (col_of d p)).
  split_and!.
  - by apply Matmul_ATB_backward_grid.
  - by apply assemble_ABT.
  - by apply assemble_AB.
Qed.

Lemma Matmul_ATB_backward_dense_witness :
  ∃ A_grad B_grad : nat → Tensor,
    run_grid 2 (slice_offset 2 1 0 0 1 8) untouched 6
      (launch 2 (@ATB_backward_process sevens 2 1 1 1 square_1234 square_5678 square_1021
                   1 0 0 1 8))
    = Some ((λ p, inr (Some (A_grad p) :: Some (B_grad p) :: replicate 13 None))
              <$> seq 0 4)
    ∧ (G_t ← torch_transpose square_1021 0 1; torch_matmul square_5678 G_t)
      = Ret (assemble 2 1 1 (A_grad <$> seq 0 4))
    ∧ torch_matmul square_1234 square_1021 = Ret (assemble 2 1 1 (B_grad <$> seq 0 4)).
Proof.
  apply (@Matmul_ATB_backward_dense sevens 2 1 1 1 square_1234 square_5678 square_1021
           1 0 0 1 8 untouched); first [lia | reflexivity].
Defined.

(** X4: whatever the other processes reply, when a forward of one of the
    three products has returned and left its context [c], a backward on [c]
    that returns gives fifteen entries: a gradient of the shape of [A] as
    the forward received it (before it was flattened), a gradient of the
    shape of [B], and thirteen [None]. *)
Theorem backward_gradient_shapes `{!GlobalContext, !Allocator} (o o' : Oracle) (A B : Tensor)
    (tesseract_dim : Z) (out_shape : list Z) (row_rank col_rank dep_rank : Z)
    (row_parallel_mode col_parallel_mode : ParallelMode)
    (data_parallel_rank pipeline_parallel_rank pipeline_parallel_size
       tensor_parallel_size : Z)
    (out : Tensor) (c : MatmulCtx) (output_grad : Tensor) (grads : list (option Tensor)) :
  (result_of o (Matmul_AB_2p5D_forward true A B tesseract_dim out_shape row_rank col_rank
                  dep_rank row_parallel_mode col_parallel_mode data_parallel_rank
                  pipeline_parallel_rank pipeline_parallel_size tensor_parallel_size)
   = inr (out, Some c) →
   result_of o' (Matmul_AB_2p5D_backward c output_grad) = inr grads →
   ∃ A_grad B_grad,
     grads = Some A_grad :: Some B_grad :: replicate 13 None
     ∧ shape A_grad = shape A ∧ shape B_grad = shape B)
  ∧ (result_of o (Matmul_ABT_2p5D_forward true A B tesseract_dim out_shape row_rank col_rank
                    dep_rank row_parallel_mode col_parallel_mode data_parallel_rank
                    pipeline_parallel_rank pipeline_parallel_size tensor_parallel_size)
     = inr (out, Some c) →
     result_of o' (Matmul_ABT_2p5D_backward c output_grad) = inr grads →
     ∃ A_grad B_grad,
       grads = Some A_grad :: Some B_grad :: replicate 13 None
       ∧ shape A_grad = shape A ∧ shape B_grad = shape B)
  ∧ (result_of o (Matmul_ATB_2p5D_forward true A B tesseract_dim out_shape row_rank col_rank
                    dep_rank row_parallel_mode col_parallel_mode data_parallel_rank
                    pipeline_parallel_rank pipeline_parallel_size tensor_parallel_size)
     = inr (out, Some c) →
     result_of o' (Matmul_ATB_2p5D_backward c output_grad) = inr grads →
     ∃ A_grad B_grad,
       grads = Some A_grad :: Some B_grad :: replicate 13 None
       ∧ shape A_grad = shape A ∧ shape B_grad = shape B).
Proof.
  split_and!; intros Hfwd Hbwd.
  - apply Matmul_AB_forward_ctx in Hfwd. injection Hfwd as ->.
    by apply Matmul_AB_backward_shapes in Hbwd.
  - apply Matmul_ABT_forward_ctx in Hfwd. injection Hfwd as ->.
    by apply Matmul_ABT_backward_shapes in Hbwd.
  - apply Matmul_ATB_forward_ctx in Hfwd. injection Hfwd as ->.
    by apply Matmul_ATB_backward_shapes in Hbwd.
Qed.

Lemma backward_gradient_shapes_witness :
  ∃ out c grads,
    result_of alone
      (Matmul_AB_2p5D_forward (gpc := alone_gpc) (alloc := sevens) true square_1234 square_5678 1
         [2; 2]%Z 0 0 0 PARALLEL_2P5D_ROW PARALLEL_2P5D_COL 0 0 1 1)
    = inr (out, Some c)
    ∧ result_of alone (Matmul_AB_2p5D_backward (alloc := sevens) c square_1021) = inr grads
    ∧ ∃ A_grad B_grad,
        grads = Some A_grad :: Some B_grad :: replicate 13 None
        ∧ shape A_grad = shape square_1234 ∧ shape B_grad = shape square_5678.
Proof.
  eexists _, _, _.
  match goal with
  | |- ?P ∧ _ => assert P as Hfwd by (vm_compute; reflexivity)
  end.
  split; [exact Hfwd|].
  match goal with
  | |- ?P ∧ _ => assert P as Hbwd by (vm_compute; reflexivity)
  end.
  split; [exact Hbwd|].
  exact (proj1 (@backward_gradient_shapes alone_gpc sevens alone alone
                  square_1234 square_5678 1 [2; 2]%Z 0 0 0
                  PARALLEL_2P5D_ROW PARALLEL_2P5D_COL 0 0 1 1 _ _ square_1021 _) Hfwd Hbwd).
Defined.

(** X5: whatever the other processes reply, a forward of one of the three
    products that is asked for an output of shape [s] and returns, returns
    a tensor of shape [s]. *)
Theorem forward_output_shape `{!GlobalContext, !Allocator} (o : Oracle) (ctx : bool)
    (A B : Tensor) (tesseract_dim : Z) (s : list nat) (row_rank col_rank dep_rank : Z)
    (row_parallel_mode col_parallel_mode : ParallelMode)
    (data_parallel_rank pipeline_parallel_rank pipeline_parallel_size
       tensor_parallel_size : Z)
    (out : Tensor) (c : option MatmulCtx) :
  (result_of o (Matmul_AB_2p5D_forward ctx A B tesseract_dim (size_tuple s) row_rank
                  col_rank dep_rank row_parallel_mode col_parallel_mode data_parallel_rank
                  pipeline_parallel_rank pipeline_parallel_size tensor_parallel_size)
   = inr (out, c) → shape out = s)
  ∧ (result_of o (Matmul_ABT_2p5D_forward ctx A B tesseract_dim (size_tuple s) row_rank
                    col_rank dep_rank row_parallel_mode col_parallel_mode data_parallel_rank
                    pipeline_parallel_rank pipeline_parallel_size tensor_parallel_size)
     = inr (out, c) → shape out = s)
  ∧ (result_of o (Matmul_ATB_2p5D_forward ctx A B tesseract_dim (size_tuple s) row_rank
                    col_rank dep_rank row_parallel_mode col_parallel_mode data_parallel_rank
                    pipeline_parallel_rank pipeline_parallel_size tensor_parallel_size)
     = inr (out, c) → shape out = s).
Proof.
  split_and!; intros Hrun.
  - apply Matmul_AB_forward_reshaped in Hrun as [C HC]. by apply reshape_size_tuple in HC.
  - apply Matmul_ABT_forward_reshaped in Hrun as [C HC]. by apply reshape_size_tuple in HC.
  - apply Matmul_ATB_forward_reshaped in Hrun as [C HC]. by apply reshape_size_tuple in HC.
Qed.

Lemma forward_output_shape_witness :
  ∃ out c,
    result_of alone
      (Matmul_AB_2p5D_forward (gpc := alone_gpc) (alloc := sevens) false square_1234
         square_5678 1 (size_tuple [1; 4]) 0 0 0 PARALLEL_2P5D_ROW PARALLEL_2P5D_COL 0 0 1 1)
    = inr (out, c)
    ∧ shape out = [1; 4].
Proof.
  eexists _, _.
  match goal with
  | |- ?P ∧ _ => assert P as Hrun by (vm_compute; reflexivity)
  end.
  split; [exact Hrun|].
  exact (proj1 (@forward_output_shape alone_gpc sevens alone false
                  square_1234 square_5678 1 [1; 4] 0 0 0
                  PARALLEL_2P5D_ROW PARALLEL_2P5D_COL 0 0 1 1 _ _) Hrun).
Defined.

(** X7: whatever the other processes reply, a forward that returns has
    issued exactly these calls: for [Matmul_AB_2p5D] the two all-gathers,
    in the row group and then in the column group; for [Matmul_ABT_2p5D]
    and [Matmul_ATB_2p5D], at each iteration [i] of [range(tesseract_dim)]
    one broadcast and then one reduce, from and to the ranks of the loop. *)
Theorem forward_calls_when_returning `{!GlobalContext, !Allocator} (o : Oracle) (ctx : bool)
    (A B : Tensor) (tesseract_dim : Z) (out_shape : list Z) (row_rank col_rank dep_rank : Z)
    (row_parallel_mode col_parallel_mode : ParallelMode)
    (data_parallel_rank pipeline_parallel_rank pipeline_parallel_size
       tensor_parallel_size : Z)
    (r : Tensor * option MatmulCtx) :
  (result_of o (Matmul_AB_2p5D_forward ctx A B tesseract_dim out_shape row_rank col_rank
                  dep_rank row_parallel_mode col_parallel_mode data_parallel_rank
                  pipeline_parallel_rank pipeline_parallel_size tensor_parallel_size)
   = inr r →
   sigs o 0 (Matmul_AB_2p5D_forward ctx A B tesseract_dim out_shape row_rank col_rank
               dep_rank row_parallel_mode col_parallel_mode data_parallel_rank
               pipeline_parallel_rank pipeline_parallel_size tensor_parallel_size)
   = [SigAllGather row_parallel_mode; SigAllGather col_parallel_mode])
  ∧ (result_of o (Matmul_ABT_2p5D_forward ctx A B tesseract_dim out_shape row_rank col_rank
                    dep_rank row_parallel_mode col_parallel_mode data_parallel_rank
                    pipeline_parallel_rank pipeline_parallel_size tensor_parallel_size)
     = inr r →
     sigs o 0 (Matmul_ABT_2p5D_forward ctx A B tesseract_dim out_shape row_rank col_rank
                 dep_rank row_parallel_mode col_parallel_mode data_parallel_rank
                 pipeline_parallel_rank pipeline_parallel_size tensor_parallel_size)
     = (i ← py_range tesseract_dim;
        [SigBroadcast col_parallel_mode
           (grid_address (col_rank + i * tesseract_dim) dep_rank tesseract_dim
              data_parallel_rank pipeline_parallel_rank pipeline_parallel_size
              tensor_parallel_size);
         SigReduce row_parallel_mode
           (grid_address (i + row_rank * tesseract_dim) dep_rank tesseract_dim
              data_parallel_rank pipeline_parallel_rank pipeline_parallel_size
              tensor_parallel_size)]))
  ∧ (result_of o (Matmul_ATB_2p5D_forward ctx A B tesseract_dim out_shape row_rank col_rank
                    dep_rank row_parallel_mode col_parallel_mode data_parallel_rank
                    pipeline_parallel_rank pipeline_parallel_size tensor_parallel_size)
     = inr r →
     sigs o 0 (Matmul_ATB_2p5D_forward ctx A B tesseract_dim out_shape row_rank col_rank
                 dep_rank row_parallel_mode col_parallel_mode data_parallel_rank
                 pipeline_parallel_rank pipeline_parallel_size tensor_parallel_size)
     = (i ← py_range tesseract_dim;
        [SigBroadcast row_parallel_mode
           (grid_address (i + row_rank * tesseract_dim) dep_rank tesseract_dim
              data_parallel_rank pipeline_parallel_rank pipeline_parallel_size
              tensor_parallel_size);
         SigReduce col_parallel_mode
           (grid_address (col_rank + i * tesseract_dim) dep_rank tesseract_dim
              data_parallel_rank pipeline_parallel_rank pipeline_parallel_size
              tensor_parallel_size)])).
Proof.
  split_and!; intros Hrun.
  - by eapply Matmul_AB_forward_sigs_ok.
  - by eapply Matmul_ABT_forward_sigs_ok.
  - by eapply Matmul_ATB_forward_sigs_ok.
Qed.

Lemma forward_calls_when_returning_witness :
  ∃ r,
    result_of alone
      (Matmul_ABT_2p5D_forward (alloc := sevens) false square_1234
         square_5678 2 [2; 2]%Z 0 1 0 PARALLEL_2P5D_ROW PARALLEL_2P5D_COL 0 0 1 8)
    = inr r
    ∧ sigs alone 0
        (Matmul_ABT_2p5D_forward (alloc := sevens) false square_1234
           square_5678 2 [2; 2]%Z 0 1 0 PARALLEL_2P5D_ROW PARALLEL_2P5D_COL 0 0 1 8)
      = [SigBroadcast PARALLEL_2P5D_COL 1; SigReduce PARALLEL_2P5D_ROW 0;
         SigBroadcast PARALLEL_2P5D_COL 3; SigReduce PARALLEL_2P5D_ROW 1].
Proof.
  eexists.
  match goal with
  | |- ?P ∧ _ => assert P as Hrun by (vm_compute; reflexivity)
  end.
  split; [exact Hrun|].
  exact (proj1 (proj2 (@forward_calls_when_returning alone_gpc sevens alone false
                  square_1234 square_5678 2 [2; 2]%Z 0 1 0
                  PARALLEL_2P5D_ROW PARALLEL_2P5D_COL 0 0 1 8 _)) Hrun).
Defined.

(** X8: [SplitFirst.forward] on a well-formed tensor of [b > 0] rows, on
    the process of local rank [r] in a group of [tesseract_dim = d > 0]:
    with [step = ceil(b / d)], it returns rows [r · step] up to
    [min(b, (r + 1) · step)] of the input and remembers [d], [b] and the
    group; when [r · step >= b] (there are fewer chunks than processes),
    indexing the tuple of chunks raises [IndexError], "tuple index out of
    range". *)
Theorem SplitFirst_forward_chunk `{!GlobalContext} (inputs : Tensor) (b : nat)
    (s : list nat) (d r : nat) (col_parallel_mode : ParallelMode) :
  shape inputs = b :: s → well_formed inputs → 0 < d → 0 < b →
  get_local_rank col_parallel_mode = Z.of_nat r →
  SplitFirst_forward inputs (Z.of_nat d) col_parallel_mode
  = let step := (b + d - 1) / d in
    if decide (r * step < b)
    then Ret (rows_slice inputs (r * step) (Nat.min step (b - r * step)),
              {| split_tesseract_dim := Z.of_nat d;
                 split_batch_size := b;
                 split_para_mode := col_parallel_mode |})
    else Raise (IndexError "tuple index out of range").
Proof. intros. cbv zeta. by apply (SplitFirst_forward_rows inputs b s). Qed.

Lemma SplitFirst_forward_chunk_witness :
  SplitFirst_forward (gpc := last_of_four) column_123 4 PARALLEL_2P5D_COL
  = Raise (IndexError "tuple index out of range").
Proof.
  apply (@SplitFirst_forward_chunk last_of_four column_123 3 [1] 4 3 PARALLEL_2P5D_COL);
    first [reflexivity | lia].
Defined.

(** X9: [SplitFirst.backward] on a [d] by [d] grid, the forward having
    seen a batch of [d · c] rows and every process receiving a gradient of
    shape [c :: s]: within one round every process returns three entries,
    the gradients of its column group one after the other along the first
    dimension, in the order of their ranks, and two [None]. *)
Theorem SplitFirst_backward_concatenates `{!Allocator} (d c : nat) (s : list nat)
    (offset : Z) (scratch : nat → Tensor → list Q) (grad : nat → Tensor) :
  0 < d → 0 < c → (∀ p, p < d * d → shape (grad p) = c :: s) →
  run_grid d offset scratch 1 (launch d (SplitFirst_backward_process d (d * c) grad))
  = Some ((λ p, inr [Some (mkTensor ((d * c) :: s)
                             (concat (data <$> (grad <$> group_members d PARALLEL_2P5D_COL p))));
                     None; None])
            <$> seq 0 (d * d)).
Proof. apply SplitFirst_backward_grid. Qed.

Lemma SplitFirst_backward_concatenates_witness :
  run_grid 2 0 untouched 1
    (launch 2 (@SplitFirst_backward_process sevens 2 2 cell_of_rank))
  = Some [inr [Some (mkTensor [2; 1] [0%Q; 2%Q]); None; None];
          inr [Some (mkTensor [2; 1] [1%Q; 3%Q]); None; None];
          inr [Some (mkTensor [2; 1] [0%Q; 2%Q]); None; None];
          inr [Some (mkTensor [2; 1] [1%Q; 3%Q]); None; None]].
Proof.
  apply (@SplitFirst_backward_concatenates sevens 2 1 [1] 0%Z untouched cell_of_rank);
    first [lia | reflexivity].
Defined.

(** X10: on a [d] by [d] grid where the processes of a column hold the same
    well-formed tensor of [d · c] rows, [SplitFirst.backward] run on what
    [SplitFirst.forward] returned gives every process its input back. *)
Theorem SplitFirst_round_trip_identity `{!Allocator} (d c : nat) (s : list nat)
    (offset : Z) (scratch : nat → Tensor → list Q) (x : nat → Tensor) :
  0 < d → 0 < c →
  (∀ j, j < d → shape (x j) = (d * c) :: s ∧ well_formed (x j)) →
  run_grid d offset scratch 1 (launch d (SplitFirst_round_trip d x))
  = Some ((λ p, inr [Some (x (col_of d p)); None; None]) <$> seq 0 (d * d)).
Proof. apply SplitFirst_round_trip_grid. Qed.

Lemma SplitFirst_round_trip_identity_witness :
  run_grid 2 0 untouched 1
    (launch 2 (@SplitFirst_round_trip sevens 2 (λ j, mkTensor [2; 1] [1%Q; inject_Z (Z.of_nat j)])))
  = Some [inr [Some (mkTensor [2; 1] [1%Q; 0%Q]); None; None];
          inr [Some (mkTensor [2; 1] [1%Q; 1%Q]); None; None];
          inr [Some (mkTensor [2; 1] [1%Q; 0%Q]); None; None];
          inr [Some (mkTensor [2; 1] [1%Q; 1%Q]); None; None]].
Proof.
  apply (@SplitFirst_round_trip_identity sevens 2 1 [1] 0%Z untouched
           (λ j, mkTensor [2; 1] [1%Q; inject_Z (Z.of_nat j)]));
    first [lia | intros; split; reflexivity].
Defined.

(** X11: [AllGatherLast.forward] on a [d] by [d] grid, every process
    holding a well-formed tensor of shape [[a; b; c]]: within one round every
    process returns the tensors of its column group side by side along the
    last dimension, of shape [[a; b; d · c]], in the order of their ranks,
    and remembers [d] and its rank in the group. *)
Theorem AllGatherLast_forward_gathers `{!Allocator} (d a b c : nat) (offset : Z)
    (scratch : nat → Tensor → list Q) (x : nat → Tensor) :
  0 < d → 0 < c →
  (∀ p, p < d * d → shape (x p) = [a; b; c] ∧ well_formed (x p)) →
  run_grid d offset scratch 1 (launch d (AllGatherLast_process d x))
  = Some ((λ p, inr (gathered_last a b c (x <$> group_members d PARALLEL_2P5D_COL p),
                     {| gather_tesseract_dim := Z.of_nat d;
                        gather_row_rank := Z.of_nat (row_of d p) |}))
            <$> seq 0 (d * d))
  ∧ ∀ p, p < d * d →
      shape (gathered_last a b c (x <$> group_members d PARALLEL_2P5D_COL p)) = [a; b; d * c].
Proof.
  intros Hd Hc Hx. split; [by apply AllGatherLast_forward_grid|].
  intros p Hp. unfold gathered_last, tabulate. cbn [shape]. rewrite length_fmap.
  by rewrite length_group_members.
Qed.

Lemma AllGatherLast_forward_gathers_witness :
  run_grid 2 0 untouched 1 (launch 2 (@AllGatherLast_process sevens 2 cube_of_rank))
  = Some [inr (mkTensor [1; 1; 2] [0%Q; 2%Q],
               {| gather_tesseract_dim := 2; gather_row_rank := 0 |});
          inr (mkTensor [1; 1; 2] [1%Q; 3%Q],
               {| gather_tesseract_dim := 2; gather_row_rank := 0 |});
          inr (mkTensor [1; 1; 2] [0%Q; 2%Q],
               {| gather_tesseract_dim := 2; gather_row_rank := 1 |});
          inr (mkTensor [1; 1; 2] [1%Q; 3%Q],
               {| gather_tesseract_dim := 2; gather_row_rank := 1 |})].
Proof.
  apply (proj1 (@AllGatherLast_forward_gathers sevens 2 1 1 1 0%Z untouched cube_of_rank
                  ltac:(lia) ltac:(lia) ltac:(intros; split; reflexivity))).
Defined.

(** X12: on a [d] by [d] grid where every process holds a well-formed
    tensor of shape [[a; b; c]], [AllGatherLast.backward] run on what
    [AllGatherLast.forward] returned gives every process its own input
    back, with two [None]. *)
Theorem AllGatherLast_round_trip_identity `{!Allocator} (d a b c : nat) (offset : Z)
    (scratch : nat → Tensor → list Q) (x : nat → Tensor) :
  0 < d → 0 < c →
  (∀ p, p < d * d → shape (x p) = [a; b; c] ∧ well_formed (x p)) →
  run_grid d offset scratch 1 (launch d (AllGatherLast_round_trip d x))
  = Some ((λ p, inr [Some (x p); None; None]) <$> seq 0 (d * d)).
Proof. apply AllGatherLast_round_trip_grid. Qed.

Lemma AllGatherLast_round_trip_identity_witness :
  run_grid 2 0 untouched 1 (launch 2 (@AllGatherLast_round_trip sevens 2 cube_of_rank))
  = Some [inr [Some (cube_of_rank 0); None; None]; inr [Some (cube_of_rank 1); None; None];
          inr [Some (cube_of_rank 2); None; None]; inr [Some (cube_of_rank 3); None; None]].
Proof.
  apply (@AllGatherLast_round_trip_identity sevens 2 1 1 1 0%Z untouched cube_of_rank);
    first [lia | intros; split; reflexivity].
Defined.

(** X13: whatever the other processes reply, [_LayerNorm_2p5D.forward],
    [AllGatherLast.backward] and [SplitFirst.forward] issue no collective
    call; when they return, [_LayerNorm_2p5D.backward] has issued exactly
    two all-reduces in the row group it saved, and [AllGatherLast.forward]
    and [SplitFirst.backward] exactly one all-gather each, in the group
    they were given. *)
Theorem remaining_operations_calls `{!GlobalContext, !Allocator} (o : Oracle)
    (input E_x Var_x : Tensor) (hidden_size : Z) (row_parallel_mode : ParallelMode)
    (ln_ctx : LayerNormCtx) (gather_ctx : GatherCtx) (split_ctx : SplitCtx)
    (inputs output_grad : Tensor) (tesseract_dim : Z) (col_parallel_mode : ParallelMode) :
  trace_of o (LayerNorm_2p5D_forward input E_x Var_x hidden_size row_parallel_mode) = []
  ∧ trace_of o (AllGatherLast_backward gather_ctx output_grad) = []
  ∧ trace_of o (SplitFirst_forward inputs tesseract_dim col_parallel_mode) = []
  ∧ (∀ grads,
       result_of o (LayerNorm_2p5D_backward ln_ctx output_grad) = inr grads →
       sigs o 0 (LayerNorm_2p5D_backward ln_ctx output_grad)
       = [SigAllReduce (ln_row_parallel_mode ln_ctx);
          SigAllReduce (ln_row_parallel_mode ln_ctx)])
  ∧ (∀ r,
       result_of o (AllGatherLast_forward inputs tesseract_dim col_parallel_mode) = inr r →
       sigs o 0 (AllGatherLast_forward inputs tesseract_dim col_parallel_mode)
       = [SigAllGather col_parallel_mode])
  ∧ (∀ grads,
       result_of o (SplitFirst_backward split_ctx output_grad) = inr grads →
       sigs o 0 (SplitFirst_backward split_ctx output_grad)
       = [SigAllGather (split_para_mode split_ctx)]).
Proof.
  split_and!.
  - apply trace_pure, pure_LayerNorm_forward.
  - apply trace_pure, pure_AllGatherLast_backward.
  - apply trace_pure, pure_SplitFirst_forward.
  - intros grads. apply LayerNorm_backward_sigs_ok.
  - intros r. apply AllGatherLast_forward_sigs_ok.
  - intros grads. apply SplitFirst_backward_sigs_ok.
Qed.

Lemma remaining_operations_calls_witness :
  ∃ grads,
    result_of alone
      (LayerNorm_2p5D_backward
         {| ln_hidden_size := 2; ln_saved_tensors := (square_1234, column_12);
            ln_row_parallel_mode := PARALLEL_2P5D_ROW |} square_1021)
    = inr grads
    ∧ sigs alone 0
        (LayerNorm_2p5D_backward
           {| ln_hidden_size := 2; ln_saved_tensors := (square_1234, column_12);
              ln_row_parallel_mode := PARALLEL_2P5D_ROW |} square_1021)
      = [SigAllReduce PARALLEL_2P5D_ROW; SigAllReduce PARALLEL_2P5D_ROW].
Proof.
  eexists.
  match goal with
  | |- ?P ∧ _ => assert P as Hrun by (vm_compute; reflexivity)
  end.
  split; [exact Hrun|].
  exact (proj1 (proj2 (proj2 (proj2
           (@remaining_operations_calls alone_gpc sevens alone ones11 ones11 ones11 2
              PARALLEL_2P5D_ROW
              {| ln_hidden_size := 2; ln_saved_tensors := (square_1234, column_12);
                 ln_row_parallel_mode := PARALLEL_2P5D_ROW |}
              {| gather_tesseract_dim := 1; gather_row_rank := 0 |}
              {| split_tesseract_dim := 1; split_batch_size := 1;
                 split_para_mode := PARALLEL_2P5D_COL |}
              ones11 square_1021 1 PARALLEL_2P5D_COL)))) _ Hrun).
Defined.

(** X14: [Add_Bias_2p5D.backward] on a [d] by [d] grid, every process
    receiving an output gradient of shape [s ++ [size]] with at least two
    dimensions: within one round every process returns the gradient of the
    bias and [None] for the rest, seventeen entries with the output
    gradient first when the bias was added, sixteen with [None] first when
    the add was skipped.  The gradient of the bias has shape [[size]] when
    the bias was added (the leading dimensions are summed away) and the
    whole shape of the output gradient when the add was skipped. *)
Theorem Add_Bias_backward_shapes (d : nat) (grad : nat → Tensor) (skip_bias_add : bool)
    (s : list nat) (size : nat)
    (dep_rank data_parallel_rank pipeline_parallel_rank pipeline_parallel_size
       tensor_parallel_size : Z) (scratch : nat → Tensor → list Q) :
  0 < d → 0 < length s → (∀ p, p < d * d → shape (grad p) = s ++ [size]) →
  ∃ bias_grad : nat → Tensor,
    run_grid d (slice_offset (Z.of_nat d) dep_rank data_parallel_rank
                  pipeline_parallel_rank pipeline_parallel_size tensor_parallel_size)
      scratch 1
      (launch d (Bias_backward_process d grad skip_bias_add dep_rank data_parallel_rank
                   pipeline_parallel_rank pipeline_parallel_size tensor_parallel_size))
    = Some ((λ p, inr ((if skip_bias_add then None else Some (grad p))
                         :: Some (bias_grad p)
                         :: replicate (if skip_bias_add then 14 else 15) None))
              <$> seq 0 (d * d))
    ∧ ∀ p, p < d * d →
        shape (bias_grad p) = if skip_bias_add then s ++ [size] else [size].
Proof.
  intros Hd Hs Hgrad.
  exists (λ p, if decide (row_of d p = 0)
               then tensor_sum (Bias_reduced grad skip_bias_add p)
                      (Bias_reduced grad skip_bias_add <$> group_members d PARALLEL_2P5D_COL p)
               else torch_zeros_like (Bias_reduced grad skip_bias_add p)).
  split.
  - rewrite (Add_Bias_backward_grid d 0 grad grad grad skip_bias_add dep_rank data_parallel_rank
               pipeline_parallel_rank pipeline_parallel_size tensor_parallel_size scratch Hd)
      by (intros p q Hp Hq; by rewrite !Hgrad).
    done.
  - intros p Hp.
    destruct (shape_Bias_gradient d grad skip_bias_add s size p (Hgrad p Hp))
      as (bias_grad & Heq & Hshape).
    cbv beta.
    match goal with
    | |- shape ?t = _ =>
        assert (t = bias_grad) as -> by (unfold Bias_gradients in Heq; congruence)
    end.
    rewrite Hshape.
    destruct skip_bias_add; [done|]. destruct (decide (s = [])) as [->|]; [|done].
    simpl in Hs. lia.
Qed.

Lemma Add_Bias_backward_shapes_witness :
  ∃ bias_grad : nat → Tensor,
    run_grid 2 (slice_offset 2 1 0 0 1 8) untouched 1
      (launch 2 (Bias_backward_process 2 (λ _, ones23) false 1 0 0 1 8))
    = Some ((λ p, inr (Some ones23 :: Some (bias_grad p) :: replicate 15 None)) <$> seq 0 4)
    ∧ ∀ p, p < 2 * 2 → shape (bias_grad p) = [3].
Proof.
  apply (Add_Bias_backward_shapes 2 (λ _, ones23) false [2] 3 1 0 0 1 8 untouched);
    first [lia | simpl; lia | reflexivity].
Defined.

(** X15: the forwards of [Matmul_AB_2p5D] and [Matmul_ABT_2p5D] flatten the
    leading dimensions of [A]: when the last dimension [h > 0] of [A] fits
    [B] (so that the assertion passes), they issue the same calls and end
    with the same output or the same exception on [A] as on [A] reshaped to
    the matrix of [h] columns; only the saved context differs. *)
Theorem forward_flattens_A `{!GlobalContext, !Allocator} (ctx : bool) (A B : Tensor)
    (s : list nat) (h : nat) (tesseract_dim : Z) (out_shape : list Z)
    (row_rank col_rank dep_rank : Z) (row_parallel_mode col_parallel_mode : ParallelMode)
    (data_parallel_rank pipeline_parallel_rank pipeline_parallel_size
       tensor_parallel_size : Z) (o : Oracle) :
  shape A = s ++ [h] → 0 < h →
  (py_index (shape B) (-2) = Some h →
   trace_of o (Matmul_AB_2p5D_forward ctx A B tesseract_dim out_shape row_rank col_rank
                 dep_rank row_parallel_mode col_parallel_mode data_parallel_rank
                 pipeline_parallel_rank pipeline_parallel_size tensor_parallel_size)
   = trace_of o (Matmul_AB_2p5D_forward ctx (as_matrix A) B tesseract_dim out_shape row_rank
                   col_rank dep_rank row_parallel_mode col_parallel_mode data_parallel_rank
                   pipeline_parallel_rank pipeline_parallel_size tensor_parallel_size)
   ∧ sum_map id fst
       (result_of o (Matmul_AB_2p5D_forward ctx A B tesseract_dim out_shape row_rank col_rank
                       dep_rank row_parallel_mode col_parallel_mode data_parallel_rank
                       pipeline_parallel_rank pipeline_parallel_size tensor_parallel_size))
     = sum_map id fst
         (result_of o (Matmul_AB_2p5D_forward ctx (as_matrix A) B tesseract_dim out_shape
                         row_rank col_rank dep_rank row_parallel_mode col_parallel_mode
                         data_parallel_rank pipeline_parallel_rank pipeline_parallel_size
                         tensor_parallel_size)))
  ∧ (py_index (shape B) (-1) = Some h →
     trace_of o (Matmul_ABT_2p5D_forward ctx A B tesseract_dim out_shape row_rank col_rank
                   dep_rank row_parallel_mode col_parallel_mode data_parallel_rank
                   pipeline_parallel_rank pipeline_parallel_size tensor_parallel_size)
     = trace_of o (Matmul_ABT_2p5D_forward ctx (as_matrix A) B tesseract_dim out_shape
                     row_rank col_rank dep_rank row_parallel_mode col_parallel_mode
                     data_parallel_rank pipeline_parallel_rank pipeline_parallel_size
                     tensor_parallel_size)
     ∧ sum_map id fst
         (result_of o (Matmul_ABT_2p5D_forward ctx A B tesseract_dim out_shape row_rank
                         col_rank dep_rank row_parallel_mode col_parallel_mode
                         data_parallel_rank pipeline_parallel_rank pipeline_parallel_size
                         tensor_parallel_size))
       = sum_map id fst
           (result_of o (Matmul_ABT_2p5D_forward ctx (as_matrix A) B tesseract_dim out_shape
                           row_rank col_rank dep_rank row_parallel_mode col_parallel_mode
                           data_parallel_rank pipeline_parallel_rank pipeline_parallel_size
                           tensor_parallel_size))).
Proof.
  intros HA Hh. split; intros HB.
  - apply same_output_run. by apply (Matmul_AB_same_output _ _ _ s h).
  - apply same_output_run. by apply (Matmul_ABT_same_output _ _ _ s h).
Qed.

Lemma forward_flattens_A_witness :
  trace_of alone
    (Matmul_AB_2p5D_forward (gpc := alone_gpc) (alloc := sevens) true cube_1234 square_5678 1
       [1; 2; 2]%Z 0 0 0 PARALLEL_2P5D_ROW PARALLEL_2P5D_COL 0 0 1 1)
  = trace_of alone
      (Matmul_AB_2p5D_forward (gpc := alone_gpc) (alloc := sevens) true (as_matrix cube_1234)
         square_5678 1 [1; 2; 2]%Z 0 0 0 PARALLEL_2P5D_ROW PARALLEL_2P5D_COL 0 0 1 1)
  ∧ sum_map id fst
      (result_of alone
         (Matmul_AB_2p5D_forward (gpc := alone_gpc) (alloc := sevens) true cube_1234
            square_5678 1 [1; 2; 2]%Z 0 0 0 PARALLEL_2P5D_ROW PARALLEL_2P5D_COL 0 0 1 1))
    = sum_map id fst
        (result_of alone
           (Matmul_AB_2p5D_forward (gpc := alone_gpc) (alloc := sevens) true
              (as_matrix cube_1234) square_5678 1 [1; 2; 2]%Z 0 0 0
              PARALLEL_2P5D_ROW PARALLEL_2P5D_COL 0 0 1 1)).
Proof.
  apply (proj1 (@forward_flattens_A alone_gpc sevens true cube_1234 square_5678 [1; 2] 2 1
                  [1; 2; 2]%Z 0 0 0 PARALLEL_2P5D_ROW PARALLEL_2P5D_COL 0 0 1 1 alone
                  ltac:(reflexivity) ltac:(lia))).
  reflexivity.
Defined.
